(** * Air-quality ingestion and prompt generation

  A shallow embedding of the two batch stages of the pipeline:
  [1_data_ingest.py] (metadata fetch, archive download, enrichment,
  transform, date window of the driver) and [2_generate_prompts.py]
  (daily resampling, zero-shot and fine-tuning prompt rendering, the
  per-city driver).

  Conventions.  Python objects that the two scripts pass around are
  values of [Py.value]; exceptions are the [Raise] branch of
  [Py.result]; pandas frames are row lists under a column header.
  External services (the HTTP endpoint, the object store, pandas'
  date parser, [str.lower], [int], float means and float formatting)
  are Section variables of the functions that call them. *)

From Stdlib Require Import ZArith List String Ascii Bool Lia DecimalString.
From Stdlib Require Import Sorted Permutation.
From Equations Require Import Equations.
Import ListNotations.

Set Warnings "-register-all".

Local Open Scope string_scope.
Local Open Scope Z_scope.
Local Open Scope list_scope.

Notation "s1 +++ s2" := (String.append s1 s2)
  (at level 60, right associativity).

(* ===================================================================== *)
(** * Python-side primitives *)
(* ===================================================================== *)

Module Py.

(** Exceptions that the two scripts can let escape. *)
Inductive exn : Type :=
| HTTPError | KeyError | TypeError | AttributeError | ValueError | NameError.

Inductive result (A : Type) : Type :=
| Ok (a : A)
| Raise (e : exn).
Arguments Ok {A} a.
Arguments Raise {A} e.

Definition bind {A B} (m : result A) (k : A -> result B) : result B :=
  match m with
  | Ok a => k a
  | Raise e => Raise e
  end.

Fixpoint mapM {A B} (f : A -> result B) (l : list A) : result (list B) :=
  match l with
  | [] => Ok []
  | x :: l' =>
      bind (f x) (fun y => bind (mapM f l') (fun ys => Ok (y :: ys)))
  end.

(** The value of a float other than nan: every finite double is
    [m * 2^e] for two integers; the sign of a zero is not part of the
    value. *)
Inductive float_value : Type :=
| Finite (m e : Z)
| Infinite (negative : bool).

(** Hashable scalars.  [SNaN] stands for a float nan and for pandas'
    NaT; a float is carried by the text [repr] prints for it, which
    is all an f-string shows, and by its value, which is all [==]
    looks at; a timestamp by a count of seconds. *)
Inductive scalar : Type :=
| SNone
| SNaN
| SBool (b : bool)
| SInt (z : Z)
| SFloat (repr : string) (v : float_value)
| SStr (s : string)
| STime (t : Z).

(** Any object met in a JSON document or a frame cell. *)
Inductive value : Type :=
| VScalar (s : scalar)
| VList (l : list value)
| VDict (d : list (string * value)).

Coercion VScalar : scalar >-> value.

Definition str_of_Z (z : Z) : string := NilZero.string_of_int (Z.to_int z).

(** Equality of two float values: [m1 * 2^e1 = m2 * 2^e2], compared
    after scaling both to the smaller exponent. *)
Definition float_value_eqb (a b : float_value) : bool :=
  match a, b with
  | Finite m1 e1, Finite m2 e2 =>
      let e := Z.min e1 e2 in
      m1 * 2 ^ (e1 - e) =? m2 * 2 ^ (e2 - e)
  | Infinite s1, Infinite s2 => Bool.eqb s1 s2
  | _, _ => false
  end.

(** The number a boolean, an integer or a float stands for. *)
Definition number_of (a : scalar) : option float_value :=
  match a with
  | SBool x => Some (Finite (if x then 1 else 0) 0)
  | SInt z => Some (Finite z 0)
  | SFloat _ v => Some v
  | _ => None
  end.

(** Python's [==] on hashable scalars: numbers compare by value
    ([True == 1], [1 == 1.0], [0.0 == -0.0]), [nan != nan]. *)
Definition py_eq (a b : scalar) : bool :=
  match a, b with
  | SNone, SNone => true
  | SStr x, SStr y => String.eqb x y
  | STime x, STime y => x =? y
  | _, _ =>
      match number_of a, number_of b with
      | Some x, Some y => float_value_eqb x y
      | _, _ => false
      end
  end.

(** [pd.isna] on one cell. *)
Definition isna (v : value) : bool :=
  match v with
  | VScalar SNone | VScalar SNaN => true
  | _ => false
  end.

(** [hash(v)] succeeds only on scalars. *)
Definition hashable (v : value) : result scalar :=
  match v with
  | VScalar s => Ok s
  | _ => Raise TypeError
  end.

(** Python's [bool(list)]. *)
Definition truthy {A} (l : list A) : bool :=
  match l with [] => false | _ => true end.

(** ** Dictionaries with string keys (JSON objects) *)

Fixpoint lookup (d : list (string * value)) (k : string) : option value :=
  match d with
  | [] => None
  | (k', v) :: d' => if String.eqb k' k then Some v else lookup d' k
  end.

(** [obj.get(k, default)]: only dictionaries have a [get] method. *)
Definition get (obj : value) (k : string) (default : value) : result value :=
  match obj with
  | VDict d => Ok (match lookup d k with Some v => v | None => default end)
  | _ => Raise AttributeError
  end.

(** [obj[k]] with a string key [k]. *)
Definition getitem (obj : value) (k : string) : result value :=
  match obj with
  | VDict d => match lookup d k with Some v => Ok v | None => Raise KeyError end
  | _ => Raise TypeError
  end.

(** [for x in obj]: lists yield their items, dictionaries their keys,
    strings their characters; nothing else is iterable. *)
Definition iterate (obj : value) : result (list value) :=
  match obj with
  | VList l => Ok l
  | VDict d => Ok (map (fun kv => VScalar (SStr (fst kv))) d)
  | VScalar (SStr s) =>
      Ok (map (fun c => VScalar (SStr (String c EmptyString)))
              (list_ascii_of_string s))
  | _ => Raise TypeError
  end.

(** ** Insertion-ordered dictionaries with scalar keys *)

Section Dict.
Context {A : Type}.

Fixpoint dict_get (m : list (scalar * A)) (k : scalar) : option A :=
  match m with
  | [] => None
  | (k', a) :: m' => if py_eq k' k then Some a else dict_get m' k
  end.

(** [m[k] = a]: an existing key keeps its place. *)
Fixpoint dict_set (m : list (scalar * A)) (k : scalar) (a : A)
  : list (scalar * A) :=
  match m with
  | [] => [(k, a)]
  | (k', a') :: m' =>
      if py_eq k' k then (k', a) :: m' else (k', a') :: dict_set m' k a
  end.

Definition keys (m : list (scalar * A)) : list scalar := map fst m.

End Dict.

(** ** Strings *)

Definition nl : string := String (ascii_of_nat 10) EmptyString.

(** [s.replace(a, b)] for single characters [a] and [b]. *)
Fixpoint replace_char (a b : ascii) (s : string) : string :=
  match s with
  | EmptyString => EmptyString
  | String c s' =>
      String (if Ascii.eqb c a then b else c) (replace_char a b s')
  end.

(** [s.endswith(suffix)]. *)
Definition endswith (s suffix : string) : bool :=
  let n := String.length s in
  let m := String.length suffix in
  if Nat.leb m n then String.eqb (substring (n - m) m s) suffix else false.

Fixpoint zeros (n : nat) : string :=
  match n with O => EmptyString | S n' => String "0"%char (zeros n') end.

(** [str(n).zfill(width)] for a non-negative [n]. *)
Definition zfill (width : nat) (n : Z) : string :=
  let s := str_of_Z n in
  zeros (width - String.length s) +++ s.

(** [sep.join(items)]. *)
Definition join (sep : string) (items : list string) : string :=
  String.concat sep items.

(** [range(a, b)]. *)
Definition range (a b : Z) : list Z :=
  map (fun k => a + Z.of_nat k) (seq 0 (Z.to_nat (b - a))).

(** [l[a:b]] with Python's treatment of negative and overlong bounds. *)
Definition clamp_index (n i : Z) : Z :=
  if i <? 0 then Z.max 0 (i + n) else Z.min i n.

Definition slice {A} (l : list A) (a b : Z) : list A :=
  let n := Z.of_nat (List.length l) in
  let a' := clamp_index n a in
  let b' := clamp_index n b in
  firstn (Z.to_nat (b' - a')) (skipn (Z.to_nat a') l).

(** A [for] loop whose body may raise. *)
Fixpoint foldM {A S} (f : S -> A -> result S) (l : list A) (s : S)
  : result S :=
  match l with
  | [] => Ok s
  | x :: l' => bind (f s x) (foldM f l')
  end.

End Py.

Import Py.

Notation "x <- m ;; k" := (Py.bind m (fun x => k))
  (at level 61, m at next level, right associativity).

(* ===================================================================== *)
(** * Calendar dates *)
(* ===================================================================== *)

Module Calendar.

(** A [datetime.datetime]: proleptic Gregorian ordinal of the day
    (as [date.toordinal]) and the time elapsed within the day.  All
    datetimes of one run carry the same UTC offset.  Ordinals live in
    [Z]; the year range check of [datetime] is outside the model. *)
Record datetime : Type := { ordinal : Z; time_of_day : Z }.

Definition datetime_leb (a b : datetime) : bool :=
  (ordinal a <? ordinal b)
  || ((ordinal a =? ordinal b) && (time_of_day a <=? time_of_day b)).

(** [dt + timedelta(days=n)]. *)
Definition add_days (dt : datetime) (n : Z) : datetime :=
  {| ordinal := ordinal dt + n; time_of_day := time_of_day dt |}.

Definition days_before_month (leap : bool) (month : Z) : Z :=
  let base :=
    nth (Z.to_nat month)
        [0; 0; 31; 59; 90; 120; 151; 181; 212; 243; 273; 304; 334] 0 in
  if (2 <? month) && leap then base + 1 else base.

Definition days_in_month (leap : bool) (month : Z) : Z :=
  let base :=
    nth (Z.to_nat month) [0; 31; 28; 31; 30; 31; 30; 31; 31; 30; 31; 30; 31] 0 in
  if (month =? 2) && leap then base + 1 else base.

(** [datetime._ord2ymd]: ordinal to (year, month, day). *)
Definition ord2ymd (o : Z) : Z * Z * Z :=
  let n := o - 1 in
  let n400 := n / 146097 in
  let n := n mod 146097 in
  let n100 := n / 36524 in
  let n := n mod 36524 in
  let n4 := n / 1461 in
  let n := n mod 1461 in
  let n1 := n / 365 in
  let n := n mod 365 in
  let year := n400 * 400 + 1 + n100 * 100 + n4 * 4 + n1 in
  if (n1 =? 4) || (n100 =? 4) then (year - 1, 12, 31)
  else
    let leap := (n1 =? 3) && (negb (n4 =? 24) || (n100 =? 3)) in
    let month := Z.shiftr (n + 50) 5 in
    let preceding := days_before_month leap month in
    if n <? preceding then
      let month' := month - 1 in
      let preceding' := preceding - days_in_month leap month' in
      (year, month', n - preceding' + 1)
    else (year, month, n - preceding + 1).

(** [date.strftime("%Y")], ["%m"], ["%d"] (years of four digits). *)
Definition strftime_Y (o : Z) : string :=
  let '(y, _, _) := ord2ymd o in zfill 4 y.
Definition strftime_m (o : Z) : string :=
  let '(_, m, _) := ord2ymd o in zfill 2 m.
Definition strftime_d (o : Z) : string :=
  let '(_, _, d) := ord2ymd o in zfill 2 d.

(** [str(date)]: ISO format. *)
Definition isoformat (o : Z) : string :=
  strftime_Y o +++ "-" +++ strftime_m o +++ "-" +++ strftime_d o.

(** [str(x)] on a scalar, as an f-string renders it; a timestamp
    counts seconds from 0001-01-01 00:00:00. *)
Definition py_str (x : scalar) : string :=
  match x with
  | SNone => "None"
  | SNaN => "nan"
  | SBool true => "True"
  | SBool false => "False"
  | SInt z => str_of_Z z
  | SFloat r _ => r
  | SStr s => s
  | STime t =>
      let sod := t mod 86400 in
      isoformat (t / 86400 + 1) +++ " " +++ zfill 2 (sod / 3600) +++ ":"
        +++ zfill 2 (sod mod 3600 / 60) +++ ":" +++ zfill 2 (sod mod 60)
  end.

End Calendar.

Import Calendar.


(* ===================================================================== *)
(** * pandas frames *)
(* ===================================================================== *)

Module Frame.

(** One row: its index label and its cells, in column order. *)
Record row : Type := { label : Z; cells : list value }.

Record DataFrame : Type := { columns : list string; rows : list row }.

(** A frame is rectangular. *)
Definition rectangular (df : DataFrame) : Prop :=
  Forall (fun r => List.length (cells r) = List.length (columns df)) (rows df).

(** [pd.DataFrame()]. *)
Definition empty_frame : DataFrame := {| columns := []; rows := [] |}.

(** [df.empty]: some axis has length zero. *)
Definition empty (df : DataFrame) : bool :=
  negb (truthy (columns df)) || negb (truthy (rows df)).

Definition nrows (df : DataFrame) : nat := List.length (rows df).

(** [c in df.columns]. *)
Definition has_column (df : DataFrame) (c : string) : bool :=
  existsb (fun c' => String.eqb c' c) (columns df).

Fixpoint position (c : string) (cols : list string) : option nat :=
  match cols with
  | [] => None
  | c' :: cols' =>
      if String.eqb c' c then Some O
      else option_map S (position c cols')
  end.

Definition occurrences (c : string) (cols : list string) : nat :=
  List.length (filter (fun c' => String.eqb c' c) cols).

Definition cell_at (p : nat) (r : row) : value := nth p (cells r) (VScalar SNaN).

(** [df[c]] read as a series: [KeyError] without such a column; with
    a repeated label the selection is a frame, on which neither
    [Series.map] followed by a column assignment nor [pd.to_datetime]
    goes through. *)
Definition getitem (df : DataFrame) (c : string) : result (list value) :=
  match position c (columns df), occurrences c (columns df) with
  | Some p, 1%nat => Ok (map (cell_at p) (rows df))
  | Some _, _ => Raise ValueError
  | None, _ => Raise KeyError
  end.

(** Overwrite, in one row, the cell of every column labelled [c]. *)
Fixpoint overwrite (c : string) (v : value) (cols : list string)
         (cs : list value) : list value :=
  match cols, cs with
  | c' :: cols', x :: cs' =>
      (if String.eqb c' c then v else x) :: overwrite c v cols' cs'
  | _, _ => cs
  end.

(** [df[c] = series], the series being aligned with the rows of
    [df]: an existing label is overwritten in place (every column
    carrying it), a new one is appended on the right. *)
Definition setitem (df : DataFrame) (c : string) (series : list value)
  : DataFrame :=
  if has_column df c then
    {| columns := columns df;
       rows := map (fun rv => {| label := label (fst rv);
                                 cells := overwrite c (snd rv) (columns df)
                                                    (cells (fst rv)) |})
                   (combine (rows df) series) |}
  else
    {| columns := columns df ++ [c];
       rows := map (fun rv => {| label := label (fst rv);
                                 cells := cells (fst rv) ++ [snd rv] |})
                   (combine (rows df) series) |}.

(** [df[c] = constant]. *)
Definition setitem_const (df : DataFrame) (c : string) (v : value)
  : DataFrame :=
  setitem df c (map (fun _ => v) (rows df)).

(** Equality of two rows as [duplicated] sees it: cell by cell,
    missing values matching missing values. *)
Definition key_eqb (a b : scalar) : bool :=
  match a, b with
  | SNaN, SNaN => true
  | _, _ => py_eq a b
  end.

Fixpoint keys_eqb (a b : list scalar) : bool :=
  match a, b with
  | [], [] => true
  | x :: a', y :: b' => key_eqb x y && keys_eqb a' b'
  | _, _ => false
  end.

(** The hash table pass of [duplicated(keep='first')]: [seen] holds
    the keys of the rows kept so far. *)
Fixpoint keep_first (seen : list (list scalar))
         (rs : list (row * list scalar)) : list row :=
  match rs with
  | [] => []
  | (r, k) :: rs' =>
      if existsb (keys_eqb k) seen then keep_first seen rs'
      else r :: keep_first (k :: seen) rs'
  end.

(** [df.drop_duplicates()]: hashing a list or a dictionary cell
    raises [TypeError]. *)
Definition drop_duplicates (df : DataFrame) : result DataFrame :=
  ks <- mapM (fun r => mapM hashable (cells r)) (rows df) ;;
  Ok {| columns := columns df;
        rows := keep_first [] (combine (rows df) ks) |}.

(** [df.dropna()]: rows holding a missing value go. *)
Definition dropna (df : DataFrame) : DataFrame :=
  {| columns := columns df;
     rows := filter (fun r => negb (existsb isna (cells r))) (rows df) |}.

(** Cells of a row rearranged for another header, [nan] where the
    row has no such column. *)
Definition reindex (from to : list string) (r : row) : list value :=
  map (fun c => match position c from with
                | Some p => cell_at p r
                | None => VScalar SNaN
                end) to.

Fixpoint relabel (start : Z) (cs : list (list value)) : list row :=
  match cs with
  | [] => []
  | c :: cs' => {| label := start; cells := c |} :: relabel (start + 1) cs'
  end.

(** [pd.concat([a, b], ignore_index=True)]: outer join of the
    headers (labels of [a] first), rows of [a] then rows of [b],
    index renumbered from 0.  The headers of the frames met here are
    those [read_csv] produces, free of repeated labels. *)
Definition concat (a b : DataFrame) : DataFrame :=
  let cols :=
    columns a ++ filter (fun c => negb (existsb (String.eqb c) (columns a)))
                        (columns b) in
  {| columns := cols;
     rows := relabel 0 (map (reindex (columns a) cols) (rows a)
                        ++ map (reindex (columns b) cols) (rows b)) |}.

End Frame.

Import Frame.


(* ===================================================================== *)
(** * Stage 1: [1_data_ingest.py] *)
(* ===================================================================== *)

Module DataIngest.

(** The dictionary built by [extract_metadata_fields]: always the
    same four keys. *)
Record location_record : Type :=
  { location_id : value;
    location_name : value;
    country : value;
    provider : value }.

Definition metadata_map : Type := list (scalar * location_record).

Definition extract_metadata_fields (metadata : value)
  : result location_record :=
  id <- get metadata "id" (SStr "") ;;
  name <- get metadata "name" (SStr "") ;;
  country_obj <- get metadata "country" (VDict []) ;;
  country_name <- get country_obj "name" (SStr "") ;;
  provider_obj <- get metadata "provider" (VDict []) ;;
  provider_name <- get provider_obj "name" (SStr "") ;;
  Ok {| location_id := id;
        location_name := name;
        country := country_name;
        provider := provider_name |}.

(** [metadata.get(location_id, {}).get(field, "")]. *)
Definition lookup_field (field : location_record -> value)
           (metadata : metadata_map) (location_id : value) : result value :=
  k <- hashable location_id ;;
  Ok (match dict_get metadata k with
      | Some record => field record
      | None => VScalar (SStr "")
      end).

Definition enrich_data_with_metadata (data_df : DataFrame)
           (metadata : metadata_map) : result DataFrame :=
  ids <- Frame.getitem data_df "location_id" ;;
  names <- mapM (lookup_field location_name metadata) ids ;;
  let data_df := setitem data_df "location_name" names in
  ids <- Frame.getitem data_df "location_id" ;;
  providers <- mapM (lookup_field provider metadata) ids ;;
  Ok (setitem data_df "provider" providers).

(** What [requests.get] hands back: the status line and the decoded
    body ([None] when the body is not JSON). *)
Record response : Type := { status_code : Z; json : option value }.

Definition raise_for_status (r : response) : result unit :=
  if (400 <=? status_code r) && (status_code r <? 600)
  then Raise HTTPError else Ok tt.

Definition response_json (r : response) : result value :=
  match json r with
  | Some v => Ok v
  | None => Raise ValueError
  end.

Definition add_location (metadata : metadata_map) (location : value)
  : result metadata_map :=
  location_id <- Py.getitem location "id" ;;
  record <- extract_metadata_fields location ;;
  k <- hashable location_id ;;
  Ok (dict_set metadata k record).

(** The body of [get_location_metadata] once the request has
    returned. *)
Definition metadata_of_response (r : response) : result metadata_map :=
  _ <- raise_for_status r ;;
  doc <- response_json r ;;
  location_data <- get doc "results" (VList []) ;;
  locations <- iterate location_data ;;
  foldM add_location locations [].

(** The body of [get_location_ids] once the request has returned. *)
Definition ids_of_response (r : response) : result (list value) :=
  _ <- raise_for_status r ;;
  doc <- response_json r ;;
  results <- get doc "results" (VList []) ;;
  locations <- iterate results ;;
  mapM (fun location => Py.getitem location "id") locations.

Definition inspect {A} (a : A) : {b : A | a = b} := exist _ a eq_refl.

(** [generate_date_range]: the days from [start_date] while not past
    [end_date]. *)
Equations? generate_date_range (current_date end_date : datetime)
  : list datetime
  by wf (Z.to_nat (ordinal end_date - ordinal current_date + 1)) lt :=
  generate_date_range current_date end_date
    with inspect (datetime_leb current_date end_date) := {
    | exist _ true Hle =>
        current_date :: generate_date_range (add_days current_date 1) end_date
    | exist _ false _ => []
    }.
Proof.
  unfold datetime_leb in Hle. simpl.
  apply orb_true_iff in Hle. destruct Hle as [H | H].
  - apply Z.ltb_lt in H. lia.
  - apply andb_true_iff in H. destruct H as [H _].
    apply Z.eqb_eq in H. lia.
Qed.

Section Services.
(** The locations endpoint: bounding box and API key to response. *)
Variable requests_get : value -> string -> response.
(** [list_objects_v2] on the archive bucket: the keys under
    [Contents] for a prefix, [None] when the response has no
    [Contents] entry. *)
Variable list_objects_v2 : string -> option (list string).
(** [get_object], gunzip and [read_csv] of one archive key. *)
Variable read_object : string -> DataFrame.
(** [pd.to_datetime(_, errors='coerce')] on a whole column: one
    call parses all the cells together (the format is inferred from
    the column, not cell by cell) and returns a column of the same
    length, NaT where a cell does not parse, unless the call itself
    raises. *)
Variable to_datetime : list value -> result (list value).
(** [str.lower]. *)
Variable lower : string -> string.

Definition get_location_metadata (city : string) (bbox : value)
           (api_key : string) : result metadata_map :=
  metadata_of_response (requests_get bbox api_key).

Definition object_prefix (location_id : scalar) (date : datetime) : string :=
  "records/csv.gz/locationid=" +++ py_str location_id
    +++ "/year=" +++ strftime_Y (ordinal date)
    +++ "/month=" +++ strftime_m (ordinal date) +++ "/".

Definition day_suffix (date : datetime) : string :=
  strftime_Y (ordinal date) +++ strftime_m (ordinal date)
    +++ strftime_d (ordinal date) +++ ".csv.gz".

(** The inner [for obj in response['Contents']] loop. *)
Definition take_object (date : datetime) (consolidated_df : DataFrame)
           (key : string) : DataFrame :=
  if endswith key (day_suffix date)
  then concat consolidated_df (read_object key)
  else consolidated_df.

(** One (location, day) iteration on the pair
    [(consolidated_df, failed_locations)]. *)
Definition visit_day (location_id : scalar)
           (state : DataFrame * list scalar) (date : datetime)
  : DataFrame * list scalar :=
  match list_objects_v2 (object_prefix location_id date) with
  | Some contents =>
      (fold_left (take_object date) contents (fst state), snd state)
  | None => (fst state, snd state ++ [location_id])
  end.

(** [download_data_to_dataframe], returning next to the
    consolidated frame the local list [failed_locations] as it
    stands at the [return]. *)
Definition download_data_to_dataframe (location_ids : list scalar)
           (start_date end_date : datetime) : DataFrame * list scalar :=
  fold_left
    (fun state location_id =>
       fold_left (visit_day location_id)
                 (generate_date_range start_date end_date) state)
    location_ids (empty_frame, []).

Definition normalize_column (col : string) : string :=
  replace_char " " "_" (lower col).

Definition transform_data_for_rag (df : DataFrame) : result DataFrame :=
  let df := {| columns := map normalize_column (columns df);
               rows := rows df |} in
  let df := if negb (has_column df "location")
            then setitem_const df "location" (SStr "Unknown")
            else df in
  df <- (if has_column df "date"
         then dates <- Frame.getitem df "date" ;;
              timestamps <- to_datetime dates ;;
              Ok (setitem df "timestamp" timestamps)
         else Ok df) ;;
  df <- drop_duplicates df ;;
  Ok (dropna df).

(** ** The driver *)

(** [os.environ]. *)
Variable environ : string -> option string.
(** [int] on a text. *)
Variable int : string -> result Z.
(** [datetime.strptime(_, "%d/%m/%Y %H:%M:%S %z")], [None] on a
    [ValueError]. *)
Variable strptime : string -> option datetime.
(** [load_city_config]: city names with their bounding boxes, in
    file order. *)
Variable load_city_config : string -> result (list (string * value)).
(** Settings read from the environment at import. *)
Variable API_KEY : string.
Variable OUTPUT_FILE_KEY_PREFIX : string.

(** [get_location_ids]: the request carries the module-level
    [headers], built from [API_KEY]. *)
Definition get_location_ids (city : string) (bbox : value)
  : result (list value) :=
  ids_of_response (requests_get bbox API_KEY).

(** [os.getenv(name, default)]. *)
Definition getenv (name default : string) : string :=
  match environ name with
  | Some v => v
  | None => default
  end.

(** The first lines of [main]: [(start_date, end_date)]. *)
Definition date_window : result (datetime * datetime) :=
  let END_DATE_STRING := getenv "END_DATE" "31/12/2023 23:59:59 +0530" in
  NUMBER_OF_DAYS <- match environ "NUMBER_OF_DAYS" with
                    | Some s => int s
                    | None => Ok 10
                    end ;;
  let NUMBER_OF_DAYS := 30 in
  end_date <- match strptime END_DATE_STRING with
              | Some d => Ok d
              | None => Raise ValueError
              end ;;
  let start_date := add_days end_date (- NUMBER_OF_DAYS) in
  Ok (start_date, end_date).

(** The body of the [for city, bbox] loop: the object written by
    [save_to_s3], if any. *)
Definition process_city (start_date end_date : datetime)
           (city : string) (bbox : value)
  : result (option (string * DataFrame)) :=
  location_metadata <- get_location_metadata city bbox API_KEY ;;
  let location_ids := keys location_metadata in
  if truthy location_ids then
    let city_data :=
      fst (download_data_to_dataframe location_ids start_date end_date) in
    if negb (empty city_data) then
      city_data <- enrich_data_with_metadata city_data location_metadata ;;
      transformed_df <- transform_data_for_rag city_data ;;
      Ok (Some (OUTPUT_FILE_KEY_PREFIX +++ "/" +++ city +++ "_data.csv",
                transformed_df))
    else Ok None
  else Ok None.

(** The city loop: objects written so far, and the exception that
    stopped the run, if one did. *)
Fixpoint process_cities (start_date end_date : datetime)
         (config : list (string * value))
         (written : list (string * DataFrame))
  : list (string * DataFrame) * option exn :=
  match config with
  | [] => (written, None)
  | (city, bbox) :: config' =>
      match process_city start_date end_date city bbox with
      | Ok (Some object) =>
          process_cities start_date end_date config' (written ++ [object])
      | Ok None => process_cities start_date end_date config' written
      | Raise e => (written, Some e)
      end
  end.

Definition main : list (string * DataFrame) * option exn :=
  match date_window with
  | Raise e => ([], Some e)
  | Ok (start_date, end_date) =>
      match load_city_config (getenv "CITIES_CONFIG_FILE" "cities_config.json") with
      | Raise e => ([], Some e)
      | Ok city_config => process_cities start_date end_date city_config []
      end
  end.

End Services.

End DataIngest.

(* ===================================================================== *)
(** * Stage 2: [2_generate_prompts.py] *)
(* ===================================================================== *)

Module GeneratePrompts.

(** [sort_values]: a stable insertion sort on a boolean order. *)
Fixpoint insert_by {A} (leb : A -> A -> bool) (x : A) (l : list A) : list A :=
  match l with
  | [] => [x]
  | y :: l' => if leb x y then x :: l else y :: insert_by leb x l'
  end.

Fixpoint sort_by {A} (leb : A -> A -> bool) (l : list A) : list A :=
  match l with
  | [] => []
  | x :: l' => insert_by leb x (sort_by leb l')
  end.

(** One element of [output_list]. *)
Record prompt_record : Type := { Prompt : string; Completion : string }.

(** One element of [prompts]: a bare instruction (zero-shot) or an
    instruction/response dictionary (fine-tuning). *)
Inductive prompt_item : Type :=
| Instruction (instruction : string)
| InstructionResponse (instruction response : string).

(** Module-level settings of the script. *)
Definition parameter_to_use : string := "value".
Definition history_length_days_forecast : Z := 10.
Definition forecast_window_days_forecast : Z := 2.
Definition max_prompts : Z := 3.

Definition history_header : string :=
  "| Date       | Value (µg/m³) |" +++ nl
    +++ "|------------|---------------|" +++ nl.

Definition forecast_header : string :=
  "| Date       | Predicted Value (µg/m³) |" +++ nl
    +++ "|------------|-------------------------|".

Definition completion_zero_shot : string := forecast_header.

Section Generator.
(** Measurements are floats: their type, the mean of the
    non-missing values of a non-empty daily bin ([None] when the
    mean is nan) and the rendering [f"{x:.2f}"] are kept
    abstract. *)
Variable V : Type.
Variable mean : list V -> option V.
Variable format_2f : V -> string.

(** A row of the stored frame as the generator reads it: the
    parsed [datetime] cell, the [location_name] cell and the cell
    of the [parameter] column ([None] for nan). *)
Record observation : Type :=
  { row_datetime : datetime;
    row_location_name : string;
    row_value : option V }.

(** The frame that [read_csv] returns. *)
Variable Dataset : Type.
(** The pandas statements that open the generator, for a frame, a
    location name and a parameter: [pd.to_datetime(df['datetime'])],
    the selection on [df['location_name']], and
    [df_location[[parameter]]] with its daily means.  Either one of
    them raises (a missing column, a datetime text that does not
    parse, datetimes of mixed offsets, a parameter column that is not
    numeric), or the frame is read as the rows below. *)
Variable observations : Dataset -> string -> string
                        -> result (list observation).

(** A row of [daily_data]: the day (as an ordinal) and its mean. *)
Record daily_row : Type := { date : Z; daily_value : V }.

(** [df[df['location_name'] == location_name].sort_values(by='datetime')].
    Rows stamped with the same instant keep their order here; only the
    order in which a bin hands its values to [mean] depends on it. *)
Definition df_location (df : list observation) (location_name : string)
  : list observation :=
  sort_by (fun a b => datetime_leb (row_datetime a) (row_datetime b))
          (filter (fun r => String.eqb (row_location_name r) location_name)
                  df).

(** The non-missing values that fall into the bin of [day]. *)
Definition bin_values (day : Z) (rs : list observation) : list V :=
  flat_map (fun r => if ordinal (row_datetime r) =? day
                     then match row_value r with
                          | Some v => [v]
                          | None => []
                          end
                     else []) rs.

Definition bin_mean (day : Z) (rs : list observation) : option V :=
  match bin_values day rs with
  | [] => None
  | vs => mean vs
  end.

(** [resample('D').mean()] on rows sorted by time: one bin per
    calendar day from the first row's day to the last row's day. *)
Definition resample_daily_mean (rs : list observation)
  : list (Z * option V) :=
  match rs with
  | [] => []
  | first :: _ =>
      map (fun day => (day, bin_mean day rs))
          (range (ordinal (row_datetime first))
                 (ordinal (row_datetime (last rs first)) + 1))
  end.

(** [.dropna()] on one bin: a day without a mean has no row. *)
Definition drop_missing (bin : Z * option V) : list daily_row :=
  match snd bin with
  | Some v => [{| date := fst bin; daily_value := v |}]
  | None => []
  end.

(** [daily_data]: the resampled table after [.dropna().reset_index()],
    with the derived [date] column. *)
Definition daily_data (df : list observation) (location_name : string)
  : list daily_row :=
  flat_map drop_missing (resample_daily_mean (df_location df location_name)).

(** [daily_data['date'].max()]: nan on an empty column. *)
Definition max_date (daily : list daily_row) : option Z :=
  match daily with
  | [] => None
  | r :: rs => Some (fold_left Z.max (map date rs) (date r))
  end.

(** [d + pd.Timedelta(days=n)] and [d - pd.Timedelta(days=n)]; NaT
    and nan give NaT. *)
Definition plus_days (d : option Z) (n : Z) : option Z :=
  option_map (fun o => o + n) d.

Definition minus_days (d : option Z) (n : Z) : option Z :=
  option_map (fun o => o - n) d.

(** The mask [(date >= start) & (date <= end)]. *)
Definition in_window (start_date end_date : option Z) (r : daily_row)
  : bool :=
  match start_date, end_date with
  | Some s, Some e => (s <=? date r) && (date r <=? e)
  | _, _ => false
  end.

(** [f"| {row['date']} | {row[parameter]:.2f} |"]. *)
Definition table_row (r : daily_row) : string :=
  "| " +++ isoformat (date r) +++ " | " +++ format_2f (daily_value r)
    +++ " |".

Definition table_body (rs : list daily_row) : string :=
  join nl (map table_row rs).

(** A date inside an f-string; [missing] is what the empty frame
    leaves there ([nan] or [NaT]). *)
Definition show_date (missing : string) (d : option Z) : string :=
  match d with
  | Some o => isoformat o
  | None => missing
  end.

(** The f-string of the zero-shot branch over its local variables. *)
Definition zero_shot_instruction (location_name parameter : string)
           (start_historical_date end_historical_date : option Z)
           (historical_data : list daily_row)
           (forecast_start_date forecast_end_date : option Z) : string :=
  let formatted_historical_data :=
    history_header +++ table_body historical_data in
  "You are an advanced forecasting system tasked with predicting daily air quality for "
    +++ location_name +++ "." +++ nl
    +++ "The data includes daily mean values for '" +++ parameter
    +++ "' (in µg/m³)." +++ nl +++ nl
    +++ "### Historical Data (from " +++ show_date "NaT" start_historical_date
    +++ " to " +++ show_date "nan" end_historical_date +++ "):" +++ nl
    +++ formatted_historical_data +++ nl +++ nl
    +++ "### Instructions:" +++ nl
    +++ "1. Forecast daily mean '" +++ parameter
    +++ "' for each day from " +++ show_date "NaT" forecast_start_date
    +++ " to " +++ show_date "NaT" forecast_end_date +++ "." +++ nl
    +++ "2. Provide output as a table:" +++ nl
    +++ forecast_header.

Definition fine_tuning_instruction (location_name parameter : string)
           (history : list daily_row) : string :=
  let historical_context := history_header +++ table_body history in
  "You are an advanced forecasting system tasked with predicting daily air quality for "
    +++ location_name +++ "." +++ nl
    +++ "The data includes daily mean values for '" +++ parameter
    +++ "' (in µg/m³)." +++ nl +++ nl
    +++ "### Historical Data:" +++ nl +++ historical_context +++ nl +++ nl
    +++ "### Instructions:" +++ nl
    +++ "1. Forecast daily mean '" +++ parameter +++ "' for each day." +++ nl
    +++ "2. Provide output as a table:" +++ nl
    +++ forecast_header.

Definition future_target (future : list daily_row) : string :=
  forecast_header +++ nl +++ table_body future.

(** One pass of the fine-tuning loop, at index [i], on the pair
    [(output_list, prompts)]. *)
Definition fine_tuning_step (location_name parameter : string)
           (daily : list daily_row)
           (history_length_days forecast_days : Z)
           (state : list prompt_record * list prompt_item) (i : Z)
  : list prompt_record * list prompt_item :=
  let hist_start := i - history_length_days in
  let hist_end := i in
  let future_start := i in
  let future_end := i + forecast_days in
  let instruction :=
    fine_tuning_instruction location_name parameter
                            (slice daily hist_start hist_end) in
  let response := future_target (slice daily future_start future_end) in
  (fst state ++ [{| Prompt := instruction; Completion := response |}],
   snd state ++ [InstructionResponse instruction response]).

(** [create_daily_forecast_prompts_v4]: returns
    [(output_list, prompts)], or raises what its opening statements
    raise, whatever the prompt type.  The local counter
    [prompt_count] is incremented but never read and is left out. *)
Definition create_daily_forecast_prompts_v4
           (df : Dataset) (location_name parameter : string)
           (history_length_days forecast_days : Z) (prompt_type : string)
           (max_prompts_per_city : option Z)
  : result (list prompt_record * list prompt_item) :=
  rows <- observations df location_name parameter ;;
  let daily := daily_data rows location_name in
  Ok
  (if String.eqb prompt_type "zero-shot" then
    let end_historical_date := max_date daily in
    let start_historical_date :=
      minus_days end_historical_date (history_length_days - 1) in
    let forecast_start_date := plus_days end_historical_date 1 in
    let forecast_end_date :=
      plus_days forecast_start_date (forecast_days - 1) in
    let historical_data :=
      sort_by (fun a b => date a <=? date b)
              (filter (in_window start_historical_date end_historical_date)
                      daily) in
    let instruction :=
      zero_shot_instruction location_name parameter
                            start_historical_date end_historical_date
                            historical_data
                            forecast_start_date forecast_end_date in
    ([{| Prompt := instruction; Completion := completion_zero_shot |}],
     [Instruction instruction])
  else if String.eqb prompt_type "fine-tuning" then
    let n := Z.of_nat (List.length daily) in
    if n >=? history_length_days + forecast_days then
      fold_left (fine_tuning_step location_name parameter daily
                                  history_length_days forecast_days)
                (range history_length_days (n - forecast_days + 1))
                ([], [])
    else ([], [])
  else ([], [])).

(** ** The driver *)

(** [get_object] on the target bucket: the decoded body, [None]
    when the call or the decoding raises. *)
Variable s3_get_object : string -> string -> option string.
(** [pd.read_csv] on a body, [None] when it raises. *)
Variable read_csv : string -> option Dataset.
(** [load_city_config], [None] when it raises. *)
Variable load_city_config : string -> option (list (string * value)).
(** Settings read from the environment at import. *)
Variable TARGET_BUCKET_NAME : string.
Variable OUTPUT_FILE_KEY_PREFIX : string.

(** The [try] block returns [None] on any exception. *)
Definition load_data_from_s3 (s3_bucket_name s3_file_key : string)
  : option Dataset :=
  match s3_get_object s3_bucket_name s3_file_key with
  | Some csv_content => read_csv csv_content
  | None => None
  end.

Definition s3_file_key (location : string) : string :=
  OUTPUT_FILE_KEY_PREFIX +++ "/" +++ location +++ "_data.csv".

(** The body of the [for location in locations_list] loop on the
    pair [(all_zero_shot_prompts, all_ft_prompts)]; the two calls of
    the generator are outside any [try]. *)
Definition process_location
           (state : list prompt_record * list prompt_record)
           (location : string)
  : result (list prompt_record * list prompt_record) :=
  match load_data_from_s3 TARGET_BUCKET_NAME (s3_file_key location) with
  | Some df_hourly =>
      zero_shot <- create_daily_forecast_prompts_v4
                     df_hourly location parameter_to_use
                     history_length_days_forecast
                     forecast_window_days_forecast
                     "zero-shot" (Some max_prompts) ;;
      let all_zero_shot_prompts := fst state ++ fst zero_shot in
      fine_tuning <- create_daily_forecast_prompts_v4
                       df_hourly location parameter_to_use
                       history_length_days_forecast
                       forecast_window_days_forecast
                       "fine-tuning" (Some max_prompts) ;;
      let all_ft_prompts := snd state ++ fst fine_tuning in
      Ok (all_zero_shot_prompts, all_ft_prompts)
  | None => Ok state
  end.

(** [main]: the two lists handed to [save_to_json]; an exception of
    the generator ends the run before anything is saved.  A failed
    configuration load is only printed, after which the loop header
    reads the unbound [locations_list]. *)
Definition main : result (list prompt_record * list prompt_record) :=
  match load_city_config "cities_config.json" with
  | Some config => foldM process_location (map fst config) ([], [])
  | None => Raise NameError
  end.

End Generator.

Arguments row_datetime {V} _.
Arguments row_location_name {V} _.
Arguments row_value {V} _.
Arguments date {V} _.
Arguments daily_value {V} _.

End GeneratePrompts.

(* ===================================================================== *)
(** * Statements about the archive download *)
(* ===================================================================== *)

Module DownloadSpec.
Import DataIngest.

Section Archive.
Variable list_objects_v2 : string -> option (list string).
Variable read_object : string -> DataFrame.

(** The (location, day) pairs in the order the two loops visit them. *)
Definition visited (location_ids : list scalar) (start_date end_date : datetime)
  : list (scalar * datetime) :=
  list_prod location_ids (generate_date_range start_date end_date).

(** The listing of the pair holds no key ending in the day's file name
    (in particular when there is no listing at all). *)
Definition unmatched (p : scalar * datetime) : bool :=
  match list_objects_v2 (object_prefix (fst p) (snd p)) with
  | Some contents =>
      negb (existsb (fun key => endswith key (day_suffix (snd p))) contents)
  | None => true
  end.

(** The listing response of the pair has no [Contents] entry. *)
Definition empty_listing (p : scalar * datetime) : bool :=
  match list_objects_v2 (object_prefix (fst p) (snd p)) with
  | Some _ => false
  | None => true
  end.

(** Rows held by the archive objects of the pair's day. *)
Definition pair_rows (p : scalar * datetime) : nat :=
  match list_objects_v2 (object_prefix (fst p) (snd p)) with
  | Some contents =>
      list_sum (map (fun key => nrows (read_object key))
                    (filter (fun key => endswith key (day_suffix (snd p)))
                            contents))
  | None => 0%nat
  end.

(** The failure list holds a location exactly once for each of its
    days without a matching archive object. *)
Definition failures_follow_unmatched_days
           (location_ids : list scalar) (start_date end_date : datetime) : Prop :=
  forall location_id,
    In location_id location_ids ->
    List.length
      (filter (py_eq location_id)
              (snd (download_data_to_dataframe list_objects_v2 read_object
                      location_ids start_date end_date)))
    = List.length
        (filter unmatched
                (map (fun date => (location_id, date))
                     (generate_date_range start_date end_date))).

End Archive.

(** A bucket with one object, for location 42 on 2023-12-02. *)
Definition sample_listing (prefix : string) : option (list string) :=
  if String.eqb prefix "records/csv.gz/locationid=42/year=2023/month=12/"
  then Some ["records/csv.gz/locationid=42/year=2023/month=12/location-42-20231202.csv.gz"]
  else None.

Definition sample_object (key : string) : DataFrame :=
  {| columns := ["location_id"; "datetime"; "value"];
     rows := [ {| label := 0;
                  cells := [VScalar (SInt 42);
                            VScalar (SStr "2023-12-02T01:00:00+05:30");
                            VScalar (SFloat "12.5" (Finite 25 (-1)))] |} ] |}.

Definition midnight (o : Z) : datetime := {| ordinal := o; time_of_day := 0 |}.

End DownloadSpec.

(* ===================================================================== *)
(** * Statements about the date window of the stage 1 driver *)
(* ===================================================================== *)

Module DriverSpec.
Import DataIngest.

(** [os.environ] with one more variable set. *)
Definition setenv (environ : string -> option string) (name v : string)
  : string -> option string :=
  fun n => if String.eqb n name then Some v else environ n.

(** An environment that sets nothing. *)
Definition no_environ : string -> option string := fun _ => None.

(** A stand-in parser for the default end date only. *)
Definition sample_strptime (s : string) : option datetime :=
  if String.eqb s "31/12/2023 23:59:59 +0530"
  then Some {| ordinal := 738885; time_of_day := 86399 |}
  else None.

(** A stand-in for [int] on ASCII texts: blanks around an optional
    sign and decimal digits, single underscores between digits. *)

Definition is_space (c : ascii) : bool :=
  let n := nat_of_ascii c in
  Nat.eqb n 32 || (Nat.leb 9 n && Nat.leb n 13).

Definition is_digit (c : ascii) : bool :=
  let n := nat_of_ascii c in Nat.leb 48 n && Nat.leb n 57.

Fixpoint lstrip (l : list ascii) : list ascii :=
  match l with
  | c :: l' => if is_space c then lstrip l' else l
  | [] => []
  end.

Definition strip (l : list ascii) : list ascii :=
  rev (lstrip (rev (lstrip l))).

(** Digits, single underscores allowed between two digits. *)
Fixpoint digits_value (acc : Z) (after_digit : bool) (l : list ascii)
  : option Z :=
  match l with
  | [] => if after_digit then Some acc else None
  | c :: l' =>
      if is_digit c
      then digits_value (acc * 10 + Z.of_nat (nat_of_ascii c - 48)) true l'
      else if Ascii.eqb c "_" && after_digit
           then digits_value acc false l'
           else None
  end.

Definition sample_int (s : string) : result Z :=
  let body := strip (list_ascii_of_string s) in
  let parsed :=
    match body with
    | c :: l' =>
        if Ascii.eqb c "-" then option_map Z.opp (digits_value 0 false l')
        else if Ascii.eqb c "+" then digits_value 0 false l'
        else digits_value 0 false body
    | [] => None
    end in
  match parsed with
  | Some z => Ok z
  | None => Raise ValueError
  end.

End DriverSpec.

(* ===================================================================== *)
(** * Statements about the metadata fetch *)
(* ===================================================================== *)

Module MetadataSpec.
Import DataIngest.

(** The statuses on which [raise_for_status] raises. *)
Definition http_error (status : Z) : bool :=
  (400 <=? status) && (status <? 600).

(** A 2xx status. *)
Definition success_status (status : Z) : bool :=
  (200 <=? status) && (status <? 300).

(** The fetch raises exactly on the responses whose status is not a
    success. *)
Definition raises_exactly_on_failed_status (r : response) : Prop :=
  (exists e, metadata_of_response r = Raise e)
  <-> success_status (status_code r) = false.

(** Identifiers as the data model has them: integers or strings. *)
Definition plain_identifier (k : scalar) : bool :=
  match k with
  | SInt _ | SStr _ => true
  | _ => false
  end.

Definition object_or_absent (d : list (string * value)) (field : string)
  : bool :=
  match lookup d field with
  | None | Some (VDict _) => true
  | Some _ => false
  end.

(** A result object of the locations endpoint: it carries an
    identifier, and [country] and [provider], when present, are
    objects. *)
Definition well_formed_location (location : value) : bool :=
  match location with
  | VDict d =>
      match lookup d "id" with
      | Some (VScalar k) =>
          plain_identifier k && object_or_absent d "country"
          && object_or_absent d "provider"
      | _ => false
      end
  | _ => false
  end.

Definition id_of (location : value) : scalar :=
  match location with
  | VDict d =>
      match lookup d "id" with
      | Some (VScalar k) => k
      | _ => SNone
      end
  | _ => SNone
  end.

(** The [results] array of a response document, empty when the
    document has no such entry. *)
Definition results_of (doc : list (string * value)) : option (list value) :=
  match lookup doc "results" with
  | None => Some []
  | Some (VList locations) => Some locations
  | Some _ => None
  end.

(** Every key of the mapping is an integer or a string. *)
Definition plain_keys {A} (m : list (scalar * A)) : Prop :=
  Forall (fun k => plain_identifier k = true) (keys m).

(** The result object carries the identifier [k]. *)
Definition same_id (k : scalar) (location : value) : bool :=
  match k, id_of location with
  | SInt a, SInt b => a =? b
  | SStr a, SStr b => String.eqb a b
  | _, _ => false
  end.

(** The last element satisfying [p]. *)
Definition find_last {A} (p : A -> bool) (l : list A) : option A :=
  find p (rev l).

(** A 200 response whose single result carries no [id]. *)
Definition response_without_id : response :=
  {| status_code := 200;
     json := Some (VDict [("results",
                           VList [VDict [("name", VScalar (SStr "Anand Vihar"))]])]) |}.

(** A 200 response with two stations. *)
Definition sample_document : list (string * value) :=
  [("results",
    VList [VDict [("id", VScalar (SInt 17));
                  ("name", VScalar (SStr "R K Puram"));
                  ("country", VDict [("name", VScalar (SStr "India"))]);
                  ("provider", VDict [("name", VScalar (SStr "CPCB"))])];
           VDict [("id", VScalar (SInt 42));
                  ("name", VScalar (SStr "Anand Vihar"))]])].

End MetadataSpec.

(* ===================================================================== *)
(** * Statements about enrichment and transform *)
(* ===================================================================== *)

Module EnrichSpec.
Import DataIngest.

(** What enrichment writes next to a location identifier: the field
    of its metadata record, or the empty string without a record. *)
Definition field_or_blank (field : location_record -> value)
           (metadata : metadata_map) (k : scalar) : value :=
  match dict_get metadata k with
  | Some record => field record
  | None => VScalar (SStr "")
  end.

(** The cell of row number [i] under the column at position [q]. *)
Definition cell (df : DataFrame) (i q : nat) : option value :=
  option_map (cell_at q) (nth_error (rows df) i).

(** Two measurement rows, the second from a station that the metadata
    does not know. *)
Definition sample_measurements : DataFrame :=
  {| columns := ["location_id"; "datetime"; "value"];
     rows := [ {| label := 0;
                  cells := [VScalar (SInt 17);
                            VScalar (SStr "2023-12-02T01:00:00+05:30");
                            VScalar (SFloat "12.5" (Finite 25 (-1)))] |};
               {| label := 1;
                  cells := [VScalar (SInt 99);
                            VScalar (SStr "2023-12-02T02:00:00+05:30");
                            VScalar (SFloat "40.0" (Finite 40 0))] |} ] |}.

Definition sample_metadata : metadata_map :=
  [(SInt 17, {| location_id := VScalar (SInt 17);
                location_name := VScalar (SStr "R K Puram");
                country := VScalar (SStr "India");
                provider := VScalar (SStr "CPCB") |})].

End EnrichSpec.

Module TransformSpec.
Import DataIngest.

Definition scalar_of (v : value) : scalar :=
  match v with
  | VScalar s => s
  | _ => SNone
  end.

(** The hash key of a row. *)
Definition row_key (r : row) : list scalar := map scalar_of (cells r).

Definition keyed (rs : list row) : list (row * list scalar) :=
  map (fun r => (r, row_key r)) rs.

Definition hashable_row (r : row) : Prop :=
  mapM hashable (cells r) = Ok (row_key r).

(** No row repeats an earlier one, nor a key of [seen]. *)
Fixpoint all_fresh (seen : list (list scalar)) (rs : list row) : bool :=
  match rs with
  | [] => true
  | r :: rs' =>
      negb (existsb (keys_eqb (row_key r)) seen)
      && all_fresh (row_key r :: seen) rs'
  end.

Section Parser.
Variable to_datetime : list value -> result (list value).
Variable lower : string -> string.

(** The header is left as it is by the normalisation of column
    names. *)
Definition normalized (cols : list string) : Prop :=
  map (normalize_column lower) cols = cols.

(** The frame after the first statement of the transform, which
    renames the columns, and after the second, which sees to a
    [location] column. *)
Definition renamed (df : DataFrame) : DataFrame :=
  {| columns := map (normalize_column lower) (columns df);
     rows := rows df |}.

Definition located (df : DataFrame) : DataFrame :=
  if negb (has_column (renamed df) "location")
  then setitem_const (renamed df) "location" (SStr "Unknown")
  else renamed df.

(** The parser returns a column as long as the one it is given. *)
Definition keeps_length : Prop :=
  forall dates timestamps,
    to_datetime dates = Ok timestamps ->
    List.length timestamps = List.length dates.

(** Parsing the [date] column of the frame once more gives the
    timestamps that the frame carries, under every column labelled
    [timestamp]. *)
Definition reparses (df : DataFrame) : Prop :=
  forall p,
    position "date" (columns df) = Some p ->
    exists timestamps,
      to_datetime (map (cell_at p) (rows df)) = Ok timestamps
      /\ forall q, nth_error (columns df) q = Some "timestamp" ->
                   map (cell_at q) (rows df) = timestamps.

(** Either the frame has no [date] column, or it has exactly one and
    a [timestamp] column next to it. *)
Definition date_stamped (df : DataFrame) : Prop :=
  has_column df "date" = false
  \/ exists p,
      position "date" (columns df) = Some p
      /\ occurrences "date" (columns df) = 1%nat
      /\ has_column df "timestamp" = true.

(** What the two dropping steps and the [location] default leave. *)
Definition clean (df : DataFrame) : Prop :=
  has_column df "location" = true
  /\ date_stamped df
  /\ Forall hashable_row (rows df)
  /\ all_fresh [] (rows df) = true
  /\ Forall (fun r => existsb isna (cells r) = false) (rows df).

(** The transform returns an output of its own unchanged. *)
Definition idempotent_on (df : DataFrame) : Prop :=
  forall df',
    transform_data_for_rag to_datetime lower df = Ok df' ->
    transform_data_for_rag to_datetime lower df' = Ok df'.

End Parser.

(** A stand-in for [str.lower] on ASCII text. *)
Definition lower_ascii (c : ascii) : ascii :=
  let n := nat_of_ascii c in
  if (Nat.leb 65 n && Nat.leb n 90)%bool then ascii_of_nat (n + 32) else c.

Fixpoint sample_lower (s : string) : string :=
  match s with
  | EmptyString => EmptyString
  | String c s' => String (lower_ascii c) (sample_lower s')
  end.

(** A stand-in for the date parser on ISO dates: texts of length ten
    are kept, as timestamps of their length; anything else is NaT. *)
Definition iso_cell (v : value) : value :=
  match v with
  | VScalar (SStr s) =>
      if Nat.eqb (String.length s) 10 then VScalar (STime 0) else VScalar SNaN
  | _ => VScalar SNaN
  end.

Definition sample_to_datetime (dates : list value) : result (list value) :=
  Ok (map iso_cell dates).

(** A stand-in for the date parser on texts [NN/NN/NNNN]: as pandas
    does, it settles the format on the first text of the column, day
    first when that text cannot start with a month, month first
    otherwise, and reads every cell in that format; a cell that does
    not fit is NaT. *)
Definition digit_of (c : ascii) : option Z :=
  let n := nat_of_ascii c in
  if (Nat.leb 48 n && Nat.leb n 57)%bool then Some (Z.of_nat (n - 48))
  else None.

Fixpoint number_of_digits (acc : Z) (l : list ascii) : option Z :=
  match l with
  | [] => Some acc
  | c :: l' =>
      match digit_of c with
      | Some d => number_of_digits (acc * 10 + d) l'
      | None => None
      end
  end.

(** The three numbers of [NN/NN/NNNN]. *)
Definition slash_fields (v : value) : option (Z * Z * Z) :=
  match v with
  | VScalar (SStr s) =>
      match list_ascii_of_string s with
      | [a1; a2; s1; b1; b2; s2; y1; y2; y3; y4] =>
          if (Ascii.eqb s1 "/" && Ascii.eqb s2 "/")%bool then
            match number_of_digits 0 [a1; a2], number_of_digits 0 [b1; b2],
                  number_of_digits 0 [y1; y2; y3; y4] with
            | Some a, Some b, Some y => Some (a, b, y)
            | _, _, _ => None
            end
          else None
      | _ => None
      end
  | _ => None
  end.

Definition is_leap (y : Z) : bool :=
  ((y mod 4 =? 0) && (negb (y mod 100 =? 0) || (y mod 400 =? 0)))%bool.

(** [date(y, m, d).toordinal()]. *)
Definition ymd2ord (y m d : Z) : Z :=
  let y' := y - 1 in
  y' * 365 + y' / 4 - y' / 100 + y' / 400
  + days_before_month (is_leap y) m + d.

(** Midnight of a day, if there is such a day. *)
Definition timestamp_of (y m d : Z) : value :=
  if ((1 <=? m) && (m <=? 12) && (1 <=? d)
      && (d <=? days_in_month (is_leap y) m))%bool
  then VScalar (STime ((ymd2ord y m d - 1) * 86400))
  else VScalar SNaN.

Definition day_first (v : value) : bool :=
  match slash_fields v with
  | Some (a, _, _) => 12 <? a
  | None => false
  end.

Definition slash_cell (dayfirst : bool) (v : value) : value :=
  match slash_fields v with
  | Some (a, b, y) =>
      if dayfirst then timestamp_of y b a else timestamp_of y a b
  | None => VScalar SNaN
  end.

Definition slash_to_datetime (dates : list value) : result (list value) :=
  match dates with
  | [] => Ok []
  | first :: _ => Ok (map (slash_cell (day_first first)) dates)
  end.

(** Two measurements, the first without a value; its date can only
    be read day first. *)
Definition sample_ambiguous : DataFrame :=
  {| columns := ["date"; "value"];
     rows := [ {| label := 0;
                  cells := [VScalar (SStr "13/02/2023"); VScalar SNaN] |};
               {| label := 1;
                  cells := [VScalar (SStr "01/02/2023");
                            VScalar (SFloat "1.5" (Finite 3 (-1)))] |} ] |}.

(** Two rows that differ in the sign of a zero only. *)
Definition sample_zeros : DataFrame :=
  {| columns := ["value"];
     rows := [ {| label := 0;
                  cells := [VScalar (SFloat "0.0" (Finite 0 0))] |};
               {| label := 1;
                  cells := [VScalar (SFloat "-0.0" (Finite 0 0))] |} ] |}.

(** A raw frame with a repeated row and an unparseable date. *)
Definition sample_raw : DataFrame :=
  {| columns := ["Location ID"; "Date"; "value"];
     rows := [ {| label := 0;
                  cells := [VScalar (SInt 17); VScalar (SStr "2023-12-02");
                            VScalar (SFloat "12.5" (Finite 25 (-1)))] |};
               {| label := 1;
                  cells := [VScalar (SInt 17); VScalar (SStr "2023-12-02");
                            VScalar (SFloat "12.5" (Finite 25 (-1)))] |};
               {| label := 2;
                  cells := [VScalar (SInt 17); VScalar (SStr "yesterday");
                            VScalar (SFloat "13.0" (Finite 13 0))] |} ] |}.

End TransformSpec.

(* ===================================================================== *)
(** * Statements about prompt generation *)
(* ===================================================================== *)

Module PromptSpec.
Import GeneratePrompts.

Section Generator.
Variable V : Type.
Variable format_2f : V -> string.

(** The record of the sliding window that starts at row [k] of the
    daily table: [history_length_days] rows of history, then the
    [forecast_days] rows that follow. *)
Definition window_record (location_name parameter : string)
           (daily : list (daily_row V))
           (history_length_days forecast_days : Z) (k : Z) : prompt_record :=
  {| Prompt :=
       fine_tuning_instruction V format_2f location_name parameter
         (slice daily k (k + history_length_days));
     Completion :=
       future_target V format_2f
         (slice daily (k + history_length_days)
                (k + history_length_days + forecast_days)) |}.


(** The rows of the daily table whose day lies in [[lo, hi]]. *)
Definition days_between (lo hi : Z) (daily : list (daily_row V))
  : list (daily_row V) :=
  filter (fun r => (lo <=? date r) && (date r <=? hi)) daily.





End Generator.

Section Claims.
Variable V : Type.
Variable mean : list V -> option V.
Variable format_2f : V -> string.
Variable Dataset : Type.
Variable observations : Dataset -> string -> string
                        -> result (list (observation V)).


(** A call with the prompt type returns two empty lists. *)
Definition returns_two_empty_lists (df : Dataset)
           (location_name parameter : string) (h f : Z)
           (prompt_type : string) : Prop :=
  create_daily_forecast_prompts_v4 V mean format_2f Dataset observations
    df location_name parameter h f prompt_type None
  = Ok ([], []).

End Claims.

(** Integer stand-ins for the float services. *)
Definition sample_mean (vs : list Z) : option Z :=
  match vs with
  | [] => None
  | _ => Some (fold_left Z.add vs 0 / Z.of_nat (List.length vs))
  end.

Definition sample_format (v : Z) : string := str_of_Z v +++ ".00".

(** One measurement a day for station [X], [n] days from
    2023-01-01. *)
Definition sample_days (n : nat) : list (observation Z) :=
  map (fun k => {| row_datetime := {| ordinal := 738521 + Z.of_nat k;
                                      time_of_day := 3600 |};
                   row_location_name := "X";
                   row_value := Some (10 + Z.of_nat k) |})
      (seq 0 n).

(** The same measurements as a stored frame: timestamps, station
    names and integer values. *)
Definition sample_frame (n : nat) : DataFrame :=
  {| columns := ["datetime"; "location_name"; "value"];
     rows := map (fun k => {| label := Z.of_nat k;
                              cells := [VScalar (STime ((738520 + Z.of_nat k)
                                                        * 86400 + 3600));
                                        VScalar (SStr "X");
                                        VScalar (SInt (10 + Z.of_nat k))] |})
                 (seq 0 n) |}.

(** A stored frame that lacks the [datetime] column. *)
Definition frame_without_datetime : DataFrame :=
  {| columns := ["location_name"; "value"];
     rows := [ {| label := 0;
                  cells := [VScalar (SStr "X"); VScalar (SInt 10)] |} ] |}.

(** A stand-in for the opening statements of the generator on frames
    whose [datetime] cells are timestamps already and whose values
    are integers: a missing column raises [KeyError], a cell that is
    no timestamp [ValueError], a value that is no number
    [TypeError]. *)
Definition sample_observation (cells : value * (value * value))
  : result (observation Z) :=
  match cells with
  | (VScalar (STime t), (VScalar (SStr name), VScalar (SInt z))) =>
      Ok {| row_datetime := {| ordinal := t / 86400 + 1;
                               time_of_day := t mod 86400 |};
            row_location_name := name;
            row_value := Some z |}
  | (VScalar (STime t), (VScalar (SStr name), VScalar SNaN)) =>
      Ok {| row_datetime := {| ordinal := t / 86400 + 1;
                               time_of_day := t mod 86400 |};
            row_location_name := name;
            row_value := None |}
  | (VScalar (STime _), (VScalar (SStr _), _)) => Raise TypeError
  | (VScalar (STime _), _) => Raise TypeError
  | _ => Raise ValueError
  end.

Definition sample_observations (df : DataFrame)
           (location_name parameter : string)
  : result (list (observation Z)) :=
  dates <- Frame.getitem df "datetime" ;;
  names <- Frame.getitem df "location_name" ;;
  values <- Frame.getitem df parameter ;;
  mapM sample_observation (combine dates (combine names values)).

(** A store holding the artifact of one city only. *)
Definition sample_store (bucket key : string) : option string :=
  if String.eqb key "prefix/Delhi_data.csv" then Some "delhi" else None.

Definition sample_read_csv (body : string) : option DataFrame :=
  if String.eqb body "delhi" then Some (sample_frame 12) else None.

End PromptSpec.

(* ===================================================================== *)
(** * Sample inputs for the stage 1 driver *)
(* ===================================================================== *)

Module IngestSamples.
Import DataIngest MetadataSpec.

(** An endpoint that answers 500 for the bounding box ["down"] and the
    two-station document otherwise. *)
Definition sample_requests_get (bbox : value) (api_key : string) : response :=
  match bbox with
  | VScalar (SStr "down") => {| status_code := 500; json := None |}
  | _ => {| status_code := 200; json := Some (VDict sample_document) |}
  end.

(** An endpoint whose document has no results. *)
Definition empty_requests_get (bbox : value) (api_key : string) : response :=
  {| status_code := 200; json := Some (VDict [("results", VList [])]) |}.

(** A result object whose [country] entry is JSON null. *)
Definition location_with_null_country : value :=
  VDict [("id", VScalar (SInt 7)); ("name", VScalar (SStr "Lodhi Road"));
         ("country", VScalar SNone)].

End IngestSamples.

(* ===================================================================== *)
(** * Further statements about the archive download *)
(* ===================================================================== *)

Module DownloadMoreSpec.
Import DataIngest.

Section Archive.
Variable list_objects_v2 : string -> option (list string).
Variable read_object : string -> DataFrame.

(** The rows (as cell lists) of the archive objects of the pair's
    day, object after object in listing order. *)
Definition pair_cells (p : scalar * datetime) : list (list value) :=
  match list_objects_v2 (object_prefix (fst p) (snd p)) with
  | Some contents =>
      flat_map (fun key => map cells (rows (read_object key)))
               (filter (fun key => endswith key (day_suffix (snd p)))
                       contents)
  | None => []
  end.

End Archive.

(** The consolidated frame before any file was read, or a rectangular
    frame under the header [cols]. *)
Definition started (cols : list string) (df : DataFrame) : Prop :=
  (columns df = [] /\ rows df = []) \/ (columns df = cols /\ rectangular df).

End DownloadMoreSpec.

(* ===================================================================== *)
(** * Further statements about prompt generation *)
(* ===================================================================== *)

Module PromptMoreSpec.
Import GeneratePrompts.

Section Driver.
Variable V : Type.
Variable mean : list V -> option V.
Variable format_2f : V -> string.
Variable Dataset : Type.
Variable observations : Dataset -> string -> string
                        -> result (list (observation V)).
Variable s3_get_object : string -> string -> option string.
Variable read_csv : string -> option Dataset.
Variable TARGET_BUCKET_NAME : string.
Variable OUTPUT_FILE_KEY_PREFIX : string.

(** The artifact of the city can be fetched and parsed. *)
Definition readable (city : string) : bool :=
  match load_data_from_s3 Dataset s3_get_object read_csv TARGET_BUCKET_NAME
                          (s3_file_key OUTPUT_FILE_KEY_PREFIX city) with
  | Some _ => true
  | None => false
  end.

(** The artifact of the city, when it can be read, goes through the
    opening statements of the generator. *)
Definition accepted (city : string) : Prop :=
  forall df_hourly,
    load_data_from_s3 Dataset s3_get_object read_csv TARGET_BUCKET_NAME
                      (s3_file_key OUTPUT_FILE_KEY_PREFIX city)
    = Some df_hourly ->
    exists rows, observations df_hourly city parameter_to_use = Ok rows.

(** The records one city adds to a sequence, for one prompt type. *)
Definition records_of_city (prompt_type : string) (city : string)
  : list prompt_record :=
  match load_data_from_s3 Dataset s3_get_object read_csv TARGET_BUCKET_NAME
                          (s3_file_key OUTPUT_FILE_KEY_PREFIX city) with
  | Some df_hourly =>
      match create_daily_forecast_prompts_v4
              V mean format_2f Dataset observations
              df_hourly city parameter_to_use
              history_length_days_forecast forecast_window_days_forecast
              prompt_type (Some max_prompts) with
      | Ok lists => fst lists
      | Raise _ => []
      end
  | None => []
  end.

End Driver.

(** The element of [prompts] that goes with a record of
    [output_list]. *)
Definition item_of_record (prompt_type : string) (r : prompt_record)
  : prompt_item :=
  if String.eqb prompt_type "zero-shot" then Instruction (Prompt r)
  else InstructionResponse (Prompt r) (Completion r).

End PromptMoreSpec.

(* ===================================================================== *)
(** * Facts about frames *)
(* ===================================================================== *)

Module FrameFacts.

Lemma mapM_pointwise {A B} (f : A -> result B) (g : A -> B) (l : list A) :
  Forall (fun x => f x = Ok (g x)) l -> mapM f l = Ok (map g l).
Proof.
  induction 1 as [|x l Hx Hl IH]; simpl; [reflexivity|].
  now rewrite Hx, IH.
Qed.

Lemma foldM_app {A S} (f : S -> A -> result S) (l1 l2 : list A) :
  forall s, foldM f (l1 ++ l2) s = bind (foldM f l1 s) (foldM f l2).
Proof.
  induction l1 as [|x l1 IH]; intros s; simpl; [reflexivity|].
  destruct (f s x); simpl; [apply IH | reflexivity].
Qed.

Lemma mapM_inv {A B} (f : A -> result B) (l : list A) :
  forall ys, mapM f l = Ok ys -> Forall2 (fun x y => f x = Ok y) l ys.
Proof.
  induction l as [|x l IH]; simpl; intros ys H.
  - injection H as <-. constructor.
  - destruct (f x) as [y|] eqn:Hx; simpl in H; [|discriminate].
    destruct (mapM f l) as [ys'|]; simpl in H; [|discriminate].
    injection H as <-. constructor; auto.
Qed.

(** ** Column positions *)

Lemma position_bound (c : string) (cols : list string) :
  forall p, position c cols = Some p ->
            (p < List.length cols)%nat /\ nth p cols "" = c.
Proof.
  induction cols as [|c' cols IH]; simpl; intros p H; [discriminate|].
  destruct (String.eqb c' c) eqn:E.
  - injection H as <-. apply String.eqb_eq in E. split; [lia | exact E].
  - destruct (position c cols) as [q|]; [|discriminate].
    injection H as <-. destruct (IH q eq_refl). split; [lia | assumption].
Qed.

Lemma has_column_position (cols : list string) (c : string) :
  existsb (fun c' => String.eqb c' c) cols = true ->
  exists p, position c cols = Some p.
Proof.
  induction cols as [|c' cols IH]; simpl; [discriminate|].
  destruct (String.eqb c' c); simpl.
  - intros _. now exists O.
  - intros H. destruct (IH H) as [p Hp]. exists (S p). now rewrite Hp.
Qed.

Lemma position_has_column (cols : list string) (c : string) (p : nat) :
  position c cols = Some p ->
  existsb (fun c' => String.eqb c' c) cols = true.
Proof.
  revert p. induction cols as [|c' cols IH]; simpl; intros p H; [discriminate|].
  destruct (String.eqb c' c); simpl; [reflexivity|].
  destruct (position c cols) as [q|]; [|discriminate]. now apply (IH q).
Qed.

Lemma position_app_new (cols : list string) (c : string) :
  existsb (fun c' => String.eqb c' c) cols = false ->
  position c (cols ++ [c]) = Some (List.length cols).
Proof.
  induction cols as [|c' cols IH]; simpl.
  - intros _. now rewrite String.eqb_refl.
  - intros H. apply orb_false_iff in H. destruct H as [E H].
    now rewrite E, (IH H).
Qed.

Lemma position_app_old (cols : list string) (c c0 : string) (p : nat) :
  position c cols = Some p -> position c (cols ++ [c0]) = Some p.
Proof.
  revert p. induction cols as [|c' cols IH]; simpl; intros p H; [discriminate|].
  destruct (String.eqb c' c); [exact H|].
  destruct (position c cols) as [q|]; [|discriminate].
  now rewrite (IH q eq_refl).
Qed.

Lemma occurrences_app_other (cols : list string) (c c0 : string) :
  String.eqb c0 c = false ->
  occurrences c (cols ++ [c0]) = occurrences c cols.
Proof.
  intros E. unfold occurrences. rewrite filter_app, length_app. simpl.
  rewrite E. simpl. lia.
Qed.

(** ** Overwriting cells *)

Lemma overwrite_length (c : string) (v : value) (cols : list string) :
  forall cs, List.length (overwrite c v cols cs) = List.length cs.
Proof.
  induction cols as [|c' cols IH]; intros [|x cs]; simpl; auto.
Qed.

Lemma overwrite_twice (c : string) (v : value) (cols : list string) :
  forall cs, overwrite c v cols (overwrite c v cols cs) = overwrite c v cols cs.
Proof.
  induction cols as [|c' cols IH]; intros [|x cs]; simpl; auto.
  rewrite IH. now destruct (String.eqb c' c).
Qed.

Lemma overwrite_elsewhere (c : string) (v d : value) (cols : list string) :
  forall cs q,
    String.eqb (nth q cols "") c = false ->
    nth q (overwrite c v cols cs) d = nth q cs d.
Proof.
  induction cols as [|c' cols IH]; intros [|x cs] q H; simpl; auto.
  destruct q as [|q]; simpl in *.
  - now rewrite H.
  - now apply IH.
Qed.

Lemma overwrite_there (c : string) (v d : value) (cols : list string) :
  forall cs q,
    position c cols = Some q -> (q < List.length cs)%nat ->
    nth q (overwrite c v cols cs) d = v.
Proof.
  induction cols as [|c' cols IH]; intros cs q Hq Hlt; simpl in Hq;
    [discriminate|].
  destruct cs as [|x cs]; simpl in Hlt; [lia|]. simpl.
  destruct (String.eqb c' c).
  - now injection Hq as <-.
  - destruct (position c cols) as [q'|]; [|discriminate].
    injection Hq as <-. simpl. apply IH; [reflexivity | lia].
Qed.

Lemma overwrite_appended (c : string) (v : value) (cols : list string) :
  existsb (fun c' => String.eqb c' c) cols = false ->
  forall cs, List.length cs = List.length cols ->
             overwrite c v (cols ++ [c]) (cs ++ [v]) = cs ++ [v].
Proof.
  induction cols as [|c' cols IH]; intros Hnew [|x cs] Hlen;
    simpl in *; try discriminate.
  - now destruct (String.eqb c c).
  - apply orb_false_iff in Hnew. destruct Hnew as [E Hnew].
    rewrite E. f_equal. apply IH; auto.
Qed.

(** ** Assigning a column *)

Lemma map_combine_snd {A B C} (F : A * B -> C) (h : C -> B) (l : list A) :
  (forall x y, In x l -> h (F (x, y)) = y) ->
  forall ys, List.length ys = List.length l -> map h (map F (combine l ys)) = ys.
Proof.
  induction l as [|x l IH]; intros H [|y ys] Hlen; simpl in *;
    try discriminate; [reflexivity|].
  rewrite H by auto. f_equal. apply IH; auto.
Qed.

Lemma map_combine_fst {A B C D} (F : A * B -> C) (h : C -> D) (h0 : A -> D)
      (l : list A) :
  (forall x y, In x l -> h (F (x, y)) = h0 x) ->
  forall ys, List.length ys = List.length l ->
             map h (map F (combine l ys)) = map h0 l.
Proof.
  induction l as [|x l IH]; intros H [|y ys] Hlen; simpl in *;
    try discriminate; [reflexivity|].
  rewrite H by auto. f_equal. apply IH; auto.
Qed.

Section Setitem.
Variable df : DataFrame.
Variable c : string.
Variable series : list value.
Hypothesis Hrect : rectangular df.
Hypothesis Hlen : List.length series = nrows df.

Lemma setitem_rectangular : rectangular (setitem df c series).
Proof.
  unfold rectangular, setitem in *.
  destruct (has_column df c); simpl; apply Forall_forall; intros r' Hr';
    apply in_map_iff in Hr'; destruct Hr' as ([r v] & <- & Hin);
    apply in_combine_l in Hin; rewrite Forall_forall in Hrect;
    specialize (Hrect r Hin); simpl.
  - now rewrite overwrite_length.
  - rewrite !length_app. simpl. lia.
Qed.

Lemma setitem_nrows : nrows (setitem df c series) = nrows df.
Proof.
  unfold nrows, setitem in *.
  destruct (has_column df c); simpl;
    rewrite length_map, length_combine; lia.
Qed.

Lemma setitem_labels :
  map label (rows (setitem df c series)) = map label (rows df).
Proof.
  unfold setitem, nrows in *.
  destruct (has_column df c); simpl;
    apply (map_combine_fst _ label label); auto.
Qed.

Lemma setitem_has_column : has_column (setitem df c series) c = true.
Proof.
  unfold setitem. destruct (has_column df c) eqn:E; unfold has_column; simpl.
  - exact E.
  - rewrite existsb_app. simpl. rewrite String.eqb_refl. apply orb_true_r.
Qed.

Lemma setitem_column :
  exists q, position c (columns (setitem df c series)) = Some q
            /\ map (cell_at q) (rows (setitem df c series)) = series.
Proof.
  unfold setitem, nrows, has_column, rectangular in *.
  rewrite Forall_forall in Hrect.
  destruct (existsb _ (columns df)) eqn:E; simpl.
  - destruct (has_column_position _ _ E) as [q Hq]. exists q.
    split; [exact Hq|].
    apply map_combine_snd; [|exact Hlen].
    intros r v Hr. unfold cell_at; simpl.
    apply overwrite_there; [exact Hq|].
    rewrite (Hrect r Hr). now apply position_bound in Hq.
  - exists (List.length (columns df)).
    split; [now apply position_app_new|].
    apply map_combine_snd; [|exact Hlen].
    intros r v Hr. unfold cell_at; simpl.
    rewrite <- (Hrect r Hr). now rewrite nth_middle.
Qed.

Lemma setitem_other_column (c' : string) (q : nat) :
  String.eqb c' c = false ->
  position c' (columns df) = Some q ->
  position c' (columns (setitem df c series)) = Some q
  /\ occurrences c' (columns (setitem df c series))
     = occurrences c' (columns df)
  /\ map (cell_at q) (rows (setitem df c series))
     = map (cell_at q) (rows df).
Proof.
  intros Hneq Hq.
  unfold setitem, nrows, rectangular in *.
  rewrite Forall_forall in Hrect.
  destruct (position_bound _ _ _ Hq) as [Hlt Hnth].
  destruct (has_column df c); simpl.
  - repeat split; auto.
    apply map_combine_fst; [|exact Hlen].
    intros r v Hr. unfold cell_at; simpl.
    apply overwrite_elsewhere. now rewrite Hnth.
  - split; [now apply position_app_old|].
    split; [apply occurrences_app_other; now rewrite String.eqb_sym|].
    apply map_combine_fst; [|exact Hlen].
    intros r v Hr. unfold cell_at; simpl.
    apply app_nth1. now rewrite (Hrect r Hr).
Qed.

End Setitem.

End FrameFacts.

Module DownloadFacts.
Import DataIngest DownloadSpec.

Lemma relabel_length (cs : list (list value)) :
  forall start, List.length (relabel start cs) = List.length cs.
Proof.
  induction cs as [|c cs IH]; intros start; simpl; [reflexivity|].
  now rewrite IH.
Qed.

Lemma nrows_concat (a b : DataFrame) :
  nrows (concat a b) = (nrows a + nrows b)%nat.
Proof.
  unfold nrows, concat; simpl.
  now rewrite relabel_length, length_app, !length_map.
Qed.

(** ** The date generator *)

Lemma generate_date_range_step (current_date end_date : datetime) :
  generate_date_range current_date end_date
  = if datetime_leb current_date end_date
    then current_date :: generate_date_range (add_days current_date 1) end_date
    else [].
Proof.
  funelim (generate_date_range current_date end_date).
  - now rewrite Hle.
  - now rewrite e.
Qed.

Lemma range_from_zero (n : nat) :
  range 0 (Z.of_nat (S n)) = 0 :: map Z.succ (range 0 (Z.of_nat n)).
Proof.
  unfold range. rewrite !Z.sub_0_r, !Nat2Z.id. simpl. f_equal.
  rewrite <- seq_shift, !map_map. apply map_ext. intros k. lia.
Qed.

(** The generator yields every day from the start to the end, both
    included, when the start is not later in its day than the end. *)
Lemma generate_date_range_days (start_date end_date : datetime) :
  time_of_day start_date <= time_of_day end_date ->
  generate_date_range start_date end_date
  = map (add_days start_date)
        (range 0 (ordinal end_date - ordinal start_date + 1)).
Proof.
  intros Htime.
  remember (Z.to_nat (ordinal end_date - ordinal start_date + 1)) as n eqn:Hn.
  revert start_date Htime Hn.
  induction n as [|n IH]; intros start_date Htime Hn;
    rewrite generate_date_range_step; unfold datetime_leb.
  - replace (ordinal start_date <? ordinal end_date) with false by lia.
    replace (ordinal start_date =? ordinal end_date) with false by lia.
    simpl. unfold range.
    now replace (Z.to_nat (ordinal end_date - ordinal start_date + 1 - 0))
      with 0%nat by lia.
  - replace ((ordinal start_date <? ordinal end_date)
             || (ordinal start_date =? ordinal end_date)
                && (time_of_day start_date <=? time_of_day end_date))
      with true by lia.
    replace (ordinal end_date - ordinal start_date + 1)
      with (Z.of_nat (S n)) by lia.
    rewrite range_from_zero. simpl. f_equal.
    + destruct start_date as [o t]. unfold add_days. simpl. f_equal. lia.
    + rewrite (IH (add_days start_date 1)); simpl; [|exact Htime | lia].
      replace (ordinal end_date - (ordinal start_date + 1) + 1)
        with (Z.of_nat n) by lia.
      rewrite map_map. apply map_ext. intros k.
      unfold add_days. simpl. f_equal. lia.
Qed.

Section Archive.
Variable list_objects_v2 : string -> option (list string).
Variable read_object : string -> DataFrame.

Lemma take_objects_rows (date : datetime) (contents : list string) :
  forall df,
    nrows (fold_left (take_object read_object date) contents df)
    = (nrows df
       + list_sum (map (fun key => nrows (read_object key))
                       (filter (fun key => endswith key (day_suffix date))
                               contents)))%nat.
Proof.
  induction contents as [|key contents IH]; intros df; simpl.
  - lia.
  - rewrite IH. unfold take_object.
    destruct (endswith key (day_suffix date)); simpl.
    + rewrite nrows_concat. lia.
    + reflexivity.
Qed.

Lemma concat_rectangular (a b : DataFrame) : rectangular (concat a b).
Proof.
  unfold rectangular, concat. simpl.
  set (cols := columns a ++ _).
  assert (H : forall cs start,
             Forall (fun c => List.length c = List.length cols) cs ->
             Forall (fun r => List.length (cells r) = List.length cols)
                    (relabel start cs)).
  { induction cs as [|c cs IH]; intros start Hcs; simpl; constructor;
      inversion Hcs; subst; auto. }
  apply H. apply Forall_app. split; apply Forall_forall; intros c Hc;
    apply in_map_iff in Hc; destruct Hc as (r & <- & _);
    unfold reindex; now rewrite length_map.
Qed.

Lemma take_objects_rectangular (date : datetime) (contents : list string) :
  forall df,
    rectangular df ->
    rectangular (fold_left (take_object read_object date) contents df).
Proof.
  induction contents as [|key contents IH]; intros df Hdf; simpl; [exact Hdf|].
  apply IH. unfold take_object.
  destruct (endswith key (day_suffix date)); [apply concat_rectangular | exact Hdf].
Qed.

(** The consolidated frame is rectangular. *)
Lemma downloaded_frame_rectangular
      (location_ids : list scalar) (start_date end_date : datetime) :
  rectangular (fst (download_data_to_dataframe list_objects_v2 read_object
                      location_ids start_date end_date)).
Proof.
  unfold download_data_to_dataframe.
  assert (Hdays : forall location_id dates state,
             rectangular (fst state) ->
             rectangular
               (fst (fold_left (visit_day list_objects_v2 read_object
                                          location_id) dates state))).
  { intros location_id dates.
    induction dates as [|date dates IH]; intros state Hstate; simpl;
      [exact Hstate|].
    apply IH. unfold visit_day.
    destruct (list_objects_v2 _); simpl; [|exact Hstate].
    now apply take_objects_rectangular. }
  assert (Hstart : rectangular (fst (empty_frame, @nil scalar)))
    by constructor.
  revert Hstart. generalize (empty_frame, @nil scalar).
  induction location_ids as [|location_id location_ids IH];
    intros state Hstate; simpl; [exact Hstate|].
  apply IH. now apply Hdays.
Qed.

Lemma visit_day_rows (location_id : scalar) state (date : datetime) :
  nrows (fst (visit_day list_objects_v2 read_object location_id state date))
  = (nrows (fst state) + pair_rows list_objects_v2 read_object (location_id, date))%nat.
Proof.
  unfold visit_day, pair_rows; simpl.
  destruct (list_objects_v2 _); simpl.
  - apply take_objects_rows.
  - lia.
Qed.

Lemma visit_day_failed (location_id : scalar) state (date : datetime) :
  snd (visit_day list_objects_v2 read_object location_id state date)
  = snd state ++ (if empty_listing list_objects_v2 (location_id, date)
                  then [location_id] else []).
Proof.
  unfold visit_day, empty_listing; simpl.
  destruct (list_objects_v2 _); simpl.
  - now rewrite app_nil_r.
  - reflexivity.
Qed.

Lemma visit_days (location_id : scalar) (dates : list datetime) :
  forall state,
    let state' := fold_left (visit_day list_objects_v2 read_object location_id) dates state in
    nrows (fst state')
    = (nrows (fst state)
       + list_sum (map (pair_rows list_objects_v2 read_object)
                       (map (fun date => (location_id, date)) dates)))%nat
    /\ snd state'
       = snd state
         ++ map fst (filter (empty_listing list_objects_v2)
                            (map (fun date => (location_id, date)) dates)).
Proof.
  induction dates as [|date dates IH]; intros state; simpl.
  - split; [lia | now rewrite app_nil_r].
  - destruct (IH (visit_day list_objects_v2 read_object location_id state date)) as [Hrows Hfailed].
    split.
    + rewrite Hrows, visit_day_rows. lia.
    + rewrite Hfailed, visit_day_failed, <- app_assoc. f_equal.
      destruct (empty_listing list_objects_v2 (location_id, date)); reflexivity.
Qed.

Lemma visit_locations (dates : list datetime) (location_ids : list scalar) :
  forall state,
    let state' :=
      fold_left (fun st location_id => fold_left (visit_day list_objects_v2 read_object location_id) dates st)
                location_ids state in
    nrows (fst state')
    = (nrows (fst state)
       + list_sum (map (pair_rows list_objects_v2 read_object)
                       (list_prod location_ids dates)))%nat
    /\ snd state'
       = snd state
         ++ map fst (filter (empty_listing list_objects_v2)
                            (list_prod location_ids dates)).
Proof.
  induction location_ids as [|location_id location_ids IH]; intros state; simpl.
  - split; [lia | now rewrite app_nil_r].
  - destruct (IH (fold_left (visit_day list_objects_v2 read_object location_id) dates state)) as [Hrows Hfailed].
    destruct (visit_days location_id dates state) as [Hrows1 Hfailed1].
    split.
    + rewrite Hrows, Hrows1, map_app, list_sum_app. lia.
    + rewrite Hfailed, Hfailed1, filter_app, map_app, <- app_assoc.
      reflexivity.
Qed.

Lemma unmatched_pair_has_no_rows (p : scalar * datetime) :
  unmatched list_objects_v2 p = true ->
  pair_rows list_objects_v2 read_object p = 0%nat.
Proof.
  unfold unmatched, pair_rows.
  destruct (list_objects_v2 _) as [contents|]; [|reflexivity].
  intros H. apply negb_true_iff in H.
  induction contents as [|key contents IH]; simpl in *; [reflexivity|].
  apply orb_false_iff in H. destruct H as [Hkey Hrest].
  rewrite Hkey. now apply IH.
Qed.

Lemma rows_of_matched_pairs (ps : list (scalar * datetime)) :
  list_sum (map (pair_rows list_objects_v2 read_object) ps)
  = list_sum (map (pair_rows list_objects_v2 read_object)
                  (filter (fun p => negb (unmatched list_objects_v2 p)) ps)).
Proof.
  induction ps as [|p ps IH]; simpl; [reflexivity|].
  destruct (unmatched list_objects_v2 p) eqn:Hp; simpl.
  - now rewrite (unmatched_pair_has_no_rows p Hp).
  - now rewrite IH.
Qed.

(** C1 (amended).  Over the pairs of the Cartesian product, visited
    location by location and day by day: the failure list holds the
    location of exactly those pairs whose listing response is empty,
    once per such pair and in visiting order; the consolidated frame
    holds the rows of the objects of the matched pairs, so a pair
    without a matching object adds no row, and every pair is visited
    whatever happened on the earlier ones. *)
Theorem download_records_empty_listings
        (location_ids : list scalar) (start_date end_date : datetime) :
  let pairs := visited location_ids start_date end_date in
  snd (download_data_to_dataframe list_objects_v2 read_object location_ids start_date end_date)
  = map fst (filter (empty_listing list_objects_v2) pairs)
  /\ nrows (fst (download_data_to_dataframe list_objects_v2 read_object location_ids start_date end_date))
     = list_sum (map (pair_rows list_objects_v2 read_object)
                     (filter (fun p => negb (unmatched list_objects_v2 p))
                             pairs)).
Proof.
  intros pairs. unfold download_data_to_dataframe.
  destruct (visit_locations (generate_date_range start_date end_date)
                            location_ids (empty_frame, []))
    as [Hrows Hfailed].
  split.
  - exact Hfailed.
  - rewrite Hrows. simpl. apply rows_of_matched_pairs.
Qed.

End Archive.

(** C1, as stated, fails: location 42 has an object for 2023-12-02
    only; on 2023-12-01 its listing is not empty but holds no match,
    and the failure list stays empty. *)
Lemma unmatched_day_is_not_recorded :
  ~ failures_follow_unmatched_days sample_listing sample_object
      [SInt 42] (midnight 738855) (midnight 738855).
Proof.
  intros H. specialize (H (SInt 42) (or_introl eq_refl)).
  vm_compute in H. discriminate H.
Qed.

End DownloadFacts.

(* ===================================================================== *)
(** * The date window of the stage 1 driver *)
(* ===================================================================== *)

Module DriverFacts.
Import DataIngest DriverSpec.

Lemma getenv_setenv_other (environ : string -> option string)
      (name other v default : string) :
  String.eqb other name = false ->
  getenv (setenv environ name v) other default = getenv environ other default.
Proof.
  intros H. unfold getenv, setenv. now rewrite H.
Qed.

(** Whatever integer [NUMBER_OF_DAYS] holds, the window is the thirty
    days before the end date. *)
Lemma date_window_spans_thirty_days
      (environ : string -> option string) (int : string -> result Z)
      (strptime : string -> option datetime)
      (days : string) (n : Z) (end_date : datetime) :
  int days = Ok n ->
  strptime (getenv environ "END_DATE" "31/12/2023 23:59:59 +0530")
  = Some end_date ->
  date_window (setenv environ "NUMBER_OF_DAYS" days) int strptime
  = Ok (add_days end_date (-30), end_date).
Proof.
  intros Hdays Hend. unfold date_window.
  rewrite getenv_setenv_other by reflexivity.
  unfold setenv at 1. simpl String.eqb. cbv iota.
  rewrite Hdays, Hend. reflexivity.
Qed.

(** C4 (the code departs from it).  Two runs that differ only in the
    value of [NUMBER_OF_DAYS], 10 against 20 say, or any two texts
    that [int] reads as numbers, compute the same window: the value
    read from the environment is overwritten by 30 before it is
    used. *)
Theorem number_of_days_is_overwritten
        (environ : string -> option string) (int : string -> result Z)
        (strptime : string -> option datetime)
        (days days' : string) (n n' : Z) :
  int days = Ok n ->
  int days' = Ok n' ->
  date_window (setenv environ "NUMBER_OF_DAYS" days) int strptime
  = date_window (setenv environ "NUMBER_OF_DAYS" days') int strptime.
Proof.
  intros Hdays Hdays'. unfold date_window.
  rewrite !getenv_setenv_other by reflexivity.
  unfold setenv. simpl String.eqb. cbv iota.
  rewrite Hdays, Hdays'. reflexivity.
Qed.

Lemma number_of_days_is_overwritten_witness :
  sample_int "10" = Ok 10
  /\ sample_int "20" = Ok 20
  /\ date_window (setenv no_environ "NUMBER_OF_DAYS" "10") sample_int
                 sample_strptime
     = date_window (setenv no_environ "NUMBER_OF_DAYS" "20") sample_int
                   sample_strptime.
Proof.
  split; [reflexivity|]. split; [reflexivity|].
  apply (number_of_days_is_overwritten no_environ sample_int sample_strptime
           "10" "20" 10 20); reflexivity.
Defined.

Example default_window :
  date_window (setenv no_environ "NUMBER_OF_DAYS" "10") sample_int
              sample_strptime
  = Ok ({| ordinal := 738855; time_of_day := 86399 |},
        {| ordinal := 738885; time_of_day := 86399 |}).
Proof. reflexivity. Qed.

End DriverFacts.

(* ===================================================================== *)
(** * The metadata fetch *)
(* ===================================================================== *)

Module MetadataFacts.
Import DataIngest MetadataSpec.

Lemma int_py_eq (a b : Z) : py_eq (SInt a) (SInt b) = (a =? b).
Proof.
  unfold py_eq, number_of, float_value_eqb. simpl.
  now rewrite !Z.mul_1_r.
Qed.

Lemma plain_py_eq (a b : scalar) :
  plain_identifier a = true -> plain_identifier b = true ->
  py_eq a b = true -> a = b.
Proof.
  destruct a, b; simpl plain_identifier; try discriminate; intros _ _ H.
  - rewrite int_py_eq in H. apply Z.eqb_eq in H. now subst.
  - apply String.eqb_eq in H. now subst.
Qed.

Lemma plain_py_eq_refl (a : scalar) :
  plain_identifier a = true -> py_eq a a = true.
Proof.
  destruct a; simpl plain_identifier; try discriminate; intros _.
  - rewrite int_py_eq. apply Z.eqb_refl.
  - apply String.eqb_refl.
Qed.

Section Dictionaries.
Context {A : Type}.

Lemma dict_set_plain_keys (m : list (scalar * A)) (k : scalar) (a : A) :
  plain_keys m -> plain_identifier k = true -> plain_keys (dict_set m k a).
Proof.
  unfold plain_keys, keys. intros Hm Hk.
  induction m as [|[k1 a1] m IH]; simpl.
  - now constructor.
  - inversion Hm; subst.
    destruct (py_eq k1 k); simpl; constructor; auto.
Qed.

Lemma dict_get_set (m : list (scalar * A)) (k k' : scalar) (a : A) :
  plain_keys m -> plain_identifier k = true -> plain_identifier k' = true ->
  dict_get (dict_set m k a) k' = if py_eq k k' then Some a else dict_get m k'.
Proof.
  unfold plain_keys, keys. intros Hm Hk Hk'.
  induction m as [|[k1 a1] m IH]; simpl.
  - reflexivity.
  - inversion Hm as [|? ? Hk1 Hm']; subst. simpl in Hk1.
    destruct (py_eq k1 k) eqn:E1; simpl.
    + apply plain_py_eq in E1; auto. subst k1.
      now destruct (py_eq k k').
    + rewrite (IH Hm').
      destruct (py_eq k1 k') eqn:E2; [|reflexivity].
      destruct (py_eq k k') eqn:E3; [|reflexivity].
      apply plain_py_eq in E2; auto. apply plain_py_eq in E3; auto.
      subst. now rewrite plain_py_eq_refl in E1.
Qed.

Lemma dict_set_new_key (m : list (scalar * A)) (k : scalar) (a : A) :
  plain_keys m -> plain_identifier k = true -> ~ In k (keys m) ->
  keys (dict_set m k a) = keys m ++ [k].
Proof.
  unfold plain_keys, keys. intros Hm Hk Hnew.
  induction m as [|[k1 a1] m IH]; simpl in *.
  - reflexivity.
  - inversion Hm as [|? ? Hk1 Hm']; subst.
    destruct (py_eq k1 k) eqn:E1; simpl.
    + apply plain_py_eq in E1; auto. subst. tauto.
    + f_equal. apply IH; auto.
Qed.

End Dictionaries.

Lemma well_formed_location_added (m : metadata_map) (location : value) :
  well_formed_location location = true ->
  exists record,
    extract_metadata_fields location = Ok record
    /\ location_id record = VScalar (id_of location)
    /\ plain_identifier (id_of location) = true
    /\ add_location m location = Ok (dict_set m (id_of location) record).
Proof.
  unfold well_formed_location, add_location, extract_metadata_fields, id_of.
  destruct location as [s|l|d]; try discriminate.
  simpl. destruct (lookup d "id") as [[k|l|d']|] eqn:Hid; try discriminate.
  unfold object_or_absent. intros H.
  apply andb_true_iff in H. destruct H as [H Hprovider].
  apply andb_true_iff in H. destruct H as [Hk Hcountry].
  destruct (lookup d "country") as [[?|?|c]|]; try discriminate;
    destruct (lookup d "provider") as [[?|?|p]|]; try discriminate;
    simpl; eexists; repeat split; auto.
Qed.

Lemma find_last_cons {A} (p : A -> bool) (x : A) (l : list A) :
  find_last p (x :: l)
  = match find_last p l with
    | Some y => Some y
    | None => if p x then Some x else None
    end.
Proof.
  unfold find_last. simpl.
  induction (rev l) as [|y r IH]; simpl.
  - reflexivity.
  - destruct (p y); [reflexivity | exact IH].
Qed.

(** The loop of the fetch in closed form: every key is bound to the
    record of the last result carrying it. *)
Lemma add_locations (locations : list value) :
  Forall (fun l => well_formed_location l = true) locations ->
  forall m : metadata_map,
    plain_keys m ->
    exists m',
      foldM add_location locations m = Ok m'
      /\ plain_keys m'
      /\ (forall k, plain_identifier k = true ->
            dict_get m' k
            = match find_last (fun l => py_eq (id_of l) k) locations with
              | Some l => match extract_metadata_fields l with
                          | Ok record => Some record
                          | Raise _ => None
                          end
              | None => dict_get m k
              end)
      /\ (NoDup (keys m ++ map id_of locations) ->
          keys m' = keys m ++ map id_of locations).
Proof.
  induction 1 as [|l ls Hl Hls IH]; intros m Hm.
  - exists m. simpl. repeat split; auto. intros _. now rewrite app_nil_r.
  - destruct (well_formed_location_added m l Hl)
      as (record & Hrec & _ & Hplain & Hadd).
    destruct (IH (dict_set m (id_of l) record)
                 (dict_set_plain_keys m _ record Hm Hplain))
      as (m' & Hfold & Hm' & Hget & Hkeys).
    exists m'. simpl. rewrite Hadd. simpl.
    split; [exact Hfold|]. split; [exact Hm'|]. split.
    + intros k Hk. rewrite (Hget k Hk), find_last_cons.
      destruct (find_last (fun l0 => py_eq (id_of l0) k) ls); [reflexivity|].
      rewrite dict_get_set by auto.
      destruct (py_eq (id_of l) k); [now rewrite Hrec | reflexivity].
    + intros Hnodup.
      assert (Hnew : ~ In (id_of l) (keys m)).
      { intros Hin. apply NoDup_remove_2 in Hnodup. apply Hnodup.
        apply in_or_app. now left. }
      rewrite Hkeys; rewrite dict_set_new_key by auto.
      * now rewrite <- app_assoc.
      * rewrite <- app_assoc. simpl.
        now apply NoDup_Add in Hnodup || exact Hnodup.
Qed.

Lemma find_last_some {A} (p : A -> bool) (l : list A) (x : A) :
  find_last p l = Some x -> In x l /\ p x = true.
Proof.
  unfold find_last. intros H. apply find_some in H.
  destruct H as [Hin Hp]. split; [now apply in_rev | exact Hp].
Qed.

Lemma find_last_none {A} (p : A -> bool) (l : list A) (x : A) :
  find_last p l = None -> In x l -> p x = false.
Proof.
  unfold find_last. intros H Hin.
  apply (find_none p (rev l) H). now apply in_rev in Hin.
Qed.

Lemma error_status_raises (r : response) :
  http_error (status_code r) = true ->
  metadata_of_response r = Raise HTTPError.
Proof.
  unfold http_error, metadata_of_response, raise_for_status.
  intros H. now rewrite H.
Qed.

Lemma results_are_iterated (status : Z) (doc : list (string * value))
      (locations : list value) :
  http_error status = false ->
  results_of doc = Some locations ->
  metadata_of_response {| status_code := status; json := Some (VDict doc) |}
  = foldM add_location locations [].
Proof.
  unfold http_error, metadata_of_response, raise_for_status, results_of.
  simpl. intros Hstatus Hdoc. rewrite Hstatus. simpl.
  destruct (lookup doc "results") as [[?|l|?]|]; try discriminate;
    injection Hdoc as <-; reflexivity.
Qed.

Lemma dict_get_keys {A} (m : list (scalar * A)) (k : scalar) :
  plain_keys m -> plain_identifier k = true ->
  (dict_get m k <> None <-> In k (keys m)).
Proof.
  unfold plain_keys, keys. intros Hm Hk.
  induction m as [|[k1 a1] m IH]; simpl.
  - tauto.
  - inversion Hm as [|? ? Hk1 Hm']; subst. simpl in Hk1.
    destruct (py_eq k1 k) eqn:E.
    + apply plain_py_eq in E; auto. subst. split; [now left | discriminate].
    + rewrite (IH Hm'). split; [now right|].
      intros [->|H]; [|exact H].
      now rewrite plain_py_eq_refl in E.
Qed.

Lemma find_ext_in {A} (p q : A -> bool) (l : list A) :
  (forall x, In x l -> p x = q x) -> find p l = find q l.
Proof.
  induction l as [|x l IH]; intros H; simpl; [reflexivity|].
  rewrite (H x (or_introl eq_refl)).
  destruct (q x); [reflexivity|].
  apply IH. intros y Hy. apply H. now right.
Qed.

(** On result objects with plain identifiers, carrying the
    identifier [k] is what the dictionary tests with [==]. *)
Lemma same_id_py_eq (k : scalar) (locations : list value) :
  plain_identifier k = true ->
  Forall (fun l => well_formed_location l = true) locations ->
  find_last (same_id k) locations
  = find_last (fun l => py_eq (id_of l) k) locations.
Proof.
  intros Hk Hwf. unfold find_last. apply find_ext_in.
  intros l Hl. apply in_rev in Hl.
  rewrite Forall_forall in Hwf.
  destruct (well_formed_location_added [] l (Hwf l Hl))
    as (_ & _ & _ & Hplain & _).
  unfold same_id.
  destruct k, (id_of l); simpl in Hk, Hplain; try discriminate.
  - rewrite int_py_eq. apply Z.eqb_sym.
  - reflexivity.
  - reflexivity.
  - simpl. apply String.eqb_sym.
Qed.

(** C6 (amended).  The fetch raises [HTTPError] on every 4xx or 5xx
    status, whatever the body.  On any other status, for a JSON
    document whose results are objects carrying an integer or string
    identifier (with [country] and [provider] absent or objects), it
    returns a mapping whose keys are exactly the identifiers of the
    results; under each identifier stands the record extracted from
    the last result object that carries it (a later result replaces
    an earlier one), and that record names the identifier; pairwise
    distinct identifiers give one entry per result in response
    order, and zero results give the empty mapping. *)
Theorem metadata_fetch_outcome
        (status : Z) (doc : list (string * value)) (locations : list value) :
  results_of doc = Some locations ->
  Forall (fun l => well_formed_location l = true) locations ->
  (forall body,
      http_error status = true ->
      metadata_of_response {| status_code := status; json := body |}
      = Raise HTTPError)
  /\ (http_error status = false ->
      exists m,
        metadata_of_response
          {| status_code := status; json := Some (VDict doc) |} = Ok m
        /\ (forall k, In k (keys m) <-> In k (map id_of locations))
        /\ (forall k,
              plain_identifier k = true ->
              match find_last (same_id k) locations with
              | Some l =>
                  exists record,
                    dict_get m k = Some record
                    /\ extract_metadata_fields l = Ok record
                    /\ location_id record = VScalar k
              | None => dict_get m k = None
              end)
        /\ (NoDup (map id_of locations) -> keys m = map id_of locations)
        /\ (locations = [] -> m = [])).
Proof.
  intros Hdoc Hwf. split.
  - intros body Hstatus. now apply error_status_raises.
  - intros Hstatus.
    destruct (add_locations locations Hwf [] (Forall_nil _))
      as (m & Hfold & Hkeysplain & Hget & Hkeys).
    exists m. rewrite (results_are_iterated status doc locations Hstatus Hdoc).
    split; [exact Hfold|].
    assert (Hplain : forall l, In l locations ->
                               plain_identifier (id_of l) = true).
    { intros l Hl. rewrite Forall_forall in Hwf.
      destruct (well_formed_location_added [] l (Hwf l Hl))
        as (_ & _ & _ & H & _). exact H. }
    assert (Hlast : forall k,
               plain_identifier k = true ->
               match find_last (same_id k) locations with
               | Some l =>
                   exists record,
                     dict_get m k = Some record
                     /\ extract_metadata_fields l = Ok record
                     /\ location_id record = VScalar k
               | None => dict_get m k = None
               end).
    { intros k Hk. rewrite (Hget k Hk).
      rewrite (same_id_py_eq k locations Hk Hwf).
      destruct (find_last (fun l0 => py_eq (id_of l0) k) locations)
        as [l|] eqn:Hfind; [|reflexivity].
      apply find_last_some in Hfind. destruct Hfind as [Hl Heq].
      apply plain_py_eq in Heq; auto.
      rewrite Forall_forall in Hwf.
      destruct (well_formed_location_added [] l (Hwf l Hl))
        as (record & Hrec & Hid & _ & _).
      exists record. rewrite Hrec. repeat split. now rewrite Hid, Heq. }
    split; [|split; [exact Hlast | split]].
    + intros k. split.
      * intros Hk.
        assert (Hkplain : plain_identifier k = true).
        { unfold plain_keys in Hkeysplain.
          rewrite Forall_forall in Hkeysplain. now apply Hkeysplain. }
        apply (dict_get_keys m k Hkeysplain Hkplain) in Hk.
        specialize (Hlast k Hkplain).
        rewrite (same_id_py_eq k locations Hkplain Hwf) in Hlast.
        destruct (find_last (fun l0 => py_eq (id_of l0) k) locations)
          as [l|] eqn:Hfind; [|contradiction].
        apply find_last_some in Hfind. destruct Hfind as [Hl Heq].
        apply plain_py_eq in Heq; auto. rewrite <- Heq. now apply in_map.
      * intros Hk. apply in_map_iff in Hk. destruct Hk as (l & <- & Hl).
        apply (dict_get_keys m (id_of l) Hkeysplain (Hplain l Hl)).
        specialize (Hlast (id_of l) (Hplain l Hl)).
        rewrite (same_id_py_eq _ locations (Hplain l Hl) Hwf) in Hlast.
        destruct (find_last (fun l0 => py_eq (id_of l0) (id_of l)) locations)
          as [l'|] eqn:Hfind.
        -- destruct Hlast as (record & -> & _). discriminate.
        -- apply (find_last_none _ _ l) in Hfind; [|exact Hl].
           cbv beta in Hfind.
           now rewrite plain_py_eq_refl in Hfind by auto.
    + intros Hnodup. now apply Hkeys.
    + intros ->. simpl in Hfold. now injection Hfold as <-.
Qed.

Lemma metadata_fetch_outcome_witness :
  results_of sample_document
  = Some [VDict [("id", VScalar (SInt 17));
                 ("name", VScalar (SStr "R K Puram"));
                 ("country", VDict [("name", VScalar (SStr "India"))]);
                 ("provider", VDict [("name", VScalar (SStr "CPCB"))])];
          VDict [("id", VScalar (SInt 42));
                 ("name", VScalar (SStr "Anand Vihar"))]]
  /\ exists m,
      metadata_of_response
        {| status_code := 200; json := Some (VDict sample_document) |} = Ok m
      /\ keys m = [SInt 17; SInt 42].
Proof.
  split; [reflexivity|].
  destruct (metadata_fetch_outcome 200 sample_document _ eq_refl) as [_ H].
  - repeat constructor.
  - destruct (H eq_refl) as (m & Hm & _ & _ & Hkeys & _).
    exists m. split; [exact Hm|].
    apply Hkeys. repeat constructor; simpl; intuition discriminate.
Defined.

(** C6, as stated, fails: a 200 response whose result object has no
    [id] makes the fetch raise [KeyError]. *)
Lemma success_status_can_raise :
  ~ raises_exactly_on_failed_status response_without_id.
Proof.
  unfold raises_exactly_on_failed_status. intros [H _].
  assert (Hraise : exists e, metadata_of_response response_without_id = Raise e)
    by (exists KeyError; reflexivity).
  specialize (H Hraise). discriminate H.
Qed.

End MetadataFacts.

(* ===================================================================== *)
(** * Enrichment *)
(* ===================================================================== *)

Module EnrichFacts.
Import DataIngest EnrichSpec FrameFacts.

Lemma getitem_inv (df : DataFrame) (c : string) (series : list value) :
  Frame.getitem df c = Ok series ->
  exists p, position c (columns df) = Some p
            /\ occurrences c (columns df) = 1%nat
            /\ series = map (cell_at p) (rows df).
Proof.
  unfold Frame.getitem.
  destruct (position c (columns df)) as [p|]; [|discriminate].
  destruct (occurrences c (columns df)) as [|[|n]]; try discriminate.
  intros H. injection H as <-. now exists p.
Qed.

Lemma getitem_intro (df : DataFrame) (c : string) (p : nat) :
  position c (columns df) = Some p ->
  occurrences c (columns df) = 1%nat ->
  Frame.getitem df c = Ok (map (cell_at p) (rows df)).
Proof.
  unfold Frame.getitem. now intros -> ->.
Qed.

Lemma lookup_fields (field : location_record -> value)
      (metadata : metadata_map) (ks : list scalar) :
  mapM (lookup_field field metadata) (map VScalar ks)
  = Ok (map (field_or_blank field metadata) ks).
Proof.
  induction ks as [|k ks IH]; simpl; [reflexivity|].
  now rewrite IH.
Qed.

Lemma cell_of_column (df : DataFrame) (q : nat) (series : list value) :
  map (cell_at q) (rows df) = series ->
  forall i, cell df i q = nth_error series i.
Proof.
  intros <- i. unfold cell. now rewrite nth_error_map.
Qed.

(** C7.  On a rectangular frame whose [location_id] column holds
    scalar identifiers, enrichment does not raise; in the result every
    row keeps its identifier, and its [location_name] and [provider]
    cells hold the fields of the metadata record of that identifier
    when the mapping has one, and the empty string when it has
    none. *)
Theorem enrich_blank_without_metadata
        (data_df : DataFrame) (metadata : metadata_map) (ks : list scalar) :
  rectangular data_df ->
  Frame.getitem data_df "location_id" = Ok (map VScalar ks) ->
  exists enriched q_id q_name q_provider,
    enrich_data_with_metadata data_df metadata = Ok enriched
    /\ nrows enriched = nrows data_df
    /\ position "location_id" (columns enriched) = Some q_id
    /\ position "location_name" (columns enriched) = Some q_name
    /\ position "provider" (columns enriched) = Some q_provider
    /\ forall i k,
        nth_error ks i = Some k ->
        cell enriched i q_id = Some (VScalar k)
        /\ cell enriched i q_name
           = Some (match dict_get metadata k with
                   | Some record => location_name record
                   | None => VScalar (SStr "")
                   end)
        /\ cell enriched i q_provider
           = Some (match dict_get metadata k with
                   | Some record => provider record
                   | None => VScalar (SStr "")
                   end).
Proof.
  intros Hrect Hids.
  destruct (getitem_inv _ _ _ Hids) as (p & Hp & Hocc & Hcol).
  set (names := map (field_or_blank location_name metadata) ks).
  set (providers := map (field_or_blank provider metadata) ks).
  assert (Hn : List.length ks = nrows data_df).
  { unfold nrows. rewrite <- (length_map VScalar ks), Hcol.
    now rewrite length_map. }
  assert (Hlen1 : List.length names = nrows data_df)
    by (unfold names; now rewrite length_map).
  set (df1 := setitem data_df "location_name" names).
  assert (Hrect1 : rectangular df1) by now apply setitem_rectangular.
  assert (Hlen2 : List.length providers = nrows df1).
  { unfold providers, df1. rewrite length_map, setitem_nrows; auto. }
  destruct (setitem_other_column data_df "location_name" names Hrect Hlen1
                                 "location_id" p eq_refl Hp)
    as (Hp1 & Hocc1 & Hcol1).
  destruct (setitem_column data_df "location_name" names Hrect Hlen1)
    as (q_name & Hq1 & Hnames1).
  fold df1 in Hp1, Hocc1, Hcol1, Hq1, Hnames1.
  destruct (setitem_other_column df1 "provider" providers Hrect1 Hlen2
                                 "location_id" p eq_refl Hp1)
    as (Hp2 & _ & Hcol2).
  destruct (setitem_other_column df1 "provider" providers Hrect1 Hlen2
                                 "location_name" q_name eq_refl Hq1)
    as (Hq2 & _ & Hnames2).
  destruct (setitem_column df1 "provider" providers Hrect1 Hlen2)
    as (q_provider & Hr2 & Hproviders2).
  exists (setitem df1 "provider" providers), p, q_name, q_provider.
  split.
  { unfold enrich_data_with_metadata.
    rewrite Hids. simpl. rewrite lookup_fields. simpl.
    fold names. fold df1.
    rewrite (getitem_intro df1 "location_id" p Hp1) by congruence.
    simpl. rewrite Hcol1, <- Hcol, lookup_fields. reflexivity. }
  split; [rewrite setitem_nrows; auto; now apply setitem_nrows|].
  repeat (split; [assumption|]).
  intros i k Hk.
  rewrite (cell_of_column _ p (map VScalar ks)) by congruence.
  rewrite (cell_of_column _ q_name names) by congruence.
  rewrite (cell_of_column _ q_provider providers) by congruence.
  unfold names, providers. rewrite !nth_error_map, Hk. now repeat split.
Qed.

Lemma enrich_blank_without_metadata_witness :
  rectangular sample_measurements
  /\ Frame.getitem sample_measurements "location_id"
     = Ok (map VScalar [SInt 17; SInt 99])
  /\ exists enriched q_name,
      enrich_data_with_metadata sample_measurements sample_metadata
      = Ok enriched
      /\ position "location_name" (columns enriched) = Some q_name
      /\ cell enriched 0 q_name = Some (VScalar (SStr "R K Puram"))
      /\ cell enriched 1 q_name = Some (VScalar (SStr "")).
Proof.
  assert (Hrect : rectangular sample_measurements)
    by (repeat constructor).
  split; [exact Hrect|]. split; [reflexivity|].
  destruct (enrich_blank_without_metadata
              sample_measurements sample_metadata [SInt 17; SInt 99]
              Hrect eq_refl)
    as (enriched & q_id & q_name & q_provider & He & _ & _ & Hq & _ & Hcells).
  exists enriched, q_name. split; [exact He|]. split; [exact Hq|].
  split.
  - destruct (Hcells 0%nat (SInt 17) eq_refl) as (_ & H & _). exact H.
  - destruct (Hcells 1%nat (SInt 99) eq_refl) as (_ & H & _). exact H.
Defined.

End EnrichFacts.

(* ===================================================================== *)
(** * Transform *)
(* ===================================================================== *)

Module TransformFacts.
Import DataIngest TransformSpec FrameFacts EnrichFacts.

(** ** Dropping duplicates *)

Lemma hashable_cells (cs : list value) :
  forall ks, mapM hashable cs = Ok ks -> ks = map scalar_of cs.
Proof.
  induction cs as [|v cs IH]; simpl; intros ks H.
  - now injection H as <-.
  - destruct v as [s|l|d]; simpl in H; try discriminate.
    destruct (mapM hashable cs) as [ks'|]; simpl in H; [|discriminate].
    injection H as <-. simpl. f_equal. now apply IH.
Qed.

Lemma combine_keys (rs : list row) :
  combine rs (map row_key rs) = keyed rs.
Proof.
  induction rs as [|r rs IH]; simpl; [reflexivity|]. now rewrite IH.
Qed.

Lemma drop_duplicates_inv (df df' : DataFrame) :
  drop_duplicates df = Ok df' ->
  Forall hashable_row (rows df)
  /\ df' = {| columns := columns df;
              rows := keep_first [] (keyed (rows df)) |}.
Proof.
  unfold drop_duplicates. intros H.
  destruct (mapM _ (rows df)) as [kss|] eqn:Hk; simpl in H; [|discriminate].
  injection H as <-.
  apply mapM_inv in Hk.
  assert (Hall : Forall hashable_row (rows df)
                 /\ kss = map row_key (rows df)).
  { induction Hk as [|r ks rs kss' Hr Hrs IH]; simpl.
    - split; [constructor | reflexivity].
    - destruct IH as [IH1 IH2]. pose proof (hashable_cells _ _ Hr) as E.
      split.
      + constructor; [|exact IH1]. unfold hashable_row, row_key.
        now rewrite <- E.
      + unfold row_key at 1. now rewrite <- E, IH2. }
  destruct Hall as [Hall ->]. split; [exact Hall|].
  now rewrite combine_keys.
Qed.

Lemma drop_duplicates_intro (df : DataFrame) :
  Forall hashable_row (rows df) ->
  drop_duplicates df
  = Ok {| columns := columns df; rows := keep_first [] (keyed (rows df)) |}.
Proof.
  intros H. unfold drop_duplicates.
  rewrite (mapM_pointwise _ row_key _ H). simpl. now rewrite combine_keys.
Qed.

Lemma keep_first_sub (rs : list row) :
  forall seen r, In r (keep_first seen (keyed rs)) -> In r rs.
Proof.
  induction rs as [|x rs IH]; simpl; intros seen r H; [exact H|].
  destruct (existsb (keys_eqb (row_key x)) seen).
  - right. now apply (IH seen).
  - destruct H as [<-|H]; [now left | right; now apply (IH _ _ H)].
Qed.

Lemma keep_first_fresh (rs : list row) :
  forall seen, all_fresh seen (keep_first seen (keyed rs)) = true.
Proof.
  induction rs as [|x rs IH]; simpl; intros seen; [reflexivity|].
  destruct (existsb (keys_eqb (row_key x)) seen) eqn:E.
  - apply IH.
  - simpl. now rewrite E, IH.
Qed.

Lemma fresh_kept (rs : list row) :
  forall seen, all_fresh seen rs = true -> keep_first seen (keyed rs) = rs.
Proof.
  induction rs as [|x rs IH]; simpl; intros seen H; [reflexivity|].
  apply andb_true_iff in H. destruct H as [Hx Hrs].
  apply negb_true_iff in Hx. rewrite Hx. f_equal. now apply IH.
Qed.

Lemma existsb_incl {A} (p : A -> bool) (l l' : list A) :
  incl l l' -> existsb p l' = false -> existsb p l = false.
Proof.
  intros Hincl H.
  destruct (existsb p l) eqn:E; [|reflexivity].
  apply existsb_exists in E. destruct E as (x & Hx & Hp).
  assert (existsb p l' = true) by (apply existsb_exists; exists x; auto).
  congruence.
Qed.

Lemma fresh_filter (f : row -> bool) (rs : list row) :
  forall seen seen',
    incl seen' seen -> all_fresh seen rs = true ->
    all_fresh seen' (filter f rs) = true.
Proof.
  induction rs as [|x rs IH]; simpl; intros seen seen' Hincl H;
    [reflexivity|].
  apply andb_true_iff in H. destruct H as [Hx Hrs].
  apply negb_true_iff in Hx.
  destruct (f x); simpl.
  - rewrite (existsb_incl _ _ _ Hincl Hx). simpl.
    apply (IH (row_key x :: seen)); [|exact Hrs].
    intros k [<-|Hk]; [now left | right; now apply Hincl].
  - apply (IH (row_key x :: seen)); [|exact Hrs].
    intros k Hk. right. now apply Hincl.
Qed.

Lemma filter_all {A} (f : A -> bool) (l : list A) :
  Forall (fun x => f x = true) l -> filter f l = l.
Proof.
  induction 1 as [|x l Hx Hl IH]; simpl; [reflexivity|].
  now rewrite Hx, IH.
Qed.

Lemma keep_first_length (rs : list row) :
  forall seen,
    (List.length (keep_first seen (keyed rs)) <= List.length rs)%nat.
Proof.
  induction rs as [|r rs IH]; intros seen; simpl; [lia|].
  destruct (existsb (keys_eqb (row_key r)) seen); simpl.
  - specialize (IH seen). lia.
  - specialize (IH (row_key r :: seen)). lia.
Qed.

Lemma kept_rows_sub (df2 : DataFrame) (r : row) :
  In r (filter (fun r => negb (existsb isna (cells r)))
               (keep_first [] (keyed (rows df2)))) ->
  In r (rows df2).
Proof.
  intros Hr. apply filter_In in Hr. destruct Hr as [Hr _].
  now apply keep_first_sub in Hr.
Qed.

(** ** Assigning a column *)

Lemma row_eta (r : row) : {| label := label r; cells := cells r |} = r.
Proof. now destruct r. Qed.

Lemma frame_eta (df : DataFrame) :
  {| columns := columns df; rows := rows df |} = df.
Proof. now destruct df. Qed.

Lemma has_column_app (cols : list string) (c c0 : string) :
  existsb (fun c' => String.eqb c' c) cols = true ->
  existsb (fun c' => String.eqb c' c) (cols ++ [c0]) = true.
Proof.
  intros H. rewrite existsb_app, H. reflexivity.
Qed.

Lemma setitem_keeps_columns (df : DataFrame) (c c' : string)
      (series : list value) :
  has_column df c' = true -> has_column (setitem df c series) c' = true.
Proof.
  unfold setitem, has_column. intros H.
  destruct (existsb _ (columns df)) eqn:E in |- *; simpl; [exact H|].
  now apply has_column_app.
Qed.

Lemma setitem_fixed (df : DataFrame) (c : string) (series : list value) :
  has_column df c = true ->
  Forall2 (fun r v => overwrite c v (columns df) (cells r) = cells r)
          (rows df) series ->
  setitem df c series = df.
Proof.
  intros Hc H. unfold setitem. rewrite Hc.
  transitivity {| columns := columns df; rows := rows df |};
    [f_equal | apply frame_eta].
  induction H as [|r v rs vs Hr Hrs IH]; simpl; [reflexivity|].
  rewrite IH, Hr. f_equal. apply row_eta.
Qed.

Lemma overwrite_same (c : string) (v d : value) :
  forall cols cs,
    List.length cs = List.length cols ->
    (forall q, nth_error cols q = Some c -> nth q cs d = v) ->
    overwrite c v cols cs = cs.
Proof.
  induction cols as [|c' cols IH]; intros [|x cs] Hlen H; simpl in *;
    try discriminate; [reflexivity|].
  f_equal.
  - destruct (String.eqb c' c) eqn:E; [|reflexivity].
    apply String.eqb_eq in E. subst c'. symmetry. exact (H 0%nat eq_refl).
  - apply IH; [lia|]. intros q Hq. exact (H (S q) Hq).
Qed.

(** A column that already holds the series is left as it is by the
    assignment. *)
Lemma column_fixed (c : string) (cols : list string) (rs : list row) :
  Forall (fun r => List.length (cells r) = List.length cols) rs ->
  forall series,
    List.length series = List.length rs ->
    (forall q, nth_error cols q = Some c -> map (cell_at q) rs = series) ->
    Forall2 (fun r v => overwrite c v cols (cells r) = cells r) rs series.
Proof.
  induction 1 as [|r rs Hr Hrs IH]; intros [|v series] Hlen H;
    simpl in *; try discriminate; constructor.
  - apply (overwrite_same c v (VScalar SNaN)); [exact Hr|].
    intros q Hq. specialize (H q Hq). now injection H.
  - apply IH; [lia|]. intros q Hq. specialize (H q Hq). now injection H.
Qed.

Lemma setitem_const_rectangular (df : DataFrame) (c : string) (v : value) :
  rectangular df -> rectangular (setitem_const df c v).
Proof.
  intros H. apply setitem_rectangular; [exact H|].
  unfold nrows. now rewrite length_map.
Qed.

Lemma position_app_inv (cols : list string) (c c0 : string) (p : nat) :
  String.eqb c0 c = false ->
  position c (cols ++ [c0]) = Some p -> position c cols = Some p.
Proof.
  intros Hneq. revert p.
  induction cols as [|c' cols IH]; simpl; intros p H.
  - now rewrite Hneq in H.
  - destruct (String.eqb c' c); [exact H|].
    destruct (position c (cols ++ [c0])) as [p'|] eqn:E; [|discriminate].
    now rewrite (IH p' eq_refl).
Qed.

Lemma position_nth_error (cols : list string) (c : string) (p : nat) :
  position c cols = Some p -> nth_error cols p = Some c.
Proof.
  revert p. induction cols as [|c' cols IH]; simpl; intros p H;
    [discriminate|].
  destruct (String.eqb c' c) eqn:E.
  - injection H as <-. apply String.eqb_eq in E. now subst.
  - destruct (position c cols) as [p'|]; [|discriminate].
    injection H as <-. simpl. now apply IH.
Qed.

Section Parser.
Variable to_datetime : list value -> result (list value).
Variable lower : string -> string.

(** ** The stages of the transform *)

Lemma transform_inv (df df' : DataFrame) :
  transform_data_for_rag to_datetime lower df = Ok df' ->
  exists df2,
    ((has_column (located lower df) "date" = false /\ df2 = located lower df)
     \/ exists p timestamps,
         position "date" (columns (located lower df)) = Some p
         /\ occurrences "date" (columns (located lower df)) = 1%nat
         /\ to_datetime (map (cell_at p) (rows (located lower df)))
            = Ok timestamps
         /\ df2 = setitem (located lower df) "timestamp" timestamps)
    /\ Forall hashable_row (rows df2)
    /\ df' = {| columns := columns df2;
                rows := filter (fun r => negb (existsb isna (cells r)))
                               (keep_first [] (keyed (rows df2))) |}.
Proof.
  unfold transform_data_for_rag. fold (renamed lower df).
  fold (located lower df). generalize (located lower df). intros df1 H.
  assert (H2 : exists df2,
             ((has_column df1 "date" = false /\ df2 = df1)
              \/ exists p timestamps,
                  position "date" (columns df1) = Some p
                  /\ occurrences "date" (columns df1) = 1%nat
                  /\ to_datetime (map (cell_at p) (rows df1)) = Ok timestamps
                  /\ df2 = setitem df1 "timestamp" timestamps)
             /\ (df3 <- drop_duplicates df2 ;; Ok (dropna df3)) = Ok df').
  { destruct (has_column df1 "date") eqn:Edate.
    - destruct (Frame.getitem df1 "date") as [dates|] eqn:Hdates;
        simpl in H; [|discriminate].
      destruct (getitem_inv _ _ _ Hdates) as (p & Hp & Hocc & ->).
      destruct (to_datetime (map (cell_at p) (rows df1)))
        as [timestamps|] eqn:Hparse; simpl in H; [|discriminate].
      exists (setitem df1 "timestamp" timestamps). split; [|exact H].
      right. exists p, timestamps. auto.
    - exists df1. simpl in H. split; [now left | exact H]. }
  destruct H2 as (df2 & Hstage & Hrest).
  destruct (drop_duplicates df2) as [df3|] eqn:Hdrop; simpl in Hrest;
    [|discriminate].
  injection Hrest as <-.
  destruct (drop_duplicates_inv _ _ Hdrop) as [Hhash ->].
  exists df2. repeat split; auto.
Qed.

(** The frame once it has a [location] column: the rows of the
    input, under the same labels, with the cells of the renamed
    columns where they were. *)
Lemma located_frame (df : DataFrame) :
  rectangular df ->
  rectangular (located lower df)
  /\ map label (rows (located lower df)) = map label (rows df)
  /\ has_column (located lower df) "location" = true
  /\ (forall c, has_column (renamed lower df) c = true ->
                has_column (located lower df) c = true)
  /\ Forall (fun c => In c (map (normalize_column lower) (columns df))
                      \/ c = "location")
            (columns (located lower df))
  /\ (forall p,
        position "date" (columns (located lower df)) = Some p ->
        position "date" (map (normalize_column lower) (columns df)) = Some p
        /\ map (cell_at p) (rows (located lower df))
           = map (cell_at p) (rows df)).
Proof.
  intros Hrect.
  assert (Hrect0 : rectangular (renamed lower df)).
  { unfold rectangular, renamed in *. simpl. now rewrite length_map. }
  unfold located.
  destruct (has_column (renamed lower df) "location") eqn:E; simpl.
  - split; [exact Hrect0|]. split; [reflexivity|]. split; [exact E|].
    split; [auto|]. split; [|auto].
    apply Forall_forall. intros c Hc. now left.
  - assert (Hlen : List.length (map (fun _ : row => VScalar (SStr "Unknown"))
                                    (rows (renamed lower df)))
                   = nrows (renamed lower df))
      by (unfold nrows; now rewrite length_map).
    split; [now apply setitem_const_rectangular|].
    split; [unfold setitem_const; now rewrite setitem_labels|].
    split; [apply setitem_has_column|].
    split; [intros c Hc; now apply setitem_keeps_columns|].
    split.
    + unfold setitem_const, setitem. rewrite E. simpl.
      apply Forall_forall. intros c Hc. apply in_app_or in Hc.
      destruct Hc as [Hc | [<- | []]]; [now left | now right].
    + intros p Hp.
      assert (Hp0 : position "date" (columns (renamed lower df)) = Some p).
      { unfold setitem_const, setitem in Hp. rewrite E in Hp. simpl in Hp.
        now apply (position_app_inv _ "date" "location"). }
      split; [exact Hp0|].
      unfold setitem_const.
      destruct (setitem_other_column (renamed lower df) "location" _
                                     Hrect0 Hlen "date" p eq_refl Hp0)
        as (_ & _ & Hcells).
      exact Hcells.
Qed.

Hypothesis to_datetime_length : keeps_length to_datetime.

(** The frame before the two dropping steps. *)
Lemma stamped_frame (df df' : DataFrame) :
  rectangular df ->
  transform_data_for_rag to_datetime lower df = Ok df' ->
  exists df2,
    rectangular df2
    /\ map label (rows df2) = map label (rows df)
    /\ has_column df2 "location" = true
    /\ (forall c, has_column (renamed lower df) c = true ->
                  has_column df2 c = true)
    /\ Forall (fun c => In c (map (normalize_column lower) (columns df))
                        \/ c = "location" \/ c = "timestamp")
              (columns df2)
    /\ date_stamped df2
    /\ (forall p,
          position "date" (columns df2) = Some p ->
          exists q timestamps,
            position "date" (map (normalize_column lower) (columns df))
            = Some p
            /\ to_datetime (map (cell_at p) (rows df)) = Ok timestamps
            /\ position "timestamp" (columns df2) = Some q
            /\ map (cell_at p) (rows df2) = map (cell_at p) (rows df)
            /\ map (cell_at q) (rows df2) = timestamps)
    /\ Forall hashable_row (rows df2)
    /\ df' = {| columns := columns df2;
                rows := filter (fun r => negb (existsb isna (cells r)))
                               (keep_first [] (keyed (rows df2))) |}.
Proof.
  intros Hrect H.
  destruct (located_frame df Hrect)
    as (Hrect1 & Hlab1 & Hloc1 & Hcols1 & Hnames1 & Hdate1).
  destruct (transform_inv df df' H) as (df2 & Hstage & Hhash & Hdf').
  exists df2.
  destruct Hstage as [[Hno ->] | (p & timestamps & Hp & Hocc & Hparse & ->)].
  - split; [exact Hrect1|]. split; [exact Hlab1|]. split; [exact Hloc1|].
    split; [exact Hcols1|]. split.
    { eapply Forall_impl; [|exact Hnames1]. intros c [Hc | Hc]; auto. }
    split; [now left|]. split; [|split; [exact Hhash | exact Hdf']].
    intros p Hp. apply position_has_column in Hp.
    unfold has_column in Hno. congruence.
  - assert (Hlen : List.length timestamps = nrows (located lower df)).
    { rewrite (to_datetime_length _ _ Hparse). unfold nrows.
      now rewrite length_map. }
    destruct (setitem_other_column (located lower df) "timestamp" timestamps
                                   Hrect1 Hlen "date" p eq_refl Hp)
      as (Hp2 & Hocc2 & Hcells2).
    destruct (setitem_column (located lower df) "timestamp" timestamps
                             Hrect1 Hlen) as (q & Hq & Hstamps).
    destruct (Hdate1 p Hp) as (Hp0 & Hdates).
    split; [now apply setitem_rectangular|].
    split; [rewrite setitem_labels; auto|].
    split; [now apply setitem_keeps_columns|].
    split; [intros c Hc; apply setitem_keeps_columns; now apply Hcols1|].
    split.
    { unfold setitem. destruct (has_column (located lower df) "timestamp");
        simpl.
      - eapply Forall_impl; [|exact Hnames1]. intros c [Hc | Hc]; auto.
      - apply Forall_app. split.
        + eapply Forall_impl; [|exact Hnames1]. intros c [Hc | Hc]; auto.
        + constructor; [auto | constructor]. }
    split.
    { right. exists p. split; [exact Hp2|]. split; [congruence|].
      apply setitem_has_column. }
    split; [|split; [exact Hhash | exact Hdf']].
    intros p' Hp'. rewrite Hp2 in Hp'. injection Hp' as <-.
    exists q, timestamps. rewrite <- Hdates.
    repeat split; auto.
Qed.

Lemma transform_rectangular (df df' : DataFrame) :
  rectangular df ->
  transform_data_for_rag to_datetime lower df = Ok df' ->
  rectangular df'.
Proof.
  intros Hrect H.
  destruct (stamped_frame df df' Hrect H) as (df2 & Hrect2 & Hrest).
  destruct Hrest as (_ & _ & _ & _ & _ & _ & _ & ->).
  unfold rectangular in *. simpl. rewrite Forall_forall in *.
  intros r Hr. apply Hrect2. now apply kept_rows_sub.
Qed.

(** What the transform returns is clean. *)
Lemma output_is_clean (df df' : DataFrame) :
  rectangular df ->
  transform_data_for_rag to_datetime lower df = Ok df' ->
  clean df'.
Proof.
  intros Hrect H.
  destruct (stamped_frame df df' Hrect H)
    as (df2 & _ & _ & Hloc & _ & _ & Hdate & _ & Hhash & ->).
  unfold clean; simpl. split; [exact Hloc|]. split; [exact Hdate|].
  split.
  { rewrite Forall_forall in *. intros r Hr. apply Hhash.
    now apply kept_rows_sub. }
  split.
  { apply (fresh_filter _ _ [] []); [apply incl_refl|].
    apply keep_first_fresh. }
  apply Forall_forall. intros r Hr. apply filter_In in Hr.
  destruct Hr as [_ Hr]. now apply negb_true_iff in Hr.
Qed.

(** The transform leaves a clean frame as it is, when its header is
    normalised and its dates parse again to the timestamps it
    holds. *)
Lemma clean_is_fixed (df : DataFrame) :
  rectangular df ->
  clean df ->
  normalized lower (columns df) ->
  reparses to_datetime df ->
  transform_data_for_rag to_datetime lower df = Ok df.
Proof.
  intros Hrect (Hloc & Hdate & Hhash & Hfresh & Hfull) Hnorm Hre.
  unfold transform_data_for_rag.
  unfold normalized in Hnorm. rewrite Hnorm, frame_eta, Hloc. simpl.
  assert (Hrest : (df0 <- drop_duplicates df ;; Ok (dropna df0)) = Ok df).
  { rewrite (drop_duplicates_intro df Hhash). simpl.
    rewrite (fresh_kept _ _ Hfresh). unfold dropna. simpl.
    rewrite filter_all; [now rewrite frame_eta|].
    eapply Forall_impl; [|exact Hfull]. intros r Hr. simpl in Hr.
    now rewrite Hr. }
  destruct Hdate as [Hno | (p & Hp & Hocc & Hts)].
  - rewrite Hno. exact Hrest.
  - rewrite (position_has_column _ _ _ Hp : has_column df "date" = true).
    rewrite (getitem_intro df "date" p Hp Hocc). simpl.
    destruct (Hre p Hp) as (timestamps & Hparse & Hcolumn).
    rewrite Hparse. simpl.
    rewrite (setitem_fixed df "timestamp" timestamps Hts); [exact Hrest|].
    apply column_fixed; [exact Hrect | | exact Hcolumn].
    rewrite (to_datetime_length _ _ Hparse). now rewrite length_map.
Qed.

(** C5 (amended).  Applying the transform to a frame it has returned
    gives that frame back, same header, same rows with the same
    index labels and the same cells, provided the names of its
    columns are left as they are by the normalisation and parsing
    its [date] column once more gives the timestamps it holds. *)
Theorem transform_is_idempotent (df df' : DataFrame) :
  rectangular df ->
  transform_data_for_rag to_datetime lower df = Ok df' ->
  normalized lower (columns df') ->
  reparses to_datetime df' ->
  transform_data_for_rag to_datetime lower df' = Ok df'.
Proof.
  intros Hrect H Hnorm Hre.
  apply clean_is_fixed; auto.
  - now apply (transform_rectangular df).
  - now apply (output_is_clean df).
Qed.

End Parser.

Lemma sample_to_datetime_length : keeps_length sample_to_datetime.
Proof.
  intros dates timestamps H. injection H as <-. apply length_map.
Qed.

Lemma slash_to_datetime_length : keeps_length slash_to_datetime.
Proof.
  intros [|first dates] timestamps H; injection H as <-;
    [reflexivity | simpl; now rewrite length_map].
Qed.

Lemma transform_is_idempotent_witness :
  rectangular sample_raw
  /\ transform_data_for_rag sample_to_datetime sample_lower sample_raw
     = Ok {| columns := ["location_id"; "date"; "value"; "location";
                         "timestamp"];
             rows := [ {| label := 0;
                          cells := [VScalar (SInt 17);
                                    VScalar (SStr "2023-12-02");
                                    VScalar (SFloat "12.5" (Finite 25 (-1)));
                                    VScalar (SStr "Unknown");
                                    VScalar (STime 0)] |} ] |}
  /\ transform_data_for_rag sample_to_datetime sample_lower
       {| columns := ["location_id"; "date"; "value"; "location";
                      "timestamp"];
          rows := [ {| label := 0;
                       cells := [VScalar (SInt 17);
                                 VScalar (SStr "2023-12-02");
                                 VScalar (SFloat "12.5" (Finite 25 (-1)));
                                 VScalar (SStr "Unknown");
                                 VScalar (STime 0)] |} ] |}
     = Ok {| columns := ["location_id"; "date"; "value"; "location";
                         "timestamp"];
             rows := [ {| label := 0;
                          cells := [VScalar (SInt 17);
                                    VScalar (SStr "2023-12-02");
                                    VScalar (SFloat "12.5" (Finite 25 (-1)));
                                    VScalar (SStr "Unknown");
                                    VScalar (STime 0)] |} ] |}.
Proof.
  assert (Hrect : rectangular sample_raw) by (repeat constructor).
  split; [exact Hrect|]. split; [reflexivity|].
  apply (transform_is_idempotent sample_to_datetime sample_lower
           sample_to_datetime_length sample_raw).
  - exact Hrect.
  - reflexivity.
  - reflexivity.
  - intros p Hp. injection Hp as <-.
    exists [VScalar (STime 0)]. split; [reflexivity|].
    intros [|[|[|[|[|q]]]]] Hq; try discriminate; [reflexivity|].
    destruct q; discriminate.
Defined.

(** C5, as stated, fails: the first row of the frame settles the day
    first reading of its dates and is then dropped for its missing
    value; on the output, the remaining date is read month first, and
    the second pass returns another timestamp. *)
Lemma reparsed_dates_can_differ :
  ~ idempotent_on slash_to_datetime sample_lower sample_ambiguous.
Proof.
  intros H.
  specialize (H _ eq_refl). vm_compute in H. discriminate H.
Qed.

End TransformFacts.

(* ===================================================================== *)
(** * Prompt generation *)
(* ===================================================================== *)

Module PromptFacts.
Import GeneratePrompts PromptSpec FrameFacts.

Section Generator.
Variable V : Type.
Variable mean : list V -> option V.
Variable format_2f : V -> string.
Variable Dataset : Type.
Variable observations : Dataset -> string -> string
                        -> result (list (observation V)).

(** C9.  Two calls that differ only in [max_prompts_per_city] return
    the same pair of lists, or raise the same exception: the argument
    is never read. *)
Theorem max_prompts_per_city_is_ignored
        (df : Dataset) (location_name parameter : string)
        (history_length_days forecast_days : Z) (prompt_type : string)
        (limit limit' : option Z) :
  create_daily_forecast_prompts_v4 V mean format_2f Dataset observations
    df location_name parameter history_length_days forecast_days
    prompt_type limit
  = create_daily_forecast_prompts_v4 V mean format_2f Dataset observations
      df location_name parameter history_length_days forecast_days
      prompt_type limit'.
Proof.
  reflexivity.
Qed.

(** The opening statements decide whether a call raises. *)
Lemma generator_raises
      (df : Dataset) (location_name parameter : string)
      (h f : Z) (prompt_type : string) (limit : option Z) (e : exn) :
  observations df location_name parameter = Raise e ->
  create_daily_forecast_prompts_v4 V mean format_2f Dataset observations
    df location_name parameter h f prompt_type limit
  = Raise e.
Proof.
  intros H. unfold create_daily_forecast_prompts_v4. now rewrite H.
Qed.

(** C10 (amended).  On a dataset that goes through the opening
    statements of the generator, a prompt type that is neither
    ['zero-shot'] nor ['fine-tuning'] falls through both branches:
    two empty lists come back and nothing is raised.  On a dataset
    on which one of those statements raises, the call raises the same
    exception: they run before the prompt type is looked at. *)
Theorem unknown_prompt_type_gives_nothing
        (df : Dataset) (location_name parameter : string)
        (history_length_days forecast_days : Z) (prompt_type : string)
        (limit : option Z) :
  prompt_type <> "zero-shot" ->
  prompt_type <> "fine-tuning" ->
  (forall rows,
      observations df location_name parameter = Ok rows ->
      create_daily_forecast_prompts_v4 V mean format_2f Dataset observations
        df location_name parameter history_length_days forecast_days
        prompt_type limit
      = Ok ([], []))
  /\ (forall e,
         observations df location_name parameter = Raise e ->
         create_daily_forecast_prompts_v4 V mean format_2f Dataset
           observations df location_name parameter history_length_days
           forecast_days prompt_type limit
         = Raise e).
Proof.
  intros Hzs Hft. split.
  - intros rows Hrows. unfold create_daily_forecast_prompts_v4.
    apply String.eqb_neq in Hzs. apply String.eqb_neq in Hft.
    rewrite Hrows. simpl. now rewrite Hzs, Hft.
  - intros e. apply generator_raises.
Qed.

(** ** The daily table is in chronological order *)

Lemma range_increasing (a : Z) (n s : nat) :
  StronglySorted Z.lt (map (fun k => a + Z.of_nat k) (seq s n)).
Proof.
  revert s. induction n as [|n IH]; intros s; simpl; constructor.
  - apply IH.
  - apply Forall_forall. intros x Hx. apply in_map_iff in Hx.
    destruct Hx as (k & <- & Hk). apply in_seq in Hk. lia.
Qed.

Lemma range_sorted (a b : Z) : StronglySorted Z.lt (range a b).
Proof.
  apply range_increasing.
Qed.

Lemma kept_bins_days (g : Z -> option V) (days : list Z) (r : daily_row V) :
  In r (flat_map (drop_missing V) (map (fun day => (day, g day)) days)) ->
  In (date r) days.
Proof.
  induction days as [|d days IH]; simpl; [tauto|].
  intros H. apply in_app_or in H. destruct H as [H|H].
  - unfold drop_missing in H. simpl in H.
    destruct (g d); simpl in H; [|tauto].
    destruct H as [<-|[]]. now left.
  - right. now apply IH.
Qed.

Lemma kept_bins_sorted (g : Z -> option V) (days : list Z) :
  StronglySorted Z.lt days ->
  StronglySorted (fun a b : daily_row V => date a < date b)
                 (flat_map (drop_missing V) (map (fun day => (day, g day)) days)).
Proof.
  induction 1 as [|d days Hdays IH Hd]; simpl; [constructor|].
  unfold drop_missing at 1. simpl.
  destruct (g d); simpl; [|exact IH].
  constructor; [exact IH|].
  apply Forall_forall. intros r Hr. apply kept_bins_days in Hr.
  rewrite Forall_forall in Hd. now apply Hd.
Qed.

Lemma daily_data_sorted (df : list (observation V)) (location_name : string) :
  StronglySorted (fun a b : daily_row V => date a < date b)
                 (daily_data V mean df location_name).
Proof.
  unfold daily_data, resample_daily_mean.
  destruct (df_location V df location_name) as [|first rest]; simpl;
    [constructor|].
  apply (kept_bins_sorted (fun day => bin_mean V mean day (first :: rest))).
  apply range_sorted.
Qed.

(** ** C2: the fine-tuning windows *)

Lemma fine_tuning_loop (location_name parameter : string)
      (daily : list (daily_row V)) (h f : Z) (l : list Z) :
  forall state,
    fst (fold_left (fine_tuning_step V format_2f location_name parameter
                                     daily h f) l state)
    = fst state ++ map (fun i => window_record V format_2f location_name
                                              parameter daily h f (i - h)) l.
Proof.
  induction l as [|i l IH]; intros state; simpl.
  - now rewrite app_nil_r.
  - rewrite IH. simpl. rewrite <- app_assoc. simpl.
    unfold window_record.
    replace (i - h + h) with i by lia. reflexivity.
Qed.

Lemma map_range_shift {A} (F : Z -> A) (a b : Z) :
  map (fun i => F (i - a)) (range a b) = map F (range 0 (b - a)).
Proof.
  unfold range. rewrite !map_map, Z.sub_0_r. apply map_ext.
  intros k. f_equal. lia.
Qed.

Lemma range_length (a b : Z) :
  Z.of_nat (List.length (range a b)) = Z.max 0 (b - a).
Proof.
  unfold range. rewrite length_map, length_seq. lia.
Qed.

Lemma fine_tuning_output
      (df : Dataset) (rows : list (observation V))
      (location_name parameter : string) (h f : Z) (limit : option Z) :
  observations df location_name parameter = Ok rows ->
  let daily := daily_data V mean rows location_name in
  let n := Z.of_nat (List.length daily) in
  exists prompts,
    create_daily_forecast_prompts_v4 V mean format_2f Dataset observations
      df location_name parameter h f "fine-tuning" limit
    = Ok (map (window_record V format_2f location_name parameter daily h f)
              (range 0 (n - f + 1 - h)),
          prompts).
Proof.
  intros Hrows daily n. unfold create_daily_forecast_prompts_v4.
  rewrite Hrows. simpl. fold daily. fold n.
  destruct (n >=? h + f) eqn:E.
  - eexists.
    rewrite (surjective_pairing
               (fold_left (fine_tuning_step V format_2f location_name
                                            parameter daily h f)
                          (range h (n - f + 1)) ([], []))).
    rewrite fine_tuning_loop. simpl.
    rewrite (map_range_shift
               (window_record V format_2f location_name parameter daily h f)).
    replace (n - f + 1 - h) with (n - f + 1 - h) by reflexivity.
    reflexivity.
  - exists []. unfold range.
    replace (Z.to_nat (n - f + 1 - h - 0)) with 0%nat by lia.
    reflexivity.
Qed.

(** C2.  On a dataset that goes through the opening statements of
    the generator, with [n] rows in the daily table, the fine-tuning
    call returns nothing when [n < h + f]; otherwise it returns
    [n - f + 1 - h] records, the [k]-th of which (from 0) is the
    record of the window starting at row [k]; the rows of the daily
    table are in strictly increasing order of day, so the records
    follow the chronological order of their window starts. *)
Theorem fine_tuning_window_records
        (df : Dataset) (rows : list (observation V))
        (location_name parameter : string) (h f : Z) (limit : option Z) :
  observations df location_name parameter = Ok rows ->
  let daily := daily_data V mean rows location_name in
  let n := Z.of_nat (List.length daily) in
  exists output_list prompts,
    create_daily_forecast_prompts_v4 V mean format_2f Dataset observations
      df location_name parameter h f "fine-tuning" limit
    = Ok (output_list, prompts)
    /\ output_list
       = map (window_record V format_2f location_name parameter daily h f)
             (range 0 (n - f + 1 - h))
    /\ Z.of_nat (List.length output_list)
       = (if n <? h + f then 0 else n - f + 1 - h)
    /\ StronglySorted (fun a b : daily_row V => date a < date b) daily.
Proof.
  intros Hrows daily n.
  destruct (fine_tuning_output df rows location_name parameter h f limit
                               Hrows) as (prompts & Hout).
  fold daily n in Hout.
  eexists. exists prompts. split; [exact Hout|]. split; [reflexivity|].
  split; [|apply daily_data_sorted].
  rewrite length_map, range_length.
  destruct (n <? h + f) eqn:E; lia.
Qed.

(** Exactly [h + f] daily rows give one record, one row fewer gives
    none. *)
Lemma fine_tuning_boundary
      (df : Dataset) (rows : list (observation V))
      (location_name parameter : string) (h f : Z) (limit : option Z) :
  observations df location_name parameter = Ok rows ->
  let n := Z.of_nat (List.length (daily_data V mean rows location_name)) in
  exists output_list prompts,
    create_daily_forecast_prompts_v4 V mean format_2f Dataset observations
      df location_name parameter h f "fine-tuning" limit
    = Ok (output_list, prompts)
    /\ (n = h + f -> List.length output_list = 1%nat)
    /\ (n = h + f - 1 -> List.length output_list = 0%nat).
Proof.
  intros Hrows n.
  destruct (fine_tuning_output df rows location_name parameter h f limit
                               Hrows) as (prompts & Hout).
  fold n in Hout.
  eexists. exists prompts. split; [exact Hout|].
  assert (Hlen : forall l : list prompt_record,
             l = map (window_record V format_2f location_name parameter
                        (daily_data V mean rows location_name) h f)
                     (range 0 (n - f + 1 - h)) ->
             Z.of_nat (List.length l) = Z.max 0 (n - f + 1 - h)).
  { intros l ->. rewrite length_map, range_length. lia. }
  specialize (Hlen _ eq_refl).
  split; intros Hn; lia.
Qed.



(** ** C3: the zero-shot record *)









(** ** C8: cities without a readable artifact *)

Section Driver.
Variable s3_get_object : string -> string -> option string.
Variable read_csv : string -> option Dataset.
Variable load_city_config : string -> option (list (string * value)).
Variable TARGET_BUCKET_NAME : string.
Variable OUTPUT_FILE_KEY_PREFIX : string.

Lemma skipped_in_loop (before after : list string) (city : string) :
  (forall state,
      process_location V mean format_2f Dataset observations
                       s3_get_object read_csv
                       TARGET_BUCKET_NAME OUTPUT_FILE_KEY_PREFIX state city
      = Ok state) ->
  forall state,
    foldM (process_location V mean format_2f Dataset observations
                            s3_get_object read_csv
                            TARGET_BUCKET_NAME OUTPUT_FILE_KEY_PREFIX)
          (before ++ city :: after) state
    = foldM (process_location V mean format_2f Dataset observations
                              s3_get_object read_csv
                              TARGET_BUCKET_NAME OUTPUT_FILE_KEY_PREFIX)
            (before ++ after) state.
Proof.
  intros Hskip state. rewrite !foldM_app.
  destruct (foldM _ before state) as [state'|e]; simpl; [|reflexivity].
  now rewrite Hskip.
Qed.

(** C8.  When the artifact of a city cannot be fetched, or its body
    cannot be parsed, the read yields [None], the city's pass leaves
    both prompt sequences as they were and raises nothing, and the
    run ends as it would have without that city in the
    configuration. *)
Theorem unreadable_city_is_skipped
        (config : list (string * value))
        (before after : list string) (city : string) :
  load_city_config "cities_config.json" = Some config ->
  map fst config = before ++ city :: after ->
  (s3_get_object TARGET_BUCKET_NAME
                 (s3_file_key OUTPUT_FILE_KEY_PREFIX city) = None
   \/ exists body,
       s3_get_object TARGET_BUCKET_NAME
                     (s3_file_key OUTPUT_FILE_KEY_PREFIX city) = Some body
       /\ read_csv body = None) ->
  load_data_from_s3 Dataset s3_get_object read_csv TARGET_BUCKET_NAME
                    (s3_file_key OUTPUT_FILE_KEY_PREFIX city) = None
  /\ (forall state,
         process_location V mean format_2f Dataset observations
                          s3_get_object read_csv
                          TARGET_BUCKET_NAME OUTPUT_FILE_KEY_PREFIX state city
         = Ok state)
  /\ main V mean format_2f Dataset observations
          s3_get_object read_csv load_city_config
          TARGET_BUCKET_NAME OUTPUT_FILE_KEY_PREFIX
     = foldM (process_location V mean format_2f Dataset observations
                               s3_get_object read_csv
                               TARGET_BUCKET_NAME OUTPUT_FILE_KEY_PREFIX)
             (before ++ after) ([], []).
Proof.
  intros Hconfig Hcities Hmissing.
  assert (Hload : load_data_from_s3 Dataset s3_get_object read_csv
                    TARGET_BUCKET_NAME
                    (s3_file_key OUTPUT_FILE_KEY_PREFIX city) = None).
  { unfold load_data_from_s3.
    destruct Hmissing as [-> | (body & -> & Hbody)]; auto. }
  assert (Hskip : forall state,
             process_location V mean format_2f Dataset observations
               s3_get_object read_csv
               TARGET_BUCKET_NAME OUTPUT_FILE_KEY_PREFIX state city
             = Ok state).
  { intros state. unfold process_location. now rewrite Hload. }
  split; [exact Hload|]. split; [exact Hskip|].
  unfold main. rewrite Hconfig, Hcities.
  now apply skipped_in_loop.
Qed.

End Driver.

End Generator.

Lemma sample_frame_observations :
  sample_observations (sample_frame 12) "X" "value" = Ok (sample_days 12).
Proof.
  vm_compute. reflexivity.
Qed.

Lemma unknown_prompt_type_gives_nothing_witness :
  "few-shot" <> "zero-shot"
  /\ "few-shot" <> "fine-tuning"
  /\ create_daily_forecast_prompts_v4 Z sample_mean sample_format
       DataFrame sample_observations
       (sample_frame 12) "X" "value" 10 2 "few-shot" None
     = Ok ([], []).
Proof.
  assert (H1 : "few-shot" <> "zero-shot") by discriminate.
  assert (H2 : "few-shot" <> "fine-tuning") by discriminate.
  split; [exact H1|]. split; [exact H2|].
  destruct (unknown_prompt_type_gives_nothing
              Z sample_mean sample_format DataFrame sample_observations
              (sample_frame 12) "X" "value" 10 2 "few-shot" None H1 H2)
    as [H _].
  apply (H (sample_days 12)). exact sample_frame_observations.
Defined.

(** C10, as stated, fails: on a stored frame without a [datetime]
    column the first statement of the generator raises [KeyError],
    whatever the prompt type. *)
Lemma unknown_prompt_type_can_raise :
  ~ returns_two_empty_lists Z sample_mean sample_format DataFrame
      sample_observations frame_without_datetime "X" "value" 10 2 "few-shot".
Proof.
  unfold returns_two_empty_lists. intros H. vm_compute in H. discriminate H.
Qed.

Lemma fine_tuning_window_records_witness :
  sample_observations (sample_frame 12) "X" "value" = Ok (sample_days 12)
  /\ exists output_list prompts,
      create_daily_forecast_prompts_v4 Z sample_mean sample_format
        DataFrame sample_observations
        (sample_frame 12) "X" "value" 10 2 "fine-tuning" None
      = Ok (output_list, prompts)
      /\ List.length output_list = 1%nat.
Proof.
  assert (Hrows : sample_observations (sample_frame 12) "X" "value"
                  = Ok (sample_days 12))
    by exact sample_frame_observations.
  split; [exact Hrows|].
  pose proof (fine_tuning_window_records
                Z sample_mean sample_format DataFrame sample_observations
                (sample_frame 12) (sample_days 12) "X" "value" 10 2 None
                Hrows) as H.
  cbv zeta in H. destruct H as (output_list & prompts & Hout & Heq & _).
  exists output_list, prompts. split; [exact Hout|].
  rewrite Heq. vm_compute. reflexivity.
Defined.



Lemma unreadable_city_is_skipped_witness :
  sample_store "bucket" (s3_file_key "prefix" "Mumbai") = None
  /\ main Z sample_mean sample_format DataFrame sample_observations
          sample_store sample_read_csv
          (fun _ => Some [("Mumbai", VList []); ("Delhi", VList [])])
          "bucket" "prefix"
     = foldM (process_location Z sample_mean sample_format
                               DataFrame sample_observations sample_store
                               sample_read_csv "bucket" "prefix")
             ["Delhi"] ([], []).
Proof.
  split; [reflexivity|].
  apply (unreadable_city_is_skipped
           Z sample_mean sample_format DataFrame sample_observations
           sample_store sample_read_csv
           (fun _ => Some [("Mumbai", VList []); ("Delhi", VList [])])
           "bucket" "prefix"
           [("Mumbai", VList []); ("Delhi", VList [])] [] ["Delhi"] "Mumbai");
    [reflexivity | reflexivity | left; reflexivity].
Defined.

(** The worked example: twelve daily values from 2023-01-01, ten days
    of history and two of forecast. *)
Example twelve_days_one_window :
  option_map (fun lists => List.length (fst lists))
    (match create_daily_forecast_prompts_v4 Z sample_mean sample_format
             DataFrame sample_observations
             (sample_frame 12) "X" "value" 10 2 "fine-tuning" (Some 3) with
     | Ok lists => Some lists
     | Raise _ => None
     end)
  = Some 1%nat.
Proof. vm_compute. reflexivity. Qed.

Example eleven_days_no_window :
  create_daily_forecast_prompts_v4 Z sample_mean sample_format
    DataFrame sample_observations
    (sample_frame 11) "X" "value" 10 2 "fine-tuning" (Some 3)
  = Ok ([], []).
Proof. vm_compute. reflexivity. Qed.

Example twelve_days_zero_shot_history :
  map (fun r => isoformat (date r))
      (days_between Z (738532 - (10 - 1)) 738532
                    (daily_data Z sample_mean (sample_days 12) "X"))
  = ["2023-01-03"; "2023-01-04"; "2023-01-05"; "2023-01-06"; "2023-01-07";
     "2023-01-08"; "2023-01-09"; "2023-01-10"; "2023-01-11"; "2023-01-12"]
  /\ isoformat (738532 + 1) = "2023-01-13"
  /\ isoformat (738532 + 1 + (2 - 1)) = "2023-01-14".
Proof. vm_compute. auto. Qed.

End PromptFacts.

(* ===================================================================== *)
(** * Further facts about stage 1 *)
(* ===================================================================== *)

Module IngestMoreFacts.
Import DataIngest DownloadSpec DriverSpec MetadataSpec EnrichSpec TransformSpec.
Import IngestSamples DownloadMoreSpec.
Import FrameFacts DownloadFacts MetadataFacts EnrichFacts TransformFacts.

(** ** The date generator and the window of the driver *)

Lemma date_range_unrolled (n : nat) (end_date : datetime) (b : Z) :
  forall start_date,
    (time_of_day start_date <=? time_of_day end_date) = (0 <? b) ->
    (b = 0 \/ b = 1) ->
    n = Z.to_nat (ordinal end_date - ordinal start_date + b) ->
    generate_date_range start_date end_date
    = map (add_days start_date)
          (range 0 (ordinal end_date - ordinal start_date + b)).
Proof.
  induction n as [|n IH]; intros start_date Htime Hb Hn;
    rewrite generate_date_range_step; unfold datetime_leb.
  - replace (ordinal start_date <? ordinal end_date) with false by lia.
    assert (E : ((ordinal start_date =? ordinal end_date)
                 && (time_of_day start_date <=? time_of_day end_date))
                = false).
    { rewrite Htime. destruct Hb as [-> | ->].
      - apply andb_false_r.
      - replace (ordinal start_date =? ordinal end_date) with false by lia.
        reflexivity. }
    rewrite E. simpl. unfold range.
    now replace (Z.to_nat (ordinal end_date - ordinal start_date + b - 0))
      with 0%nat by lia.
  - assert (E : ((ordinal start_date <? ordinal end_date)
                 || (ordinal start_date =? ordinal end_date)
                    && (time_of_day start_date <=? time_of_day end_date))
                = true).
    { rewrite Htime. destruct Hb as [-> | ->].
      - replace (ordinal start_date <? ordinal end_date) with true by lia.
        reflexivity.
      - simpl. rewrite andb_true_r. lia. }
    rewrite E.
    replace (ordinal end_date - ordinal start_date + b)
      with (Z.of_nat (S n)) by lia.
    rewrite range_from_zero. simpl. f_equal.
    + destruct start_date as [o t]. unfold add_days. simpl. f_equal. lia.
    + rewrite (IH (add_days start_date 1)); simpl; [|exact Htime|exact Hb|lia].
      replace (ordinal end_date - (ordinal start_date + 1) + b)
        with (Z.of_nat n) by lia.
      rewrite map_map. apply map_ext. intros k.
      unfold add_days. simpl. f_equal. lia.
Qed.

(** X1.  The generator yields the start date and every following day
    at the same time of day up to the end date: the end day itself is
    included exactly when the start is not later within its day than
    the end, and nothing is yielded when the start lies after the
    end. *)
Theorem generate_date_range_closed_form (start_date end_date : datetime) :
  generate_date_range start_date end_date
  = map (add_days start_date)
        (range 0 (ordinal end_date - ordinal start_date
                  + (if time_of_day start_date <=? time_of_day end_date
                     then 1 else 0))).
Proof.
  apply (date_range_unrolled
           (Z.to_nat (ordinal end_date - ordinal start_date
                      + (if time_of_day start_date <=? time_of_day end_date
                         then 1 else 0)))).
  - destruct (time_of_day start_date <=? time_of_day end_date); reflexivity.
  - destruct (time_of_day start_date <=? time_of_day end_date); auto.
  - reflexivity.
Qed.

Lemma date_window_inv (environ : string -> option string)
      (int : string -> result Z)
      (strptime : string -> option datetime) (start_date end_date : datetime) :
  date_window environ int strptime = Ok (start_date, end_date) ->
  start_date = add_days end_date (-30).
Proof.
  unfold date_window.
  destruct (match environ "NUMBER_OF_DAYS" with
            | Some s => int s
            | None => Ok 10
            end); simpl; [|discriminate].
  destruct (strptime _); simpl; [|discriminate].
  intros H. now injection H as <- <-.
Qed.

(** X2.  With the window that the driver computes, the downloader
    visits thirty-one days for every location: both ends of the
    thirty-day window are listed. *)
Theorem driver_window_has_31_days
        (environ : string -> option string) (int : string -> result Z)
        (strptime : string -> option datetime)
        (start_date end_date : datetime) (location_ids : list scalar) :
  date_window environ int strptime = Ok (start_date, end_date) ->
  List.length (generate_date_range start_date end_date) = 31%nat
  /\ List.length (visited location_ids start_date end_date)
     = (List.length location_ids * 31)%nat.
Proof.
  intros H. apply date_window_inv in H. subst start_date.
  assert (Hlen : List.length (generate_date_range (add_days end_date (-30))
                                                   end_date) = 31%nat).
  { rewrite generate_date_range_days by (simpl; lia).
    unfold range. rewrite !length_map, length_seq. simpl. lia. }
  split; [exact Hlen|].
  unfold visited. now rewrite length_prod, Hlen.
Qed.

Lemma driver_window_has_31_days_witness :
  date_window no_environ sample_int sample_strptime
  = Ok ({| ordinal := 738855; time_of_day := 86399 |},
        {| ordinal := 738885; time_of_day := 86399 |})
  /\ List.length (generate_date_range
                    {| ordinal := 738855; time_of_day := 86399 |}
                    {| ordinal := 738885; time_of_day := 86399 |}) = 31%nat.
Proof.
  split; [reflexivity|].
  apply (driver_window_has_31_days no_environ sample_int sample_strptime
                                   _ _ []).
  reflexivity.
Defined.

(** ** The shape of the consolidated frame *)

Lemma relabel_labels (cs : list (list value)) :
  forall start,
    map label (relabel start cs)
    = map (fun k => start + Z.of_nat k) (seq 0 (List.length cs)).
Proof.
  induction cs as [|c cs IH]; intros start; simpl; [reflexivity|].
  f_equal; [lia|]. rewrite IH, <- seq_shift, map_map.
  apply map_ext. intros k. lia.
Qed.

Lemma concat_labels (a b : DataFrame) :
  map label (rows (concat a b)) = range 0 (Z.of_nat (nrows (concat a b))).
Proof.
  unfold nrows, concat, range. simpl.
  rewrite relabel_labels, relabel_length, Z.sub_0_r, Nat2Z.id.
  reflexivity.
Qed.

Section Archive.
Variable list_objects_v2 : string -> option (list string).
Variable read_object : string -> DataFrame.

(** What holds of the empty frame and of every concatenation holds of
    the consolidated frame. *)
Lemma download_invariant (P : DataFrame -> Prop)
      (location_ids : list scalar) (start_date end_date : datetime) :
  P empty_frame ->
  (forall a b, P (concat a b)) ->
  P (fst (download_data_to_dataframe list_objects_v2 read_object
            location_ids start_date end_date)).
Proof.
  intros Hempty Hconcat. unfold download_data_to_dataframe.
  assert (Hobjects : forall date contents df,
             P df ->
             P (fold_left (take_object read_object date) contents df)).
  { intros date contents.
    induction contents as [|key contents IH]; intros df Hdf; simpl;
      [exact Hdf|].
    apply IH. unfold take_object.
    destruct (endswith key (day_suffix date)); [apply Hconcat | exact Hdf]. }
  assert (Hdays : forall location_id dates state,
             P (fst state) ->
             P (fst (fold_left (visit_day list_objects_v2 read_object
                                          location_id) dates state))).
  { intros location_id dates.
    induction dates as [|date dates IH]; intros state Hstate; simpl;
      [exact Hstate|].
    apply IH. unfold visit_day.
    destruct (list_objects_v2 _); simpl; [|exact Hstate].
    now apply Hobjects. }
  assert (Hstart : P (fst (empty_frame, @nil scalar))) by exact Hempty.
  revert Hstart. generalize (empty_frame, @nil scalar).
  induction location_ids as [|location_id location_ids IH];
    intros state Hstate; simpl; [exact Hstate|].
  apply IH. now apply Hdays.
Qed.

(** X3.  Whatever the archive holds, the consolidated frame is
    rectangular and its index runs from 0 to the number of rows minus
    one, the labels of the daily files being discarded. *)
Theorem consolidated_frame_shape
        (location_ids : list scalar) (start_date end_date : datetime) :
  let consolidated_df :=
    fst (download_data_to_dataframe list_objects_v2 read_object
           location_ids start_date end_date) in
  rectangular consolidated_df
  /\ map label (rows consolidated_df)
     = range 0 (Z.of_nat (nrows consolidated_df)).
Proof.
  apply (download_invariant
           (fun df => rectangular df
                      /\ map label (rows df) = range 0 (Z.of_nat (nrows df)))).
  - split; [constructor | reflexivity].
  - intros a b. split; [apply concat_rectangular | apply concat_labels].
Qed.

Lemma unmatched_pairs_give_no_rows (location_ids : list scalar)
      (start_date end_date : datetime) :
  forallb (unmatched list_objects_v2)
          (visited location_ids start_date end_date) = true ->
  rows (fst (download_data_to_dataframe list_objects_v2 read_object
               location_ids start_date end_date)) = [].
Proof.
  intros Hall. unfold download_data_to_dataframe.
  destruct (visit_locations list_objects_v2 read_object
              (generate_date_range start_date end_date)
              location_ids (empty_frame, []))
    as [Hrows _].
  cbv zeta in Hrows. simpl fst in Hrows at 2.
  assert (Hzero : list_sum (map (pair_rows list_objects_v2 read_object)
                                (visited location_ids start_date end_date))
                  = 0%nat).
  { rewrite forallb_forall in Hall.
    induction (visited location_ids start_date end_date) as [|p ps IH];
      simpl; [reflexivity|].
    rewrite (unmatched_pair_has_no_rows list_objects_v2 read_object p)
      by (apply Hall; now left).
    apply IH. intros x Hx. apply Hall. now right. }
  unfold visited in Hzero. rewrite Hzero in Hrows.
  unfold nrows in Hrows. simpl in Hrows.
  now apply length_zero_iff_nil.
Qed.

End Archive.

(** ** Row order of the consolidated frame *)

Lemma relabel_cells (cs : list (list value)) :
  forall start, map cells (relabel start cs) = cs.
Proof.
  induction cs as [|c cs IH]; intros start; simpl; [reflexivity|].
  now rewrite IH.
Qed.

Lemma reindex_same_header (cols : list string) :
  NoDup cols ->
  forall (cs : list value) (d : value),
    List.length cs = List.length cols ->
    map (fun c => match position c cols with
                  | Some p => nth p cs d
                  | None => d
                  end) cols
    = cs.
Proof.
  induction 1 as [|c cols Hc Hcols IH]; intros [|x cs] d Hlen;
    simpl in *; try discriminate; [reflexivity|].
  rewrite String.eqb_refl. f_equal.
  transitivity (map (fun c0 => match position c0 cols with
                               | Some p => nth p cs d
                               | None => d
                               end) cols); [|apply IH; lia].
  apply map_ext_in. intros c' Hc'.
  destruct (String.eqb c c') eqn:E.
  - apply String.eqb_eq in E. subst. contradiction.
  - destruct (position c' cols); reflexivity.
Qed.

Lemma filter_known_columns (cols : list string) :
  filter (fun c => negb (existsb (String.eqb c) cols)) cols = [].
Proof.
  assert (H : forall l, incl l cols ->
                        filter (fun c => negb (existsb (String.eqb c) cols)) l
                        = []).
  { induction l as [|c l IH]; intros Hl; simpl; [reflexivity|].
    assert (E : existsb (String.eqb c) cols = true).
    { apply existsb_exists. exists c. split; [|apply String.eqb_refl].
      apply Hl. now left. }
    rewrite E. simpl. apply IH. intros x Hx. apply Hl. now right. }
  apply H, incl_refl.
Qed.

Lemma concat_same_header (cols : list string) (a b : DataFrame) :
  NoDup cols ->
  (columns a = [] /\ rows a = []) \/ (columns a = cols /\ rectangular a) ->
  columns b = cols -> rectangular b ->
  columns (concat a b) = cols
  /\ map cells (rows (concat a b))
     = map cells (rows a) ++ map cells (rows b).
Proof.
  intros Hnodup Ha Hb Hrectb. unfold concat. simpl.
  rewrite relabel_cells.
  assert (Hsame : forall df,
             columns df = cols -> rectangular df ->
             map (reindex (columns df) cols) (rows df)
             = map cells (rows df)).
  { intros df Hdf Hrect. apply map_ext_in. intros r Hr.
    unfold reindex, cell_at. rewrite Hdf.
    apply reindex_same_header; [exact Hnodup|].
    unfold rectangular in Hrect. rewrite Forall_forall in Hrect.
    rewrite (Hrect r Hr). now rewrite Hdf. }
  destruct Ha as [[Hcols Hrows] | [Hcols Hrecta]].
  - rewrite Hcols, Hrows. simpl.
    assert (Hall : forall l : list string,
               filter (fun _ : string => true) l = l).
    { induction l as [|c l IH]; simpl; [reflexivity|]. now rewrite IH. }
    rewrite Hall. split; [exact Hb|].
    rewrite <- (Hsame b Hb Hrectb). now rewrite Hb.
  - assert (Hunion : columns a
                     ++ filter (fun c => negb (existsb (String.eqb c)
                                                       (columns a)))
                               (columns b)
                     = cols).
    { rewrite Hcols, Hb, filter_known_columns. apply app_nil_r. }
    rewrite Hunion. split; [reflexivity|].
    rewrite <- (Hsame a Hcols Hrecta), <- (Hsame b Hb Hrectb).
    reflexivity.
Qed.

Section SameHeader.
Variable list_objects_v2 : string -> option (list string).
Variable read_object : string -> DataFrame.
Variable cols : list string.
Hypothesis Hnodup : NoDup cols.
Hypothesis Hheader : forall key, columns (read_object key) = cols.
Hypothesis Hrect : forall key, rectangular (read_object key).

Lemma take_objects_cells (date : datetime) (contents : list string) :
  forall df,
    started cols df ->
    let df' := fold_left (take_object read_object date) contents df in
    started cols df'
    /\ map cells (rows df')
       = map cells (rows df)
         ++ flat_map (fun key => map cells (rows (read_object key)))
                     (filter (fun key => endswith key (day_suffix date))
                             contents).
Proof.
  induction contents as [|key contents IH]; intros df Hdf; simpl.
  - split; [exact Hdf | now rewrite app_nil_r].
  - unfold take_object at 2 4.
    destruct (endswith key (day_suffix date)); simpl.
    + destruct (concat_same_header cols df (read_object key) Hnodup Hdf
                                   (Hheader key) (Hrect key))
        as [Hcols Hcells].
      destruct (IH (concat df (read_object key))) as [Hst Hrows].
      { right. split; [exact Hcols | apply concat_rectangular]. }
      split; [exact Hst|].
      rewrite Hrows, Hcells, <- app_assoc. reflexivity.
    + now apply IH.
Qed.

Lemma visit_days_cells (location_id : scalar) (dates : list datetime) :
  forall state,
    started cols (fst state) ->
    let state' := fold_left (visit_day list_objects_v2 read_object location_id)
                            dates state in
    started cols (fst state')
    /\ map cells (rows (fst state'))
       = map cells (rows (fst state))
         ++ flat_map (pair_cells list_objects_v2 read_object)
                     (map (fun date => (location_id, date)) dates).
Proof.
  induction dates as [|date dates IH]; intros state Hstate; simpl.
  - split; [exact Hstate | now rewrite app_nil_r].
  - assert (Hday : started cols (fst (visit_day list_objects_v2 read_object
                                           location_id state date))
                   /\ map cells (rows (fst (visit_day list_objects_v2
                                              read_object location_id
                                              state date)))
                      = map cells (rows (fst state))
                        ++ pair_cells list_objects_v2 read_object
                                      (location_id, date)).
    { unfold visit_day, pair_cells. simpl.
      destruct (list_objects_v2 _); simpl.
      - now apply take_objects_cells.
      - split; [exact Hstate | now rewrite app_nil_r]. }
    destruct Hday as [Hst Hcells].
    destruct (IH _ Hst) as [Hst' Hcells'].
    split; [exact Hst'|].
    rewrite Hcells', Hcells, <- app_assoc. reflexivity.
Qed.

Lemma visit_locations_cells (dates : list datetime)
      (location_ids : list scalar) :
  forall state,
    started cols (fst state) ->
    let state' :=
      fold_left (fun st location_id =>
                   fold_left (visit_day list_objects_v2 read_object
                                        location_id) dates st)
                location_ids state in
    started cols (fst state')
    /\ map cells (rows (fst state'))
       = map cells (rows (fst state))
         ++ flat_map (pair_cells list_objects_v2 read_object)
                     (list_prod location_ids dates).
Proof.
  induction location_ids as [|location_id location_ids IH];
    intros state Hstate; simpl.
  - split; [exact Hstate | now rewrite app_nil_r].
  - destruct (visit_days_cells location_id dates state Hstate)
      as [Hst Hcells].
    destruct (IH _ Hst) as [Hst' Hcells'].
    split; [exact Hst'|].
    rewrite Hcells', Hcells, flat_map_app, <- app_assoc. reflexivity.
Qed.

(** X20.  When the daily files share one header free of repeated
    names, the consolidated frame holds their rows cell for cell (as
    values: column dtypes are not part of the frame model), none lost
    and none repeated, in the order the pairs are visited (location
    by location, day by day) and, within a day, in the order of the
    files and of their rows; it has that header as soon as one file
    was read. *)
Theorem consolidated_rows_in_visiting_order
        (location_ids : list scalar) (start_date end_date : datetime) :
  let consolidated_df :=
    fst (download_data_to_dataframe list_objects_v2 read_object
           location_ids start_date end_date) in
  map cells (rows consolidated_df)
  = flat_map (pair_cells list_objects_v2 read_object)
             (visited location_ids start_date end_date)
  /\ (columns consolidated_df = cols
      \/ (columns consolidated_df = [] /\ rows consolidated_df = [])).
Proof.
  unfold download_data_to_dataframe, visited.
  destruct (visit_locations_cells (generate_date_range start_date end_date)
                                  location_ids (empty_frame, []))
    as [Hst Hcells].
  { left. split; reflexivity. }
  split; [exact Hcells|].
  destruct Hst as [H | [H _]]; [now right | now left].
Qed.

End SameHeader.

Lemma consolidated_rows_in_visiting_order_witness :
  map cells
      (rows (fst (download_data_to_dataframe sample_listing sample_object
                    [SInt 17; SInt 42] (midnight 738855) (midnight 738856))))
  = [[VScalar (SInt 42); VScalar (SStr "2023-12-02T01:00:00+05:30");
      VScalar (SFloat "12.5" (Finite 25 (-1)))]].
Proof.
  pose proof (consolidated_rows_in_visiting_order
                sample_listing sample_object
                ["location_id"; "datetime"; "value"]) as H.
  cbv zeta in H.
  destruct (H ltac:(repeat constructor; simpl; intuition discriminate)
              ltac:(intros key; reflexivity)
              ltac:(intros key; repeat constructor)
              [SInt 17; SInt 42] (midnight 738855) (midnight 738856))
    as [Hcells _].
  rewrite Hcells. vm_compute. reflexivity.
Defined.

(** ** The city loop *)

Section Driver.
Variable requests_get : value -> string -> response.
Variable list_objects_v2 : string -> option (list string).
Variable read_object : string -> DataFrame.
Variable to_datetime : list value -> result (list value).
Variable lower : string -> string.
Variable API_KEY : string.
Variable OUTPUT_FILE_KEY_PREFIX : string.

(** X4.  A city none of whose (location, day) pairs has a matching
    archive object is skipped without an error and without a write;
    this covers the city for which the endpoint returned no location
    at all. *)
Theorem city_without_data_is_skipped
        (start_date end_date : datetime) (city : string) (bbox : value)
        (location_metadata : metadata_map) :
  metadata_of_response (requests_get bbox API_KEY) = Ok location_metadata ->
  forallb (unmatched list_objects_v2)
          (visited (keys location_metadata) start_date end_date) = true ->
  process_city requests_get list_objects_v2 read_object to_datetime
               lower API_KEY OUTPUT_FILE_KEY_PREFIX start_date end_date city bbox
  = Ok None.
Proof.
  intros Hmeta Hall. unfold process_city, get_location_metadata.
  rewrite Hmeta. simpl.
  destruct (truthy (keys location_metadata)); [|reflexivity].
  unfold empty.
  rewrite (unmatched_pairs_give_no_rows list_objects_v2 read_object _ _ _ Hall).
  simpl. now rewrite orb_true_r.
Qed.

(** X5.  When a city raises, the run stops there: the objects written
    are those of the cities before it, the exception is reported, and
    the cities after it are not processed. *)
Theorem failing_city_stops_the_run
        (start_date end_date : datetime)
        (before after : list (string * value)) (city : string) (bbox : value)
        (e : exn) :
  process_city requests_get list_objects_v2 read_object to_datetime
               lower API_KEY OUTPUT_FILE_KEY_PREFIX start_date end_date city bbox
  = Raise e ->
  forall written,
    process_cities requests_get list_objects_v2 read_object to_datetime
                   lower API_KEY OUTPUT_FILE_KEY_PREFIX start_date end_date
                   (before ++ (city, bbox) :: after) written
    = match process_cities requests_get list_objects_v2 read_object
                           to_datetime lower API_KEY OUTPUT_FILE_KEY_PREFIX
                           start_date end_date before written with
      | (objects, None) => (objects, Some e)
      | (objects, Some earlier) => (objects, Some earlier)
      end.
Proof.
  intros Hraise.
  induction before as [|[c b] before IH]; intros written; simpl.
  - now rewrite Hraise.
  - destruct (process_city _ _ _ _ _ _ _ _ _ c b) as [[object|]|e'];
      [apply IH | apply IH | reflexivity].
Qed.

End Driver.

Lemma city_without_data_is_skipped_witness :
  forallb (unmatched sample_listing)
          (visited [SInt 17; SInt 42] (midnight 738859) (midnight 738860))
  = true
  /\ process_city sample_requests_get sample_listing sample_object
               sample_to_datetime sample_lower "key" "prefix"
               (midnight 738859) (midnight 738860) "Delhi" (VList [])
  = Ok None.
Proof.
  split; [vm_compute; reflexivity|].
  apply (city_without_data_is_skipped
           sample_requests_get sample_listing sample_object
           sample_to_datetime sample_lower "key" "prefix" (midnight 738859) (midnight 738860) "Delhi"
           (VList [])
           [(SInt 17, {| location_id := VScalar (SInt 17);
                         location_name := VScalar (SStr "R K Puram");
                         country := VScalar (SStr "India");
                         provider := VScalar (SStr "CPCB") |});
            (SInt 42, {| location_id := VScalar (SInt 42);
                         location_name := VScalar (SStr "Anand Vihar");
                         country := VScalar (SStr "");
                         provider := VScalar (SStr "") |})]).
  - reflexivity.
  - vm_compute. reflexivity.
Defined.

Lemma failing_city_stops_the_run_witness :
  process_city sample_requests_get sample_listing sample_object
               sample_to_datetime sample_lower "key" "prefix"
               (midnight 738855) (midnight 738856) "Agra"
               (VScalar (SStr "down"))
  = Raise HTTPError
  /\ process_cities sample_requests_get sample_listing sample_object
                    sample_to_datetime sample_lower "key" "prefix"
                    (midnight 738855) (midnight 738856)
                    ([] ++ ("Agra", VScalar (SStr "down"))
                        :: [("Delhi", VList [])]) []
     = ([], Some HTTPError).
Proof.
  assert (H : process_city sample_requests_get sample_listing sample_object
                sample_to_datetime sample_lower "key" "prefix"
                (midnight 738855) (midnight 738856) "Agra"
                (VScalar (SStr "down"))
              = Raise HTTPError) by reflexivity.
  split; [exact H|].
  apply (failing_city_stops_the_run
           sample_requests_get sample_listing sample_object
           sample_to_datetime sample_lower "key" "prefix" (midnight 738855) (midnight 738856)
           [] [("Delhi", VList [])] "Agra" (VScalar (SStr "down"))
           HTTPError H []).
Defined.

(** ** Identifiers and metadata *)

Lemma ids_of_locations (locations : list value) :
  Forall (fun l => well_formed_location l = true) locations ->
  mapM (fun location => Py.getitem location "id") locations
  = Ok (map (fun l => VScalar (id_of l)) locations).
Proof.
  intros H. apply mapM_pointwise.
  eapply Forall_impl; [|exact H]. intros l Hl. simpl.
  unfold well_formed_location, id_of, Py.getitem in *.
  destruct l as [s|l|d]; try discriminate.
  destruct (lookup d "id") as [[k|?|?]|]; try discriminate. reflexivity.
Qed.

Lemma ids_are_iterated (status : Z) (doc : list (string * value))
      (locations : list value) :
  http_error status = false ->
  results_of doc = Some locations ->
  ids_of_response {| status_code := status; json := Some (VDict doc) |}
  = mapM (fun location => Py.getitem location "id") locations.
Proof.
  unfold http_error, ids_of_response, raise_for_status, results_of.
  simpl. intros Hstatus Hdoc. rewrite Hstatus. simpl.
  destruct (lookup doc "results") as [[?|l|?]|]; try discriminate;
    injection Hdoc as <-; reflexivity.
Qed.

(** X6.  On a response whose result objects carry integer or string
    identifiers, [get_location_ids] returns the identifiers in
    response order, one per result; they are the keys of the mapping
    that [get_location_metadata] builds from the same response, and
    the very list of its keys when no identifier is repeated. *)
Theorem location_ids_are_metadata_keys
        (status : Z) (doc : list (string * value)) (locations : list value) :
  http_error status = false ->
  results_of doc = Some locations ->
  Forall (fun l => well_formed_location l = true) locations ->
  exists ids location_metadata,
    ids_of_response {| status_code := status; json := Some (VDict doc) |}
    = Ok ids
    /\ metadata_of_response
         {| status_code := status; json := Some (VDict doc) |}
       = Ok location_metadata
    /\ ids = map (fun l => VScalar (id_of l)) locations
    /\ (forall k, In (VScalar k) ids <-> In k (keys location_metadata))
    /\ (NoDup ids -> ids = map VScalar (keys location_metadata)).
Proof.
  intros Hstatus Hdoc Hwf.
  destruct (add_locations locations Hwf [] (Forall_nil _))
    as (m & Hfold & Hplain & Hget & Hkeys).
  exists (map (fun l => VScalar (id_of l)) locations), m.
  rewrite (ids_are_iterated status doc locations Hstatus Hdoc).
  rewrite (results_are_iterated status doc locations Hstatus Hdoc).
  split; [now apply ids_of_locations|]. split; [exact Hfold|].
  split; [reflexivity|].
  assert (Hid : forall l, In l locations -> plain_identifier (id_of l) = true).
  { intros l Hl. rewrite Forall_forall in Hwf.
    destruct (well_formed_location_added [] l (Hwf l Hl))
      as (_ & _ & _ & H & _). exact H. }
  assert (Hrec : forall l, In l locations ->
                           exists record, extract_metadata_fields l = Ok record).
  { intros l Hl. rewrite Forall_forall in Hwf.
    destruct (well_formed_location_added [] l (Hwf l Hl))
      as (record & H & _). now exists record. }
  split.
  - intros k. rewrite in_map_iff. split.
    + intros (l & Hk & Hl). injection Hk as <-.
      apply dict_get_keys; auto. rewrite (Hget _ (Hid l Hl)).
      destruct (find_last (fun l0 => py_eq (id_of l0) (id_of l)) locations)
        as [l'|] eqn:Hlast.
      * apply find_last_some in Hlast. destruct Hlast as [Hl' _].
        destruct (Hrec l' Hl') as (record & ->). discriminate.
      * apply (find_last_none _ _ l) in Hlast; [|exact Hl].
        cbv beta in Hlast. now rewrite plain_py_eq_refl in Hlast by auto.
    + intros Hk.
      assert (Hpk : plain_identifier k = true).
      { unfold plain_keys in Hplain. rewrite Forall_forall in Hplain.
        now apply Hplain. }
      apply dict_get_keys in Hk; auto. rewrite (Hget k Hpk) in Hk.
      destruct (find_last (fun l0 => py_eq (id_of l0) k) locations)
        as [l|] eqn:Hlast; [|now destruct Hk].
      apply find_last_some in Hlast. destruct Hlast as [Hl Heq].
      apply plain_py_eq in Heq; auto. exists l. now rewrite Heq.
  - intros Hnodup. rewrite Hkeys.
    + simpl. now rewrite map_map.
    + simpl. rewrite <- (map_map id_of VScalar) in Hnodup.
      now apply NoDup_map_inv in Hnodup.
Qed.

Lemma location_ids_are_metadata_keys_witness :
  results_of sample_document
  = Some [VDict [("id", VScalar (SInt 17));
                 ("name", VScalar (SStr "R K Puram"));
                 ("country", VDict [("name", VScalar (SStr "India"))]);
                 ("provider", VDict [("name", VScalar (SStr "CPCB"))])];
          VDict [("id", VScalar (SInt 42));
                 ("name", VScalar (SStr "Anand Vihar"))]]
  /\ ids_of_response
       {| status_code := 200; json := Some (VDict sample_document) |}
     = Ok [VScalar (SInt 17); VScalar (SInt 42)].
Proof.
  split; [reflexivity|].
  destruct (location_ids_are_metadata_keys 200 sample_document _
              eq_refl eq_refl)
    as (ids & m & Hids & _ & Heq & _).
  - repeat constructor.
  - rewrite Hids, Heq. reflexivity.
Defined.

(** ** Malformed result objects *)

(** X21.  On a non-error status, the first result object that is
    malformed aborts the fetch, and the records built from the results
    before it are lost: an object without [id] raises [KeyError], and
    an object with an [id] whose [country] or [provider] entry is
    present but is not an object (JSON null, say) raises
    [AttributeError]. *)
Theorem malformed_result_aborts_fetch
        (status : Z) (doc : list (string * value))
        (good : list value) (d : list (string * value)) (rest : list value)
        (e : exn) :
  http_error status = false ->
  results_of doc = Some (good ++ VDict d :: rest) ->
  Forall (fun l => well_formed_location l = true) good ->
  (lookup d "id" = None /\ e = KeyError)
  \/ (lookup d "id" <> None
      /\ object_or_absent d "country" && object_or_absent d "provider" = false
      /\ e = AttributeError) ->
  metadata_of_response {| status_code := status; json := Some (VDict doc) |}
  = Raise e.
Proof.
  intros Hstatus Hdoc Hgood Hbad.
  rewrite (results_are_iterated status doc _ Hstatus Hdoc), foldM_app.
  destruct (add_locations good Hgood [] (Forall_nil _)) as (m & Hfold & _).
  rewrite Hfold. simpl. unfold add_location at 1. simpl.
  destruct Hbad as [[Hid ->] | (Hid & Hobj & ->)].
  - now rewrite Hid.
  - destruct (lookup d "id") as [id|]; [simpl | congruence].
    unfold extract_metadata_fields, object_or_absent in *. simpl.
    destruct (lookup d "country") as [[?|?|?]|]; simpl in *;
      try reflexivity;
      destruct (lookup d "provider") as [[?|?|?]|]; simpl in *;
      try reflexivity; discriminate.
Qed.

Lemma malformed_result_aborts_fetch_witness :
  metadata_of_response
    {| status_code := 200;
       json := Some (VDict [("results",
                             VList [VDict [("id", VScalar (SInt 17))];
                                    location_with_null_country;
                                    VDict [("id", VScalar (SInt 42))]])]) |}
  = Raise AttributeError.
Proof.
  apply (malformed_result_aborts_fetch
           200
           [("results", VList [VDict [("id", VScalar (SInt 17))];
                               location_with_null_country;
                               VDict [("id", VScalar (SInt 42))]])]
           [VDict [("id", VScalar (SInt 17))]]
           [("id", VScalar (SInt 7)); ("name", VScalar (SStr "Lodhi Road"));
            ("country", VScalar SNone)]
           [VDict [("id", VScalar (SInt 42))]]
           AttributeError).
  - reflexivity.
  - reflexivity.
  - repeat constructor.
  - right. split; [discriminate|]. split; reflexivity.
Defined.

(** ** Enrichment *)

Lemma lookup_fields_inv (field : location_record -> value)
      (metadata : metadata_map) (ids : list value) :
  forall names,
    mapM (lookup_field field metadata) ids = Ok names ->
    exists ks, ids = map VScalar ks.
Proof.
  induction ids as [|v ids IH]; simpl; intros names H.
  - now exists [].
  - destruct v as [k|l|d]; simpl in H; try discriminate.
    destruct (mapM (lookup_field field metadata) ids) as [names'|];
      simpl in H; [|discriminate].
    destruct (IH names' eq_refl) as (ks & ->). now exists (k :: ks).
Qed.

Lemma overwrite_commute (c c2 : string) (v v2 : value) (cols : list string) :
  String.eqb c2 c = false ->
  forall cs,
    overwrite c v cols (overwrite c2 v2 cols cs)
    = overwrite c2 v2 cols (overwrite c v cols cs).
Proof.
  intros Hneq. induction cols as [|c' cols IH]; intros [|x cs]; simpl; auto.
  rewrite IH. f_equal.
  destruct (String.eqb c' c) eqn:E1, (String.eqb c' c2) eqn:E2; auto.
  apply String.eqb_eq in E1. apply String.eqb_eq in E2. subst.
  now rewrite String.eqb_refl in Hneq.
Qed.

Lemma overwrite_app_other (c c2 : string) (v v2 : value) (cols : list string) :
  String.eqb c2 c = false ->
  forall cs, List.length cs = List.length cols ->
             overwrite c v (cols ++ [c2]) (cs ++ [v2])
             = overwrite c v cols cs ++ [v2].
Proof.
  intros Hneq. induction cols as [|c' cols IH]; intros [|x cs] Hlen;
    simpl in *; try discriminate.
  - now rewrite Hneq.
  - f_equal. apply IH. lia.
Qed.

Lemma setitem_written (df : DataFrame) (c : string) :
  rectangular df ->
  forall series,
    List.length series = nrows df ->
    Forall2 (fun r v => overwrite c v (columns (setitem df c series)) (cells r)
                        = cells r)
            (rows (setitem df c series)) series.
Proof.
  unfold rectangular, nrows, setitem. intros Hrect.
  destruct (has_column df c) eqn:E; simpl;
    induction Hrect as [|r rs Hr Hrs IH]; intros [|v vs] Hlen;
    simpl in *; try discriminate; constructor; auto; simpl.
  - apply overwrite_twice.
  - now apply overwrite_appended.
Qed.

Lemma setitem_keeps_written (df : DataFrame) (c c2 : string) :
  rectangular df ->
  String.eqb c2 c = false ->
  forall series s2,
    List.length s2 = nrows df ->
    Forall2 (fun r v => overwrite c v (columns df) (cells r) = cells r)
            (rows df) series ->
    Forall2 (fun r v => overwrite c v (columns (setitem df c2 s2)) (cells r)
                        = cells r)
            (rows (setitem df c2 s2)) series.
Proof.
  unfold rectangular, nrows, setitem. intros Hrect Hneq series s2 Hlen H.
  revert s2 Hlen.
  destruct (has_column df c2) eqn:E; simpl;
    induction H as [|r v rs vs Hr Hrs IH]; intros [|v2 s2] Hlen;
    simpl in *; try discriminate; try constructor;
    inversion Hrect; subst; auto; simpl.
  - rewrite overwrite_commute by assumption. now rewrite Hr.
  - rewrite overwrite_app_other by assumption. now rewrite Hr.
Qed.

Lemma enrich_computed (data_df : DataFrame) (metadata : metadata_map)
      (ks : list scalar) :
  rectangular data_df ->
  Frame.getitem data_df "location_id" = Ok (map VScalar ks) ->
  enrich_data_with_metadata data_df metadata
  = Ok (setitem (setitem data_df "location_name"
                         (map (field_or_blank location_name metadata) ks))
                "provider" (map (field_or_blank provider metadata) ks))
  /\ List.length ks = nrows data_df.
Proof.
  intros Hrect Hids.
  destruct (getitem_inv _ _ _ Hids) as (p & Hp & Hocc & Hcol).
  assert (Hn : List.length ks = nrows data_df).
  { unfold nrows. rewrite <- (length_map VScalar ks), Hcol.
    now rewrite length_map. }
  split; [|exact Hn].
  set (names := map (field_or_blank location_name metadata) ks).
  assert (Hlen1 : List.length names = nrows data_df)
    by (unfold names; now rewrite length_map).
  destruct (setitem_other_column data_df "location_name" names Hrect Hlen1
                                 "location_id" p eq_refl Hp)
    as (Hp1 & Hocc1 & Hcol1).
  unfold enrich_data_with_metadata.
  rewrite Hids. simpl. rewrite lookup_fields. simpl. fold names.
  rewrite (getitem_intro _ "location_id" p Hp1) by congruence.
  simpl. rewrite Hcol1, <- Hcol, lookup_fields. reflexivity.
Qed.

Lemma enrich_inv (data_df enriched : DataFrame) (metadata : metadata_map) :
  rectangular data_df ->
  enrich_data_with_metadata data_df metadata = Ok enriched ->
  exists ks,
    Frame.getitem data_df "location_id" = Ok (map VScalar ks)
    /\ List.length ks = nrows data_df
    /\ enriched
       = setitem (setitem data_df "location_name"
                          (map (field_or_blank location_name metadata) ks))
                 "provider" (map (field_or_blank provider metadata) ks).
Proof.
  intros Hrect H.
  assert (Hks : exists ks,
             Frame.getitem data_df "location_id" = Ok (map VScalar ks)).
  { unfold enrich_data_with_metadata in H.
    destruct (Frame.getitem data_df "location_id") as [ids|];
      simpl in H; [|discriminate].
    destruct (mapM (lookup_field location_name metadata) ids) as [names|] eqn:E;
      simpl in H; [|discriminate].
    destruct (lookup_fields_inv _ _ _ _ E) as (ks & ->). now exists ks. }
  destruct Hks as (ks & Hks). exists ks.
  destruct (enrich_computed data_df metadata ks Hrect Hks) as [Hc Hn].
  rewrite Hc in H. injection H as <-. auto.
Qed.

(** X7.  Enrichment touches nothing but the two columns it writes:
    the result is rectangular, has the rows of the input under the
    same index labels, and every other column keeps its place and
    its cells. *)
Theorem enrich_keeps_measurements
        (data_df enriched : DataFrame) (metadata : metadata_map)
        (c : string) (q : nat) :
  rectangular data_df ->
  enrich_data_with_metadata data_df metadata = Ok enriched ->
  c <> "location_name" -> c <> "provider" ->
  position c (columns data_df) = Some q ->
  rectangular enriched
  /\ map label (rows enriched) = map label (rows data_df)
  /\ position c (columns enriched) = Some q
  /\ map (cell_at q) (rows enriched) = map (cell_at q) (rows data_df).
Proof.
  intros Hrect H Hname Hprovider Hq.
  destruct (enrich_inv _ _ _ Hrect H) as (ks & _ & Hn & ->).
  set (names := map (field_or_blank location_name metadata) ks).
  set (providers := map (field_or_blank provider metadata) ks).
  assert (Hlen1 : List.length names = nrows data_df)
    by (unfold names; now rewrite length_map).
  set (df1 := setitem data_df "location_name" names).
  assert (Hrect1 : rectangular df1) by now apply setitem_rectangular.
  assert (Hlen2 : List.length providers = nrows df1).
  { unfold providers, df1. rewrite length_map, setitem_nrows; auto. }
  apply String.eqb_neq in Hname. apply String.eqb_neq in Hprovider.
  destruct (setitem_other_column data_df "location_name" names Hrect Hlen1
                                 c q Hname Hq) as (Hq1 & _ & Hcells1).
  fold df1 in Hq1, Hcells1.
  destruct (setitem_other_column df1 "provider" providers Hrect1 Hlen2
                                 c q Hprovider Hq1) as (Hq2 & _ & Hcells2).
  split; [now apply setitem_rectangular|].
  split.
  { rewrite setitem_labels by assumption. now apply setitem_labels. }
  split; [exact Hq2 | congruence].
Qed.

Lemma enrich_keeps_measurements_witness :
  rectangular sample_measurements
  /\ exists enriched,
      enrich_data_with_metadata sample_measurements sample_metadata
      = Ok enriched
      /\ position "value" (columns enriched) = Some 2%nat
      /\ map (cell_at 2) (rows enriched)
         = [VScalar (SFloat "12.5" (Finite 25 (-1))); VScalar (SFloat "40.0" (Finite 40 0))].
Proof.
  assert (Hrect : rectangular sample_measurements) by (repeat constructor).
  split; [exact Hrect|].
  eexists. split; [reflexivity|].
  destruct (enrich_keeps_measurements
              sample_measurements _ sample_metadata "value" 2
              Hrect eq_refl) as (_ & _ & Hq & Hcells);
    [discriminate | discriminate | reflexivity |].
  split; [exact Hq | exact Hcells].
Defined.

(** X8.  Enriching an enriched frame with the same mapping changes
    nothing. *)
Theorem enrich_is_idempotent
        (data_df enriched : DataFrame) (metadata : metadata_map) :
  rectangular data_df ->
  enrich_data_with_metadata data_df metadata = Ok enriched ->
  enrich_data_with_metadata enriched metadata = Ok enriched.
Proof.
  intros Hrect H.
  destruct (enrich_inv _ _ _ Hrect H) as (ks & Hids & Hn & ->).
  destruct (getitem_inv _ _ _ Hids) as (p & Hp & Hocc & Hcol).
  set (names := map (field_or_blank location_name metadata) ks).
  set (providers := map (field_or_blank provider metadata) ks).
  assert (Hlen1 : List.length names = nrows data_df)
    by (unfold names; now rewrite length_map).
  set (df1 := setitem data_df "location_name" names).
  assert (Hrect1 : rectangular df1) by now apply setitem_rectangular.
  assert (Hlen2 : List.length providers = nrows df1).
  { unfold providers, df1. rewrite length_map, setitem_nrows; auto. }
  set (df2 := setitem df1 "provider" providers).
  assert (Hrect2 : rectangular df2) by now apply setitem_rectangular.
  destruct (setitem_other_column data_df "location_name" names Hrect Hlen1
                                 "location_id" p eq_refl Hp)
    as (Hp1 & Hocc1 & Hcol1).
  fold df1 in Hp1, Hocc1, Hcol1.
  destruct (setitem_other_column df1 "provider" providers Hrect1 Hlen2
                                 "location_id" p eq_refl Hp1)
    as (Hp2 & Hocc2 & Hcol2).
  fold df2 in Hp2, Hocc2, Hcol2.
  assert (Hids2 : Frame.getitem df2 "location_id" = Ok (map VScalar ks)).
  { rewrite (getitem_intro df2 "location_id" p Hp2) by congruence.
    congruence. }
  destruct (enrich_computed df2 metadata ks Hrect2 Hids2) as [-> _].
  fold names providers.
  assert (Hfix1 : setitem df2 "location_name" names = df2).
  { apply setitem_fixed.
    - apply setitem_keeps_columns. apply setitem_has_column.
    - apply setitem_keeps_written; auto.
      now apply setitem_written. }
  rewrite Hfix1.
  assert (Hfix2 : setitem df2 "provider" providers = df2).
  { apply setitem_fixed; [apply setitem_has_column|].
    now apply setitem_written. }
  now rewrite Hfix2.
Qed.

Lemma enrich_is_idempotent_witness :
  rectangular sample_measurements
  /\ exists enriched,
      enrich_data_with_metadata sample_measurements sample_metadata
      = Ok enriched
      /\ enrich_data_with_metadata enriched sample_metadata = Ok enriched.
Proof.
  assert (Hrect : rectangular sample_measurements) by (repeat constructor).
  split; [exact Hrect|].
  eexists. split; [reflexivity|].
  apply (enrich_is_idempotent sample_measurements _ sample_metadata Hrect).
  reflexivity.
Defined.

(** ** Transform *)

Lemma fresh_against_seen (rs : list row) :
  forall seen,
    all_fresh seen rs = true ->
    forall r s, In r rs -> In s seen -> keys_eqb (row_key r) s = false.
Proof.
  induction rs as [|r0 rs IH]; simpl; intros seen H r s Hr Hs; [tauto|].
  apply andb_true_iff in H. destruct H as [H0 Hrs].
  apply negb_true_iff in H0.
  destruct Hr as [<-|Hr].
  - destruct (keys_eqb (row_key r0) s) eqn:E; [|reflexivity].
    assert (existsb (keys_eqb (row_key r0)) seen = true)
      by (apply existsb_exists; now exists s).
    congruence.
  - apply (IH (row_key r0 :: seen) Hrs r s Hr). now right.
Qed.

Lemma fresh_pairwise (rs : list row) :
  forall seen,
    all_fresh seen rs = true ->
    forall i j ri rj,
      (i < j)%nat ->
      nth_error rs i = Some ri -> nth_error rs j = Some rj ->
      keys_eqb (row_key rj) (row_key ri) = false.
Proof.
  induction rs as [|r0 rs IH]; intros seen H i j ri rj Hij Hi Hj.
  - destruct i; discriminate.
  - simpl in H. apply andb_true_iff in H. destruct H as [_ Hrs].
    destruct j as [|j]; [lia|]. simpl in Hj.
    destruct i as [|i]; simpl in Hi.
    + injection Hi as <-.
      apply (fresh_against_seen rs (row_key r0 :: seen) Hrs);
        [now apply nth_error_In in Hj | now left].
    + apply (IH (row_key r0 :: seen) Hrs i j); auto. lia.
Qed.

Lemma nth_error_of_maps {A B C} (f : A -> C) (g : B -> C)
      (l : list A) (l' : list B) (i : nat) (x : A) :
  map f l = map g l' ->
  nth_error l i = Some x ->
  exists y, nth_error l' i = Some y /\ g y = f x.
Proof.
  intros Hmap Hx.
  assert (H : nth_error (map g l') i = Some (f x)).
  { rewrite <- Hmap, nth_error_map, Hx. reflexivity. }
  rewrite nth_error_map in H.
  destruct (nth_error l' i) as [y|]; [|discriminate].
  exists y. split; [reflexivity|]. simpl in H. congruence.
Qed.

Section Parser.
Variable to_datetime : list value -> result (list value).
Variable lower : string -> string.
Hypothesis to_datetime_length : keeps_length to_datetime.

(** X9.  A frame returned by the transform holds no missing value and
    no two rows whose cells are equal one by one (under [==], so that
    0.0 and -0.0 count as equal); every name of its header is the
    lower-cased name of an input column with its spaces replaced, or
    [location], or [timestamp], and [location] is among them. *)
Theorem transformed_frame_is_clean (df df' : DataFrame) :
  rectangular df ->
  transform_data_for_rag to_datetime lower df = Ok df' ->
  rectangular df'
  /\ Forall (fun r => Forall (fun v => isna v = false) (cells r)) (rows df')
  /\ (forall i j ri rj,
         (i < j)%nat ->
         nth_error (rows df') i = Some ri ->
         nth_error (rows df') j = Some rj ->
         keys_eqb (row_key rj) (row_key ri) = false)
  /\ Forall (fun c => In c (map (normalize_column lower) (columns df))
                      \/ c = "location" \/ c = "timestamp")
            (columns df')
  /\ has_column df' "location" = true.
Proof.
  intros Hrect H.
  destruct (output_is_clean to_datetime lower to_datetime_length
                            df df' Hrect H)
    as (Hloc & _ & _ & Hfresh & Hfull).
  split; [now apply (transform_rectangular to_datetime lower
                       to_datetime_length df)|].
  split.
  { eapply Forall_impl; [|exact Hfull]. intros r Hr. simpl in Hr.
    apply Forall_forall. intros v Hv.
    destruct (isna v) eqn:E; [|reflexivity].
    assert (existsb isna (cells r) = true)
      by (apply existsb_exists; now exists v).
    congruence. }
  split; [exact (fresh_pairwise _ [] Hfresh)|].
  split; [|exact Hloc].
  destruct (stamped_frame to_datetime lower to_datetime_length
                          df df' Hrect H)
    as (df2 & _ & _ & _ & _ & Hnames & _ & _ & _ & ->).
  exact Hnames.
Qed.

(** X10.  When the returned frame has a [date] column, the input has
    it at the same place once renamed, and one call of the parser on
    the whole [date] column of the input gives the timestamps: every
    returned row is a row of the input, with its label and its date,
    and its [timestamp] cell is the entry of the parsed column at the
    place of that row in the input; that entry is not missing, the
    rows whose date did not parse being gone. *)
Theorem timestamp_is_the_parsed_date (df df' : DataFrame) :
  rectangular df ->
  transform_data_for_rag to_datetime lower df = Ok df' ->
  has_column df' "date" = true ->
  exists p q timestamps,
    position "date" (map (normalize_column lower) (columns df)) = Some p
    /\ to_datetime (map (cell_at p) (rows df)) = Ok timestamps
    /\ position "date" (columns df') = Some p
    /\ position "timestamp" (columns df') = Some q
    /\ Forall (fun r => exists i r0 t,
                   nth_error (rows df) i = Some r0
                   /\ nth_error timestamps i = Some t
                   /\ label r = label r0
                   /\ cell_at p r = cell_at p r0
                   /\ cell_at q r = t
                   /\ isna t = false)
              (rows df').
Proof.
  intros Hrect H Hdate.
  pose proof (transform_rectangular to_datetime lower to_datetime_length
                                    df df' Hrect H) as Hrect'.
  destruct (output_is_clean to_datetime lower to_datetime_length
                            df df' Hrect H)
    as (_ & _ & _ & _ & Hfull).
  destruct (stamped_frame to_datetime lower to_datetime_length
                          df df' Hrect H)
    as (df2 & _ & Hlab & _ & _ & _ & _ & Hparsed & _ & Hdf').
  assert (Hcols : columns df' = columns df2) by (now rewrite Hdf').
  destruct (has_column_position _ _ Hdate) as (p & Hp).
  rewrite Hcols in Hp.
  destruct (Hparsed p Hp) as (q & timestamps & Hp0 & Hparse & Hq & Hdates
                              & Hstamps).
  exists p, q, timestamps. rewrite Hcols.
  split; [exact Hp0|]. split; [exact Hparse|]. split; [exact Hp|].
  split; [exact Hq|].
  unfold rectangular in Hrect'.
  rewrite Forall_forall in *. intros r Hr.
  assert (Hr2 : In r (rows df2)).
  { rewrite Hdf' in Hr. simpl in Hr. now apply kept_rows_sub. }
  destruct (In_nth_error _ _ Hr2) as (i & Hi).
  destruct (nth_error_of_maps label label _ _ i r Hlab Hi)
    as (r0 & Hi0 & Hlabel).
  destruct (nth_error_of_maps (cell_at p) (cell_at p) _ _ i r Hdates Hi)
    as (r1 & Hi1 & Hcell).
  assert (r1 = r0) by congruence. subst r1.
  assert (Ht : nth_error timestamps i = Some (cell_at q r)).
  { rewrite <- Hstamps, nth_error_map, Hi. reflexivity. }
  exists i, r0, (cell_at q r).
  split; [exact Hi0|]. split; [exact Ht|]. split; [now rewrite Hlabel|].
  split; [now rewrite Hcell|]. split; [reflexivity|].
  specialize (Hfull r Hr). simpl in Hfull.
  destruct (isna (cell_at q r)) eqn:E; [|reflexivity].
  assert (existsb isna (cells r) = true).
  { apply existsb_exists. exists (cell_at q r). split; [|exact E].
    unfold cell_at. apply nth_In. rewrite (Hrect' r Hr), Hcols.
    now apply position_bound in Hq. }
  congruence.
Qed.

(** X11.  The transform only drops rows: the result has at most as
    many rows as the input, and every index label of the result is a
    label of the input. *)
Theorem transform_only_drops_rows (df df' : DataFrame) :
  rectangular df ->
  transform_data_for_rag to_datetime lower df = Ok df' ->
  (nrows df' <= nrows df)%nat
  /\ incl (map label (rows df')) (map label (rows df)).
Proof.
  intros Hrect H.
  destruct (stamped_frame to_datetime lower to_datetime_length
                          df df' Hrect H)
    as (df2 & _ & Hlab & _ & _ & _ & _ & _ & _ & ->).
  split.
  - unfold nrows. simpl.
    rewrite <- (length_map label (rows df)), <- Hlab, length_map.
    etransitivity; [apply filter_length_le | apply keep_first_length].
  - simpl. rewrite <- Hlab. intros l Hl.
    apply in_map_iff in Hl. destruct Hl as (r & <- & Hr).
    apply in_map. now apply kept_rows_sub.
Qed.

(** X12.  Two columns whose names both normalise to [date] make the
    transform raise [ValueError]: the date selection is then a frame,
    which the date parser refuses. *)
Theorem repeated_date_column_raises (df : DataFrame) :
  (2 <= occurrences "date" (map (normalize_column lower) (columns df)))%nat ->
  transform_data_for_rag to_datetime lower df = Raise ValueError.
Proof.
  intros Hocc. unfold transform_data_for_rag.
  set (df0 := {| columns := map (normalize_column lower) (columns df);
                 rows := rows df |}).
  set (df1 := if negb (has_column df0 "location")
              then setitem_const df0 "location" (SStr "Unknown")
              else df0).
  assert (H1 : (2 <= occurrences "date" (columns df1))%nat).
  { unfold df1. destruct (has_column df0 "location") eqn:E; simpl;
      [exact Hocc|].
    unfold setitem_const, setitem. rewrite E. simpl.
    now rewrite occurrences_app_other. }
  clearbody df1.
  assert (Hhas : has_column df1 "date" = true).
  { unfold has_column, occurrences in *.
    destruct (filter _ (columns df1)) as [|c cs] eqn:E; simpl in H1; [lia|].
    assert (Hc : In c (filter (fun c' => String.eqb c' "date") (columns df1)))
      by (rewrite E; now left).
    apply filter_In in Hc. apply existsb_exists. now exists c. }
  rewrite Hhas. unfold Frame.getitem.
  destruct (has_column_position _ _ Hhas) as (p & ->).
  destruct (occurrences "date" (columns df1)) as [|[|n]]; try lia.
  reflexivity.
Qed.

End Parser.

Lemma transformed_frame_is_clean_witness :
  rectangular sample_raw
  /\ exists df',
      transform_data_for_rag sample_to_datetime sample_lower sample_raw
      = Ok df'
      /\ Forall (fun r => Forall (fun v => isna v = false) (cells r))
                (rows df').
Proof.
  assert (Hrect : rectangular sample_raw) by (repeat constructor).
  split; [exact Hrect|].
  eexists. split; [reflexivity|].
  apply (transformed_frame_is_clean sample_to_datetime sample_lower
           sample_to_datetime_length sample_raw _ Hrect eq_refl).
Defined.

(** Two rows that differ in the sign of a zero are one row to the
    transform. *)
Example signed_zeros_are_duplicates :
  transform_data_for_rag sample_to_datetime sample_lower sample_zeros
  = Ok {| columns := ["value"; "location"];
          rows := [ {| label := 0;
                       cells := [VScalar (SFloat "0.0" (Finite 0 0));
                                 VScalar (SStr "Unknown")] |} ] |}.
Proof. vm_compute. reflexivity. Qed.

Lemma timestamp_is_the_parsed_date_witness :
  rectangular sample_ambiguous
  /\ exists df' p q timestamps,
      transform_data_for_rag slash_to_datetime sample_lower sample_ambiguous
      = Ok df'
      /\ has_column df' "date" = true
      /\ slash_to_datetime (map (cell_at p) (rows sample_ambiguous))
         = Ok timestamps
      /\ position "timestamp" (columns df') = Some q
      /\ Forall (fun r => exists i r0 t,
                     nth_error (rows sample_ambiguous) i = Some r0
                     /\ nth_error timestamps i = Some t
                     /\ label r = label r0
                     /\ cell_at p r = cell_at p r0
                     /\ cell_at q r = t
                     /\ isna t = false)
                (rows df').
Proof.
  assert (Hrect : rectangular sample_ambiguous) by (repeat constructor).
  split; [exact Hrect|].
  destruct (timestamp_is_the_parsed_date
              slash_to_datetime sample_lower slash_to_datetime_length
              sample_ambiguous _ Hrect eq_refl eq_refl)
    as (p & q & timestamps & _ & Hparse & _ & Hq & Hcells).
  eexists. exists p, q, timestamps. split; [reflexivity|].
  split; [reflexivity|]. split; [exact Hparse|].
  split; [exact Hq | exact Hcells].
Defined.

Lemma transform_only_drops_rows_witness :
  rectangular sample_raw
  /\ exists df',
      transform_data_for_rag sample_to_datetime sample_lower sample_raw
      = Ok df'
      /\ (nrows df' <= 3)%nat.
Proof.
  assert (Hrect : rectangular sample_raw) by (repeat constructor).
  split; [exact Hrect|].
  eexists. split; [reflexivity|].
  apply (transform_only_drops_rows sample_to_datetime sample_lower
           sample_to_datetime_length sample_raw _ Hrect eq_refl).
Defined.

Lemma repeated_date_column_raises_witness :
  (2 <= occurrences "date" (map (normalize_column sample_lower)
                                ["Date"; "date"; "value"]))%nat
  /\ transform_data_for_rag sample_to_datetime sample_lower
       {| columns := ["Date"; "date"; "value"]; rows := [] |}
     = Raise ValueError.
Proof.
  assert (H : (2 <= occurrences "date"
                      (map (normalize_column sample_lower)
                           ["Date"; "date"; "value"]))%nat)
    by (vm_compute; lia).
  split; [exact H|].
  apply (repeated_date_column_raises
           sample_to_datetime sample_lower
           {| columns := ["Date"; "date"; "value"]; rows := [] |} H).
Defined.

(** ** The artifacts of a run *)

Lemma normalized_name_kept (lower : string -> string)
      (cols : list string) (c : string) :
  existsb (fun c' => String.eqb c' c) cols = true ->
  normalize_column lower c = c ->
  existsb (fun c' => String.eqb c' c) (map (normalize_column lower) cols)
  = true.
Proof.
  intros H Hc. apply existsb_exists in H. destruct H as (x & Hx & E).
  apply String.eqb_eq in E. subst x.
  apply existsb_exists. exists c. split; [|apply String.eqb_refl].
  rewrite <- Hc at 1. now apply in_map.
Qed.

Section Run.
Variable requests_get : value -> string -> response.
Variable list_objects_v2 : string -> option (list string).
Variable read_object : string -> DataFrame.
Variable to_datetime : list value -> result (list value).
Variable lower : string -> string.
Variable environ : string -> option string.
Variable int : string -> result Z.
Variable strptime : string -> option datetime.
Variable load_city_config : string -> result (list (string * value)).
Variable API_KEY : string.
Variable OUTPUT_FILE_KEY_PREFIX : string.

Lemma process_cities_written (start_date end_date : datetime)
      (object : string * DataFrame) (config : list (string * value)) :
  forall written,
    In object
       (fst (process_cities requests_get list_objects_v2 read_object
                            to_datetime lower API_KEY OUTPUT_FILE_KEY_PREFIX
                            start_date end_date config written)) ->
    In object written
    \/ exists city bbox,
        In (city, bbox) config
        /\ process_city requests_get list_objects_v2 read_object to_datetime
                        lower API_KEY OUTPUT_FILE_KEY_PREFIX
                        start_date end_date city bbox
           = Ok (Some object).
Proof.
  induction config as [|[city bbox] config IH]; intros written H; simpl in H.
  - now left.
  - destruct (process_city _ _ _ _ _ _ _ _ _ city bbox) as [[o|]|e] eqn:E.
    + destruct (IH _ H) as [Hin | (c & b & Hc & Hp)].
      * apply in_app_or in Hin. destruct Hin as [Hin | [<- | []]].
        -- now left.
        -- right. exists city, bbox. split; [now left | exact E].
      * right. exists c, b. split; [now right | exact Hp].
    + destruct (IH _ H) as [Hin | (c & b & Hc & Hp)]; [now left|].
      right. exists c, b. split; [now right | exact Hp].
    + now left.
Qed.

Lemma process_city_inv (start_date end_date : datetime)
      (city : string) (bbox : value) (key : string) (frame : DataFrame) :
  process_city requests_get list_objects_v2 read_object to_datetime
               lower API_KEY OUTPUT_FILE_KEY_PREFIX
               start_date end_date city bbox
  = Ok (Some (key, frame)) ->
  key = OUTPUT_FILE_KEY_PREFIX +++ "/" +++ city +++ "_data.csv"
  /\ exists location_metadata enriched,
      enrich_data_with_metadata
        (fst (download_data_to_dataframe
                list_objects_v2 read_object (keys location_metadata)
                start_date end_date))
        location_metadata = Ok enriched
      /\ transform_data_for_rag to_datetime lower enriched = Ok frame.
Proof.
  unfold process_city.
  destruct (get_location_metadata requests_get city bbox API_KEY)
    as [location_metadata|]; simpl; [|discriminate].
  destruct (truthy (keys location_metadata)); [|discriminate].
  destruct (negb (empty _)); [|discriminate].
  destruct (enrich_data_with_metadata _ location_metadata) as [enriched|] eqn:E;
    simpl; [|discriminate].
  destruct (transform_data_for_rag to_datetime lower enriched) as [df|] eqn:T;
    simpl; [|discriminate].
  intros H. injection H as <- <-. split; [reflexivity|].
  now exists location_metadata, enriched.
Qed.

(** X13.  With a date parser that returns columns of the length it
    is given, and [str.lower] leaving the names [location_id],
    [location_name] and [provider] as they are, every object that a
    run writes is stored under the key of a configured city,
    [prefix/city_data.csv], and is a rectangular frame without a
    missing value that carries the columns [location_id],
    [location_name], [provider] and [location]. *)
Theorem written_artifacts_are_enriched_and_clean
        (key : string) (frame : DataFrame) :
  keeps_length to_datetime ->
  Forall (fun c => lower c = c) ["location_id"; "location_name"; "provider"] ->
  In (key, frame)
     (fst (main requests_get list_objects_v2 read_object to_datetime lower
                environ int strptime load_city_config
                API_KEY OUTPUT_FILE_KEY_PREFIX)) ->
  exists config city bbox,
    load_city_config (getenv environ "CITIES_CONFIG_FILE" "cities_config.json")
    = Ok config
    /\ In (city, bbox) config
    /\ key = OUTPUT_FILE_KEY_PREFIX +++ "/" +++ city +++ "_data.csv"
    /\ rectangular frame
    /\ Forall (fun r => Forall (fun v => isna v = false) (cells r))
              (rows frame)
    /\ has_column frame "location_id" = true
    /\ has_column frame "location_name" = true
    /\ has_column frame "provider" = true
    /\ has_column frame "location" = true.
Proof.
  intros Hlength Hlower. unfold main.
  destruct (date_window environ int strptime) as [[start_date end_date]|];
    [|intros []].
  destruct (load_city_config _) as [config|] eqn:Hconfig; [|intros []].
  intros H. apply process_cities_written in H.
  destruct H as [[] | (city & bbox & Hcity & Hp)].
  apply process_city_inv in Hp.
  destruct Hp as (Hkey & location_metadata & enriched & Henrich & Htransform).
  exists config, city, bbox.
  split; [reflexivity|]. split; [exact Hcity|]. split; [exact Hkey|].
  set (consolidated := fst (download_data_to_dataframe _ _ _ _ _)) in Henrich.
  assert (Hrect : rectangular consolidated)
    by apply downloaded_frame_rectangular.
  destruct (enrich_inv _ _ _ Hrect Henrich) as (ks & Hids & Hn & Heq).
  assert (Hrect' : rectangular enriched).
  { rewrite Heq. apply setitem_rectangular.
    - apply setitem_rectangular; [exact Hrect | now rewrite length_map].
    - rewrite length_map, setitem_nrows; auto. now rewrite length_map. }
  destruct (output_is_clean to_datetime lower Hlength enriched frame
                            Hrect' Htransform)
    as (Hloc & _ & _ & _ & Hfull).
  split; [now apply (transform_rectangular to_datetime lower Hlength
                       enriched)|].
  split.
  { eapply Forall_impl; [|exact Hfull]. intros r Hr. simpl in Hr.
    apply Forall_forall. intros v Hv.
    destruct (isna v) eqn:E; [|reflexivity].
    assert (existsb isna (cells r) = true)
      by (apply existsb_exists; now exists v).
    congruence. }
  destruct (stamped_frame to_datetime lower Hlength enriched frame
                          Hrect' Htransform)
    as (df2 & _ & _ & _ & Hcols & _ & _ & _ & _ & Hframe).
  assert (Hkeep : forall c, has_column enriched c = true ->
                            normalize_column lower c = c ->
                            has_column frame c = true).
  { intros c Hc Hnorm. rewrite Hframe. unfold has_column at 1. simpl.
    apply Hcols. unfold has_column, renamed. simpl.
    now apply normalized_name_kept. }
  pose proof (Forall_inv Hlower) as Hid.
  pose proof (Forall_inv (Forall_inv_tail Hlower)) as Hname.
  pose proof (Forall_inv (Forall_inv_tail (Forall_inv_tail Hlower)))
    as Hprovider.
  simpl in Hid, Hname, Hprovider.
  destruct (getitem_inv _ _ _ Hids) as (p & Hp & _ & _).
  repeat split.
  - apply Hkeep; [|unfold normalize_column; now rewrite Hid]. rewrite Heq.
    apply setitem_keeps_columns, setitem_keeps_columns.
    now apply (position_has_column _ _ p).
  - apply Hkeep; [|unfold normalize_column; now rewrite Hname]. rewrite Heq.
    apply setitem_keeps_columns, setitem_has_column.
  - apply Hkeep; [|unfold normalize_column; now rewrite Hprovider].
    rewrite Heq. apply setitem_has_column.
  - exact Hloc.
Qed.

(** X22.  A run whose environment is malformed writes nothing and
    ends with [ValueError] before the configuration is read: this
    holds when [NUMBER_OF_DAYS] is set to a text on which [int]
    raises [ValueError], although the number read is discarded, and
    when [int] goes through but the end date text is not accepted by
    [strptime]. *)
Theorem malformed_environment_stops_the_run (text : string) :
  (environ "NUMBER_OF_DAYS" = Some text /\ int text = Raise ValueError)
  \/ ((forall days, environ "NUMBER_OF_DAYS" = Some days ->
                    exists n, int days = Ok n)
      /\ strptime (getenv environ "END_DATE" "31/12/2023 23:59:59 +0530")
         = None) ->
  main requests_get list_objects_v2 read_object to_datetime lower
       environ int strptime load_city_config API_KEY OUTPUT_FILE_KEY_PREFIX
  = ([], Some ValueError).
Proof.
  intros H. unfold main.
  assert (Hwindow : date_window environ int strptime = Raise ValueError).
  { unfold date_window.
    destruct H as [[Henv Hbad] | [Hint Hdate]].
    - now rewrite Henv, Hbad.
    - destruct (environ "NUMBER_OF_DAYS") as [days|]; simpl.
      + destruct (Hint days eq_refl) as [n ->]. simpl. now rewrite Hdate.
      + now rewrite Hdate. }
  now rewrite Hwindow.
Qed.

End Run.

Lemma written_artifacts_are_enriched_and_clean_witness :
  In ("prefix/Delhi_data.csv",
      {| columns := ["location_id"; "datetime"; "value"; "location_name";
                     "provider"; "location"];
         rows := [ {| label := 0;
                      cells := [VScalar (SInt 42);
                                VScalar (SStr "2023-12-02T01:00:00+05:30");
                                VScalar (SFloat "12.5" (Finite 25 (-1)));
                                VScalar (SStr "Anand Vihar");
                                VScalar (SStr "");
                                VScalar (SStr "Unknown")] |} ] |})
     (fst (main sample_requests_get sample_listing sample_object
                sample_to_datetime sample_lower no_environ sample_int
                sample_strptime
                (fun _ => Ok [("Delhi", VList [])]) "key" "prefix"))
  /\ exists config city bbox,
      (fun _ : string => Ok [("Delhi", VList [])])
        (getenv no_environ "CITIES_CONFIG_FILE" "cities_config.json")
      = Ok config
      /\ In (city, bbox) config
      /\ "prefix/Delhi_data.csv" = "prefix" +++ "/" +++ city +++ "_data.csv".
Proof.
  assert (H : In ("prefix/Delhi_data.csv",
      {| columns := ["location_id"; "datetime"; "value"; "location_name";
                     "provider"; "location"];
         rows := [ {| label := 0;
                      cells := [VScalar (SInt 42);
                                VScalar (SStr "2023-12-02T01:00:00+05:30");
                                VScalar (SFloat "12.5" (Finite 25 (-1)));
                                VScalar (SStr "Anand Vihar");
                                VScalar (SStr "");
                                VScalar (SStr "Unknown")] |} ] |})
     (fst (main sample_requests_get sample_listing sample_object
                sample_to_datetime sample_lower no_environ sample_int
                sample_strptime
                (fun _ => Ok [("Delhi", VList [])]) "key" "prefix"))).
  { vm_compute. left. reflexivity. }
  split; [exact H|].
  destruct (written_artifacts_are_enriched_and_clean
              sample_requests_get sample_listing sample_object
              sample_to_datetime sample_lower no_environ sample_int
              sample_strptime (fun _ => Ok [("Delhi", VList [])])
              "key" "prefix" _ _ sample_to_datetime_length
              ltac:(repeat constructor) H)
    as (config & city & bbox & Hc & Hin & Hkey & _).
  exists config, city, bbox. auto.
Defined.

Lemma malformed_environment_stops_the_run_witness :
  sample_int "ten" = Raise ValueError
  /\ main sample_requests_get sample_listing sample_object
          sample_to_datetime sample_lower
          (setenv no_environ "NUMBER_OF_DAYS" "ten") sample_int
          sample_strptime
          (fun _ => Ok [("Delhi", VList [])]) "key" "prefix"
     = ([], Some ValueError).
Proof.
  split; [reflexivity|].
  apply (malformed_environment_stops_the_run
           sample_requests_get sample_listing sample_object
           sample_to_datetime sample_lower
           (setenv no_environ "NUMBER_OF_DAYS" "ten") sample_int
           sample_strptime
           (fun _ => Ok [("Delhi", VList [])]) "key" "prefix" "ten").
  left. split; reflexivity.
Defined.

End IngestMoreFacts.

(* ===================================================================== *)
(** * Further facts about stage 2 *)
(* ===================================================================== *)

Module PromptMoreFacts.
Import GeneratePrompts PromptSpec PromptMoreSpec FrameFacts PromptFacts.

Section Generator.
Variable V : Type.
Variable mean : list V -> option V.
Variable format_2f : V -> string.
Variable Dataset : Type.
Variable observations : Dataset -> string -> string
                        -> result (list (observation V)).

(** ** The two returned lists *)

Lemma fine_tuning_loop_items (location_name parameter : string)
      (daily : list (daily_row V)) (h f : Z) (l : list Z) :
  forall state,
    snd state = map (item_of_record "fine-tuning") (fst state) ->
    let state' := fold_left (fine_tuning_step V format_2f location_name
                                              parameter daily h f) l state in
    snd state' = map (item_of_record "fine-tuning") (fst state').
Proof.
  induction l as [|i l IH]; intros state Hstate; simpl; [exact Hstate|].
  apply IH. simpl. rewrite map_app, Hstate. reflexivity.
Qed.

(** X14.  Whenever the generator returns, its second list goes
    record by record with the first: a zero-shot call pairs its
    record with the bare instruction, a fine-tuning call pairs every
    record with the dictionary of the same instruction and
    response. *)
Theorem prompts_go_with_output_list
        (df : Dataset) (location_name parameter : string)
        (h f : Z) (prompt_type : string) (limit : option Z)
        (output_list : list prompt_record) (prompts : list prompt_item) :
  create_daily_forecast_prompts_v4 V mean format_2f Dataset observations
    df location_name parameter h f prompt_type limit
  = Ok (output_list, prompts) ->
  prompts = map (item_of_record prompt_type) output_list.
Proof.
  unfold create_daily_forecast_prompts_v4, item_of_record.
  destruct (observations df location_name parameter) as [rows|];
    [|discriminate].
  cbn [bind].
  destruct (String.eqb prompt_type "zero-shot") eqn:Ezs.
  { intros H. injection H as <- <-. reflexivity. }
  destruct (String.eqb prompt_type "fine-tuning") eqn:Eft;
    [|intros H; injection H as <- <-; reflexivity].
  destruct (_ >=? _); [|intros H; injection H as <- <-; reflexivity].
  intros H. injection H as H.
  pose proof (fine_tuning_loop_items
                location_name parameter
                (daily_data V mean rows location_name) h f
                (range h (Z.of_nat (List.length
                                      (daily_data V mean rows location_name))
                          - f + 1))
                ([], []) eq_refl) as Hloop.
  cbv zeta in Hloop. rewrite H in Hloop. simpl in Hloop.
  unfold item_of_record in Hloop. simpl in Hloop. exact Hloop.
Qed.

(** ** Windows *)






(** ** The zero-shot table *)




(** ** The daily table *)


















(** ** The two sequences of a run *)

Section Driver.
Variable s3_get_object : string -> string -> option string.
Variable read_csv : string -> option Dataset.
Variable load_city_config : string -> option (list (string * value)).
Variable TARGET_BUCKET_NAME : string.
Variable OUTPUT_FILE_KEY_PREFIX : string.

Lemma generator_returns
      (df : Dataset) (rows : list (observation V))
      (location_name parameter : string)
      (h f : Z) (prompt_type : string) (limit : option Z) :
  observations df location_name parameter = Ok rows ->
  exists lists,
    create_daily_forecast_prompts_v4 V mean format_2f Dataset observations
      df location_name parameter h f prompt_type limit
    = Ok lists
    /\ (prompt_type = "zero-shot" -> List.length (fst lists) = 1%nat).
Proof.
  intros Hrows. unfold create_daily_forecast_prompts_v4.
  rewrite Hrows. cbn [bind]. eexists. split; [reflexivity|].
  intros ->. reflexivity.
Qed.

Lemma process_accepted (city : string) :
  accepted V Dataset observations s3_get_object read_csv
           TARGET_BUCKET_NAME OUTPUT_FILE_KEY_PREFIX city ->
  forall state,
    process_location V mean format_2f Dataset observations
                     s3_get_object read_csv
                     TARGET_BUCKET_NAME OUTPUT_FILE_KEY_PREFIX state city
    = Ok (fst state
            ++ records_of_city V mean format_2f Dataset observations
                               s3_get_object read_csv
                               TARGET_BUCKET_NAME OUTPUT_FILE_KEY_PREFIX
                               "zero-shot" city,
          snd state
            ++ records_of_city V mean format_2f Dataset observations
                               s3_get_object read_csv
                               TARGET_BUCKET_NAME OUTPUT_FILE_KEY_PREFIX
                               "fine-tuning" city).
Proof.
  intros Hacc [zs ft]. unfold process_location, records_of_city.
  unfold accepted in Hacc.
  destruct (load_data_from_s3 _ _ _ _ _) as [df_hourly|].
  - destruct (Hacc df_hourly eq_refl) as [rows Hrows].
    destruct (generator_returns df_hourly rows city parameter_to_use
                history_length_days_forecast forecast_window_days_forecast
                "zero-shot" (Some max_prompts) Hrows) as (zero_shot & -> & _).
    destruct (generator_returns df_hourly rows city parameter_to_use
                history_length_days_forecast forecast_window_days_forecast
                "fine-tuning" (Some max_prompts) Hrows)
      as (fine_tuning & -> & _).
    reflexivity.
  - simpl. now rewrite !app_nil_r.
Qed.

Lemma process_locations_closed (cities : list string) :
  Forall (accepted V Dataset observations s3_get_object read_csv
                   TARGET_BUCKET_NAME OUTPUT_FILE_KEY_PREFIX) cities ->
  forall state,
    foldM (process_location V mean format_2f Dataset observations
                            s3_get_object read_csv
                            TARGET_BUCKET_NAME OUTPUT_FILE_KEY_PREFIX)
          cities state
    = Ok (fst state
            ++ flat_map (records_of_city V mean format_2f Dataset observations
                                         s3_get_object read_csv
                                         TARGET_BUCKET_NAME
                                         OUTPUT_FILE_KEY_PREFIX
                                         "zero-shot") cities,
          snd state
            ++ flat_map (records_of_city V mean format_2f Dataset observations
                                         s3_get_object read_csv
                                         TARGET_BUCKET_NAME
                                         OUTPUT_FILE_KEY_PREFIX
                                         "fine-tuning") cities).
Proof.
  induction 1 as [|city cities Hcity Hcities IH]; intros [zs ft]; simpl.
  - now rewrite !app_nil_r.
  - rewrite (process_accepted city Hcity). simpl.
    rewrite IH. simpl. now rewrite <- !app_assoc.
Qed.

Lemma zero_shot_sequence_length (cities : list string) :
  Forall (accepted V Dataset observations s3_get_object read_csv
                   TARGET_BUCKET_NAME OUTPUT_FILE_KEY_PREFIX) cities ->
  List.length
    (flat_map (records_of_city V mean format_2f Dataset observations
                               s3_get_object read_csv
                               TARGET_BUCKET_NAME OUTPUT_FILE_KEY_PREFIX
                               "zero-shot") cities)
  = List.length
      (filter (readable Dataset s3_get_object read_csv TARGET_BUCKET_NAME
                        OUTPUT_FILE_KEY_PREFIX) cities).
Proof.
  induction 1 as [|city cities Hcity Hcities IH]; simpl; [reflexivity|].
  rewrite length_app, IH. unfold records_of_city, readable.
  unfold accepted in Hcity.
  destruct (load_data_from_s3 _ _ _ _ _) as [df_hourly|]; [|reflexivity].
  destruct (Hcity df_hourly eq_refl) as [rows Hrows].
  destruct (generator_returns df_hourly rows city parameter_to_use
              history_length_days_forecast forecast_window_days_forecast
              "zero-shot" (Some max_prompts) Hrows) as (lists & -> & Hone).
  now rewrite (Hone eq_refl).
Qed.

(** X19.  When the artifact of every city that can be read goes
    through the opening statements of the generator, a run hands to
    [save_to_json] the records of the cities in configuration order,
    city after city, each sequence apart, and the zero-shot sequence
    holds exactly one record for every city whose artifact could be
    read.  When the artifact of a city is read and those statements
    raise on it, the cities before it being as above, the run ends
    with that exception and nothing is handed to [save_to_json]. *)
Theorem sequences_follow_the_configuration
        (config : list (string * value)) :
  load_city_config "cities_config.json" = Some config ->
  (Forall (accepted V Dataset observations s3_get_object read_csv
                    TARGET_BUCKET_NAME OUTPUT_FILE_KEY_PREFIX)
          (map fst config) ->
   main V mean format_2f Dataset observations
        s3_get_object read_csv load_city_config
        TARGET_BUCKET_NAME OUTPUT_FILE_KEY_PREFIX
   = Ok (flat_map (records_of_city V mean format_2f Dataset observations
                                   s3_get_object read_csv
                                   TARGET_BUCKET_NAME OUTPUT_FILE_KEY_PREFIX
                                   "zero-shot") (map fst config),
         flat_map (records_of_city V mean format_2f Dataset observations
                                   s3_get_object read_csv
                                   TARGET_BUCKET_NAME OUTPUT_FILE_KEY_PREFIX
                                   "fine-tuning") (map fst config))
   /\ List.length
        (flat_map (records_of_city V mean format_2f Dataset observations
                                   s3_get_object read_csv
                                   TARGET_BUCKET_NAME OUTPUT_FILE_KEY_PREFIX
                                   "zero-shot") (map fst config))
      = List.length
          (filter (readable Dataset s3_get_object read_csv TARGET_BUCKET_NAME
                            OUTPUT_FILE_KEY_PREFIX) (map fst config)))
  /\ (forall before after city df_hourly e,
         map fst config = before ++ city :: after ->
         Forall (accepted V Dataset observations s3_get_object read_csv
                          TARGET_BUCKET_NAME OUTPUT_FILE_KEY_PREFIX)
                before ->
         load_data_from_s3 Dataset s3_get_object read_csv TARGET_BUCKET_NAME
                           (s3_file_key OUTPUT_FILE_KEY_PREFIX city)
         = Some df_hourly ->
         observations df_hourly city parameter_to_use = Raise e ->
         main V mean format_2f Dataset observations
              s3_get_object read_csv load_city_config
              TARGET_BUCKET_NAME OUTPUT_FILE_KEY_PREFIX
         = Raise e).
Proof.
  intros Hconfig. split.
  - intros Hall. split; [|now apply zero_shot_sequence_length].
    unfold main. rewrite Hconfig.
    now rewrite (process_locations_closed _ Hall).
  - intros before after city df_hourly e Hcities Hbefore Hload Hraise.
    unfold main. rewrite Hconfig, Hcities, foldM_app.
    rewrite (process_locations_closed _ Hbefore). simpl.
    unfold process_location at 1. rewrite Hload.
    rewrite (generator_raises V mean format_2f Dataset observations
               df_hourly city parameter_to_use
               history_length_days_forecast forecast_window_days_forecast
               "zero-shot" (Some max_prompts) e Hraise).
    reflexivity.
Qed.

End Driver.

End Generator.

Lemma prompts_go_with_output_list_witness :
  exists output_list prompts,
    create_daily_forecast_prompts_v4 Z sample_mean sample_format
      DataFrame sample_observations
      (sample_frame 12) "X" "value" 10 2 "fine-tuning" None
    = Ok (output_list, prompts)
    /\ prompts = map (item_of_record "fine-tuning") output_list.
Proof.
  eexists. eexists. split; [vm_compute; reflexivity|].
  apply (prompts_go_with_output_list
           Z sample_mean sample_format DataFrame sample_observations
           (sample_frame 12) "X" "value" 10 2 "fine-tuning" None).
  vm_compute. reflexivity.
Defined.



(** The prompt of the worked example, with its ten table lines. *)
Example twelve_days_zero_shot_prompt :
  option_map (fun lists => map Prompt (fst lists))
    (match create_daily_forecast_prompts_v4 Z sample_mean sample_format
             DataFrame sample_observations
             (sample_frame 12) "X" "value" 10 2 "zero-shot" None with
     | Ok lists => Some lists
     | Raise _ => None
     end)
  = Some
      ["You are an advanced forecasting system tasked with predicting daily air quality for X."
         +++ nl +++ "The data includes daily mean values for 'value' (in µg/m³)."
         +++ nl +++ nl
         +++ "### Historical Data (from 2023-01-03 to 2023-01-12):" +++ nl
         +++ "| Date       | Value (µg/m³) |" +++ nl
         +++ "|------------|---------------|" +++ nl
         +++ "| 2023-01-03 | 12.00 |" +++ nl
         +++ "| 2023-01-04 | 13.00 |" +++ nl
         +++ "| 2023-01-05 | 14.00 |" +++ nl
         +++ "| 2023-01-06 | 15.00 |" +++ nl
         +++ "| 2023-01-07 | 16.00 |" +++ nl
         +++ "| 2023-01-08 | 17.00 |" +++ nl
         +++ "| 2023-01-09 | 18.00 |" +++ nl
         +++ "| 2023-01-10 | 19.00 |" +++ nl
         +++ "| 2023-01-11 | 20.00 |" +++ nl
         +++ "| 2023-01-12 | 21.00 |" +++ nl +++ nl
         +++ "### Instructions:" +++ nl
         +++ "1. Forecast daily mean 'value' for each day from 2023-01-13 to 2023-01-14."
         +++ nl +++ "2. Provide output as a table:" +++ nl
         +++ "| Date       | Predicted Value (µg/m³) |" +++ nl
         +++ "|------------|-------------------------|"].
Proof. vm_compute. reflexivity. Qed.


Lemma sequences_follow_the_configuration_witness :
  Forall (accepted Z DataFrame sample_observations sample_store
                   sample_read_csv "bucket" "prefix")
         (map fst [("Mumbai", VList []); ("Delhi", VList [])])
  /\ List.length
       (flat_map (records_of_city Z sample_mean sample_format
                                  DataFrame sample_observations sample_store
                                  sample_read_csv "bucket" "prefix"
                                  "zero-shot")
                 (map fst [("Mumbai", VList []); ("Delhi", VList [])]))
     = List.length
         (filter (readable DataFrame sample_store sample_read_csv
                           "bucket" "prefix")
                 (map fst [("Mumbai", VList []); ("Delhi", VList [])])).
Proof.
  assert (Hall : Forall (accepted Z DataFrame sample_observations sample_store
                                  sample_read_csv "bucket" "prefix")
                        (map fst [("Mumbai", VList []); ("Delhi", VList [])])).
  { repeat constructor.
    - intros df_hourly Hload. discriminate Hload.
    - intros df_hourly Hload. vm_compute in Hload. injection Hload as <-.
      exists (sample_days 12). vm_compute. reflexivity. }
  split; [exact Hall|].
  destruct (sequences_follow_the_configuration
              Z sample_mean sample_format DataFrame sample_observations
              sample_store sample_read_csv
              (fun _ => Some [("Mumbai", VList []); ("Delhi", VList [])])
              "bucket" "prefix"
              [("Mumbai", VList []); ("Delhi", VList [])] eq_refl)
    as [H _].
  exact (proj2 (H Hall)).
Defined.

End PromptMoreFacts.
